(** * Course API (src/main.py): a shallow embedding and its properties

    The program is a FastAPI application over four MongoDB collections
    (instructors, students, courses, enrollments).  The handlers of
    main.py are embedded as functions in a state-and-exception monad over
    the four collections; [bson.ObjectId], the pymongo collection calls and
    the pydantic schemas they rely on are modelled just far enough to run
    the handlers. *)

From Stdlib Require Import ZArith Lia.
From Stdlib.Strings Require Import Ascii String Byte.
From stdpp Require Import base option list countable strings gmap fin_maps.

Local Open Scope Z_scope.
Local Open Scope string_scope.
Local Open Scope list_scope.

(** ** bson: ObjectId and document values *)

Module Bson.

(** An ObjectId wraps the bytes of its [binary] attribute. *)
Definition ObjectId : Type := list byte.

#[global] Instance byte_eq_dec : EqDecision byte := Byte.byte_eq_dec.
#[global] Instance byte_countable : Countable byte :=
  inj_countable Byte.to_N Byte.of_N Byte.of_to_N.

(** [ObjectId()] as the driver calls it for a document without [_id]:
    twelve bytes (timestamp, process random value, counter). *)
Definition generated (oid : ObjectId) : Prop := length oid = 12%nat.

Definition hexdigit (n : N) : ascii :=
  match n with
  | 0 => "0" | 1 => "1" | 2 => "2" | 3 => "3" | 4 => "4" | 5 => "5"
  | 6 => "6" | 7 => "7" | 8 => "8" | 9 => "9" | 10 => "a" | 11 => "b"
  | 12 => "c" | 13 => "d" | 14 => "e" | _ => "f"
  end%N%char.

(** The value of one hexadecimal digit, either case. *)
Definition unhex (c : ascii) : option N :=
  let n := N_of_ascii c in
  if ((48 <=? n) && (n <=? 57))%N then Some (n - 48)%N
  else if ((97 <=? n) && (n <=? 102))%N then Some (n - 87)%N
  else if ((65 <=? n) && (n <=? 70))%N then Some (n - 55)%N
  else None.

Definition byte_of_nibbles (hi lo : N) : option byte :=
  Byte.of_N (16 * hi + lo).

(** [Py_ISSPACE]: the ASCII white space (space, and tab to carriage
    return). *)
Definition is_space (c : ascii) : bool :=
  let n := N_of_ascii c in ((n =? 32) || ((9 <=? n) && (n <=? 13)))%N.

(** [bytes.fromhex]: two hexadecimal digits per byte; white space is
    skipped before a byte, not between its two digits; [None]
    ([ValueError]) on anything else. *)
Fixpoint fromhex (s : list ascii) : option (list byte) :=
  match s with
  | [] => Some []
  | c :: s' =>
      if is_space c then fromhex s'
      else
        match s' with
        | [] => None
        | d :: s'' =>
            match unhex c, unhex d with
            | Some hi, Some lo =>
                match byte_of_nibbles hi lo, fromhex s'' with
                | Some b, Some bs => Some (b :: bs)
                | _, _ => None
                end
            | _, _ => None
            end
        end
  end.

(** [binascii.hexlify]: two lower-case digits per byte. *)
Fixpoint hexlify (bs : list byte) : list ascii :=
  match bs with
  | [] => []
  | b :: bs' =>
      let n := Byte.to_N b in
      hexdigit (n / 16) :: hexdigit (n mod 16) :: hexlify bs'
  end.

(** [ObjectId(s)] on a [str]: a string of 24 characters that
    [bytes.fromhex] reads; [InvalidId] ([None]) on any other string.
    24 hexadecimal digits give twelve bytes; white space among the 24
    characters gives fewer. *)
Definition ObjectId_of_str (s : string) : option ObjectId :=
  if (String.length s =? 24)%nat
  then fromhex (list_ascii_of_string s)
  else None.

(** [str(oid)]. *)
Definition str (oid : ObjectId) : string :=
  string_of_list_ascii (hexlify oid).

(** [ObjectId.is_valid] restricted to strings. *)
Definition is_valid (s : string) : bool :=
  match ObjectId_of_str s with Some _ => true | None => false end.

(** [datetime] values, in microseconds since the epoch. *)
Definition datetime : Type := Z.

(** The values the handlers put in and read from documents. *)
Inductive Value : Type :=
| VNone
| VStr (s : string)
| VOid (oid : ObjectId)
| VDatetime (t : datetime).

#[global] Instance Value_eq_dec : EqDecision Value.
Proof. solve_decision. Defined.

(** A Python [dict] with string keys, and a BSON document alike. *)
Abbreviation Document := (gmap string Value).

(** BSON stores a datetime as milliseconds since the epoch: a value
    written and read back has lost its microseconds. *)
Definition bson_datetime (t : datetime) : datetime := t / 1000 * 1000.

Definition bson_value (v : Value) : Value :=
  match v with
  | VDatetime t => VDatetime (bson_datetime t)
  | _ => v
  end.

Definition bson_document (d : Document) : Document := bson_value <$> d.

End Bson.
Import Bson.

(** ** What the handlers take from the libraries around them *)

(** Two library functions are left open: the [email-validator] check
    behind pydantic's [EmailStr], which returns the normalised address or
    rejects the string, and [str] on a [datetime].  [ObjectId_fresh n] is
    the [n]-th value [ObjectId()] generates in this process. *)
Class Externals := {
  validate_email : string -> option string;
  datetime_str : datetime -> string;
  ObjectId_fresh : nat -> ObjectId
}.

(** ** Exceptions, the state and the monad of the handlers *)

Inductive Exn : Type :=
| HTTPException (status_code : Z) (detail : string)
| InvalidId
| TypeError
| KeyError (key : string)
| ValidationError
| DuplicateKeyError
| WriteError.

(** A pymongo collection: its documents in natural order. *)
Abbreviation Collection := (list Document).

(** [db = client["course_db"]] with its four collections. *)
Record DB : Type := mkDB {
  instructors : Collection;
  students : Collection;
  courses : Collection;
  enrollments : Collection
}.

(** The module-level collection handles. *)
Inductive ColHandle : Type :=
| instructors_col | students_col | courses_col | enrollments_col.

Definition get_col (h : ColHandle) (d : DB) : Collection :=
  match h with
  | instructors_col => instructors d
  | students_col => students d
  | courses_col => courses d
  | enrollments_col => enrollments d
  end.

Definition set_col (h : ColHandle) (c : Collection) (d : DB) : DB :=
  match h with
  | instructors_col => mkDB c (students d) (courses d) (enrollments d)
  | students_col => mkDB (instructors d) c (courses d) (enrollments d)
  | courses_col => mkDB (instructors d) (students d) c (enrollments d)
  | enrollments_col => mkDB (instructors d) (students d) (courses d) c
  end.

(** What a request can read and change: the database, and the number of
    ObjectIds this process has generated so far. *)
Record State : Type := mkState {
  db : DB;
  oid_inc : nat
}.

(** A computation either raises or returns, and leaves a state behind in
    both cases. *)
Definition M (A : Type) : Type := State -> (Exn + A) * State.

Definition ret {A} (a : A) : M A := fun st => (inr a, st).

Definition raise {A} (e : Exn) : M A := fun st => (inl e, st).

Definition bind {A B} (m : M A) (k : A -> M B) : M B :=
  fun st =>
    match m st with
    | (inr a, st') => k a st'
    | (inl e, st') => (inl e, st')
    end.

Declare Scope py_scope.
Delimit Scope py_scope with py.
Notation "x <- m ;; k" := (bind m (fun x => k))
  (at level 100, m at next level, right associativity) : py_scope.
Local Open Scope py_scope.

(** [try: m except Exception: h]. *)
Definition try_except {A} (m : M A) (h : Exn -> M A) : M A :=
  fun st =>
    match m st with
    | (inr a, st') => (inr a, st')
    | (inl e, st') => h e st'
    end.

(** A list comprehension or a [for] loop whose body can raise: the first
    exception ends it. *)
Fixpoint for_each {A B} (f : A -> M B) (l : list A) : M (list B) :=
  match l with
  | [] => ret []
  | a :: l' => b <- f a ;; bs <- for_each f l' ;; ret (b :: bs)
  end.

(** ** ObjectId construction and [str] *)

(** [ObjectId()]. *)
Definition ObjectId_generate `{Externals} : M ObjectId :=
  fun st => (inr (ObjectId_fresh (oid_inc st)),
             mkState (db st) (S (oid_inc st))).

(** [ObjectId(v)]: a string is parsed, an ObjectId is copied, [None] asks
    for a fresh one, anything else is a [TypeError]. *)
Definition ObjectId_new `{Externals} (v : Value) : M ObjectId :=
  match v with
  | VStr s =>
      match ObjectId_of_str s with
      | Some oid => ret oid
      | None => raise InvalidId
      end
  | VOid oid => ret oid
  | VNone => ObjectId_generate
  | VDatetime _ => raise TypeError
  end.

(** [str(v)]. *)
Definition py_str `{Externals} (v : Value) : string :=
  match v with
  | VNone => "None"
  | VStr s => s
  | VOid oid => str oid
  | VDatetime t => datetime_str t
  end.

(** [d[k]]. *)
Definition getitem (d : Document) (k : string) : M Value :=
  match d !! k with
  | Some v => ret v
  | None => raise (KeyError k)
  end.

(** [d["_id"] = str(d["_id"])]. *)
Definition set_id_str `{Externals} (d : Document) : M Document :=
  v <- getitem d "_id" ;; ret (<["_id" := VStr (py_str v)]> d).

(** ** pymongo: the collection calls the handlers make *)

Module Pymongo.

(** The three shapes of filter the handlers pass:
    [{}], [{k: v}] and [{k: {"$in": vs}}]. *)
Inductive Filter : Type :=
| FAll
| FEq (k : string) (v : Value)
| FIn (k : string) (vs : list Value).

(** A missing field matches [None], as in MongoDB. *)
Definition field (d : Document) (k : string) : Value :=
  match d !! k with Some v => v | None => VNone end.

Definition matches (q : Filter) (d : Document) : bool :=
  match q with
  | FAll => true
  | FEq k v => bool_decide (field d k = v)
  | FIn k vs => bool_decide (field d k ∈ vs)
  end.

Fixpoint find_docs (q : Filter) (c : Collection) : list Document :=
  match c with
  | [] => []
  | d :: c' => if matches q d then d :: find_docs q c' else find_docs q c'
  end.

Definition has_id (v : Value) (c : Collection) : bool :=
  match find_docs (FEq "_id" v) c with [] => false | _ => true end.

(** [$set]: the fields of [upd] replace or extend those of the first
    match; the server refuses a change of [_id]. *)
Fixpoint set_first (q : Filter) (upd : Document) (c : Collection)
  : Exn + (Z * Collection) :=
  match c with
  | [] => inr (0, [])
  | d :: c' =>
      if matches q d then
        match upd !! "_id" with
        | Some v => if bool_decide (d !! "_id" = Some v)
                    then inr (1, (upd ∪ d) :: c')
                    else inl WriteError
        | None => inr (1, (upd ∪ d) :: c')
        end
      else
        match set_first q upd c' with
        | inr (n, c'') => inr (n, d :: c'')
        | inl e => inl e
        end
  end.

Fixpoint remove_first (q : Filter) (c : Collection) : Z * Collection :=
  match c with
  | [] => (0, [])
  | d :: c' =>
      if matches q d then (1, c')
      else let '(n, c'') := remove_first q c' in (n, d :: c'')
  end.

(** [col.find(q)], already turned into a list.  The dicts are decoded
    anew on every call: what a handler writes into them afterwards does
    not reach the collection. *)
Definition find (h : ColHandle) (q : Filter) : M (list Document) :=
  fun st => (inr (find_docs q (get_col h (db st))), st).

(** [col.find_one(q)]. *)
Definition find_one (h : ColHandle) (q : Filter) : M (option Document) :=
  fun st => (inr (head (find_docs q (get_col h (db st)))), st).

(** [col.insert_one(doc).inserted_id] for a [doc] without [_id], which
    is what every caller passes: the driver adds a generated [_id], the
    server refuses an [_id] it already holds. *)
Definition insert_one `{Externals} (h : ColHandle) (doc : Document)
  : M ObjectId :=
  oid <- ObjectId_generate ;;
  fun st =>
    let c := get_col h (db st) in
    if has_id (VOid oid) c then (inl DuplicateKeyError, st)
    else (inr oid,
          mkState (set_col h (c ++ [<["_id" := VOid oid]> (bson_document doc)])
                     (db st))
                  (oid_inc st)).

(** [col.update_one(q, {"$set": upd}).matched_count]. *)
Definition update_one (h : ColHandle) (q : Filter) (upd : Document) : M Z :=
  fun st =>
    match set_first q (bson_document upd) (get_col h (db st)) with
    | inr (n, c') => (inr n, mkState (set_col h c' (db st)) (oid_inc st))
    | inl e => (inl e, st)
    end.

(** [col.delete_one(q).deleted_count]. *)
Definition delete_one (h : ColHandle) (q : Filter) : M Z :=
  fun st =>
    let '(n, c') := remove_first q (get_col h (db st)) in
    (inr n, mkState (set_col h c' (db st)) (oid_inc st)).

End Pymongo.
Import Pymongo.

(** ** pydantic: the schemas of main.py *)

(** What executing the module leaves behind that a later request depends
    on: the default of [EnrollmentCreate.timestamp], the value
    [datetime.utcnow()] had when the class body ran. *)
Record MainModule : Type := mkMainModule {
  timestamp_default : datetime
}.

(** Executing main.py at time [utcnow]. *)
Definition import_main (utcnow : datetime) : MainModule :=
  mkMainModule utcnow.

Module Pydantic.

(** A required [str] field. *)
Definition str_field (d : Document) (k : string) : option string :=
  match d !! k with
  | Some (VStr s) => Some s
  | _ => None
  end.

(** An [Optional[str] = None] field. *)
Definition optional_str_field (d : Document) (k : string)
  : option (option string) :=
  match d !! k with
  | None | Some VNone => Some None
  | Some (VStr s) => Some (Some s)
  | Some _ => None
  end.

(** An [EmailStr] field: a string the validator accepts, normalised. *)
Definition email_field `{Externals} (d : Document) (k : string)
  : option string :=
  match d !! k with
  | Some (VStr s) => validate_email s
  | _ => None
  end.

(** A [datetime] field with a default.  A value is a datetime already
    (reading one from JSON text is not modelled). *)
Definition datetime_field (dflt : datetime) (d : Document) (k : string)
  : option datetime :=
  match d !! k with
  | None => Some dflt
  | Some (VDatetime t) => Some t
  | Some _ => None
  end.

(** [id: Optional[str] = Field(alias="_id")] under [populate_by_name]:
    required, read under the alias or else under its name. *)
Definition id_field (d : Document) : option (option string) :=
  match d !! "_id" with
  | Some VNone => Some None
  | Some (VStr s) => Some (Some s)
  | Some _ => None
  | None =>
      match d !! "id" with
      | Some VNone => Some None
      | Some (VStr s) => Some (Some s)
      | _ => None
      end
  end.

Definition optional_value (o : option string) : Value :=
  match o with Some s => VStr s | None => VNone end.

End Pydantic.
Import Pydantic.

Module InstructorCreate.
Record t : Type := mk {
  name : string;
  email : string;
  expertise : option string
}.
Definition validate `{Externals} (d : Document) : option t :=
  match str_field d "name", email_field d "email",
        optional_str_field d "expertise" with
  | Some n, Some e, Some x => Some (mk n e x)
  | _, _, _ => None
  end.
Definition dict (x : t) : Document :=
  <["name" := VStr (name x)]>
    (<["email" := VStr (email x)]>
       (<["expertise" := optional_value (expertise x)]> ∅)).
End InstructorCreate.

Module Instructor.
Record t : Type := mk {
  id : option string;
  base : InstructorCreate.t
}.
Definition validate `{Externals} (d : Document) : option t :=
  match id_field d, InstructorCreate.validate d with
  | Some i, Some b => Some (mk i b)
  | _, _ => None
  end.
(** The dict of the object under its aliases. *)
Definition dump (x : t) : Document :=
  <["_id" := optional_value (id x)]> (InstructorCreate.dict (base x)).
End Instructor.

Module StudentCreate.
Record t : Type := mk {
  name : string;
  email : string
}.
Definition validate `{Externals} (d : Document) : option t :=
  match str_field d "name", email_field d "email" with
  | Some n, Some e => Some (mk n e)
  | _, _ => None
  end.
Definition dict (x : t) : Document :=
  <["name" := VStr (name x)]> (<["email" := VStr (email x)]> ∅).
End StudentCreate.

Module Student.
Record t : Type := mk {
  id : option string;
  base : StudentCreate.t
}.
Definition validate `{Externals} (d : Document) : option t :=
  match id_field d, StudentCreate.validate d with
  | Some i, Some b => Some (mk i b)
  | _, _ => None
  end.
Definition dump (x : t) : Document :=
  <["_id" := optional_value (id x)]> (StudentCreate.dict (base x)).
End Student.

Module CourseCreate.
Record t : Type := mk {
  title : string;
  description : option string;
  instructor_id : string
}.
Definition validate (d : Document) : option t :=
  match str_field d "title", optional_str_field d "description",
        str_field d "instructor_id" with
  | Some ti, Some de, Some i => Some (mk ti de i)
  | _, _, _ => None
  end.
Definition dict (x : t) : Document :=
  <["title" := VStr (title x)]>
    (<["description" := optional_value (description x)]>
       (<["instructor_id" := VStr (instructor_id x)]> ∅)).
End CourseCreate.

Module Course.
Record t : Type := mk {
  id : option string;
  base : CourseCreate.t
}.
Definition validate (d : Document) : option t :=
  match id_field d, CourseCreate.validate d with
  | Some i, Some b => Some (mk i b)
  | _, _ => None
  end.
Definition dump (x : t) : Document :=
  <["_id" := optional_value (id x)]> (CourseCreate.dict (base x)).
End Course.

Module EnrollmentCreate.
Record t : Type := mk {
  student_id : string;
  course_id : string;
  timestamp : datetime
}.
Definition validate (main : MainModule) (d : Document) : option t :=
  match str_field d "student_id", str_field d "course_id",
        datetime_field (timestamp_default main) d "timestamp" with
  | Some s, Some c, Some ts => Some (mk s c ts)
  | _, _, _ => None
  end.
Definition dict (x : t) : Document :=
  <["student_id" := VStr (student_id x)]>
    (<["course_id" := VStr (course_id x)]>
       (<["timestamp" := VDatetime (timestamp x)]> ∅)).
End EnrollmentCreate.

Module Enrollment.
Record t : Type := mk {
  id : option string;
  base : EnrollmentCreate.t
}.
Definition validate (main : MainModule) (d : Document) : option t :=
  match id_field d, EnrollmentCreate.validate main d with
  | Some i, Some b => Some (mk i b)
  | _, _ => None
  end.
Definition dump (x : t) : Document :=
  <["_id" := optional_value (id x)]> (EnrollmentCreate.dict (base x)).
End Enrollment.

(** Calling a model class with keyword arguments: the arguments are
    validated, a failure raises [ValidationError]. *)
Definition construct {A} (validate : Document -> option A)
  (kwargs : Document) : M A :=
  match validate kwargs with
  | Some a => ret a
  | None => raise ValidationError
  end.

(** ** The handlers of main.py *)

Section Handlers.
Context `{Externals}.
Variable main : MainModule.

(** [try: obj_id = ObjectId(s) except Exception: raise HTTPException(400, ...)] *)
Definition parse_id (s : string) : M ObjectId :=
  try_except (ObjectId_new (VStr s))
    (fun _ => raise (HTTPException 400 "Invalid id format")).

(** [{"_id": obj_id}] *)
Definition by_id (obj_id : ObjectId) : Filter := FEq "_id" (VOid obj_id).

(** [not doc] on the result of [find_one]. *)
Definition falsy (doc : option Document) : bool :=
  match doc with
  | None => true
  | Some d => bool_decide (d = ∅)
  end.

(** [doc["_id"] = str(doc["_id"])] on the result of [find_one]. *)
Definition set_id_str_opt (doc : option Document) : M Document :=
  match doc with
  | Some d => set_id_str d
  | None => raise TypeError
  end.

(** *** Instructor router *)

Definition create_instructor (instructor : InstructorCreate.t)
  : M Instructor.t :=
  inserted_id <- insert_one instructors_col (InstructorCreate.dict instructor) ;;
  construct Instructor.validate
    (<["id" := VStr (str inserted_id)]> (InstructorCreate.dict instructor)).

Definition list_instructors : M (list Document) :=
  docs <- find instructors_col FAll ;;
  for_each set_id_str docs.

Definition get_instructor (instructor_id : string) : M Document :=
  obj_id <- parse_id instructor_id ;;
  doc <- find_one instructors_col (by_id obj_id) ;;
  if falsy doc then raise (HTTPException 404 "Instructor not found")
  else set_id_str_opt doc.

Definition update_instructor (instructor_id : string)
  (data : InstructorCreate.t) : M Document :=
  obj_id <- parse_id instructor_id ;;
  matched_count <- update_one instructors_col (by_id obj_id)
                     (InstructorCreate.dict data) ;;
  if (matched_count =? 0)%Z
  then raise (HTTPException 404 "Instructor not found")
  else doc <- find_one instructors_col (by_id obj_id) ;;
       set_id_str_opt doc.

Definition delete_instructor (instructor_id : string) : M unit :=
  obj_id <- parse_id instructor_id ;;
  deleted_count <- delete_one instructors_col (by_id obj_id) ;;
  if (deleted_count =? 0)%Z
  then raise (HTTPException 404 "Instructor not found")
  else ret tt.

(** *** Student router *)

Definition create_student (student : StudentCreate.t) : M Student.t :=
  inserted_id <- insert_one students_col (StudentCreate.dict student) ;;
  construct Student.validate
    (<["id" := VStr (str inserted_id)]> (StudentCreate.dict student)).

Definition list_students : M (list Document) :=
  docs <- find students_col FAll ;;
  for_each set_id_str docs.

Definition get_student (student_id : string) : M Document :=
  obj_id <- parse_id student_id ;;
  doc <- find_one students_col (by_id obj_id) ;;
  if falsy doc then raise (HTTPException 404 "Student not found")
  else set_id_str_opt doc.

Definition update_student (student_id : string) (data : StudentCreate.t)
  : M Document :=
  obj_id <- parse_id student_id ;;
  matched_count <- update_one students_col (by_id obj_id)
                     (StudentCreate.dict data) ;;
  if (matched_count =? 0)%Z
  then raise (HTTPException 404 "Student not found")
  else doc <- find_one students_col (by_id obj_id) ;;
       set_id_str_opt doc.

Definition delete_student (student_id : string) : M unit :=
  obj_id <- parse_id student_id ;;
  deleted_count <- delete_one students_col (by_id obj_id) ;;
  if (deleted_count =? 0)%Z
  then raise (HTTPException 404 "Student not found")
  else ret tt.

(** *** Course router *)

Definition create_course (course : CourseCreate.t) : M Course.t :=
  inserted_id <- insert_one courses_col (CourseCreate.dict course) ;;
  construct Course.validate
    (<["id" := VStr (str inserted_id)]> (CourseCreate.dict course)).

Definition list_courses : M (list Document) :=
  docs <- find courses_col FAll ;;
  for_each set_id_str docs.

Definition get_course (course_id : string) : M Document :=
  obj_id <- parse_id course_id ;;
  doc <- find_one courses_col (by_id obj_id) ;;
  if falsy doc then raise (HTTPException 404 "Course not found")
  else set_id_str_opt doc.

Definition update_course (course_id : string) (data : CourseCreate.t)
  : M Document :=
  obj_id <- parse_id course_id ;;
  matched_count <- update_one courses_col (by_id obj_id)
                     (CourseCreate.dict data) ;;
  if (matched_count =? 0)%Z
  then raise (HTTPException 404 "Course not found")
  else doc <- find_one courses_col (by_id obj_id) ;;
       set_id_str_opt doc.

Definition delete_course (course_id : string) : M unit :=
  obj_id <- parse_id course_id ;;
  deleted_count <- delete_one courses_col (by_id obj_id) ;;
  if (deleted_count =? 0)%Z
  then raise (HTTPException 404 "Course not found")
  else ret tt.

Definition get_courses_by_instructor (instructor_id : string)
  : M (list Document) :=
  docs <- find courses_col (FEq "instructor_id" (VStr instructor_id)) ;;
  for_each set_id_str docs.

(** *** Enrollment router *)

Definition enroll_student (enrollment : EnrollmentCreate.t)
  : M Enrollment.t :=
  inserted_id <- insert_one enrollments_col
                   (EnrollmentCreate.dict enrollment) ;;
  construct (Enrollment.validate main)
    (<["id" := VStr (str inserted_id)]> (EnrollmentCreate.dict enrollment)).

Definition list_enrollments : M (list Document) :=
  docs <- find enrollments_col FAll ;;
  for_each set_id_str docs.

Definition delete_enrollment (enrollment_id : string) : M unit :=
  obj_id <- parse_id enrollment_id ;;
  deleted_count <- delete_one enrollments_col (by_id obj_id) ;;
  if (deleted_count =? 0)%Z
  then raise (HTTPException 404 "Enrollment not found")
  else ret tt.

Definition get_courses_of_student (student_id : string)
  : M (list Document) :=
  enrolls <- find enrollments_col (FEq "student_id" (VStr student_id)) ;;
  course_ids <- for_each (fun e => getitem e "course_id") enrolls ;;
  oids <- for_each ObjectId_new course_ids ;;
  docs <- find courses_col (FIn "_id" (VOid <$> oids)) ;;
  for_each set_id_str docs.

Definition get_students_of_course (course_id : string)
  : M (list Document) :=
  enrolls <- find enrollments_col (FEq "course_id" (VStr course_id)) ;;
  student_ids <- for_each (fun e => getitem e "student_id") enrolls ;;
  oids <- for_each ObjectId_new student_ids ;;
  docs <- find students_col (FIn "_id" (VOid <$> oids)) ;;
  for_each set_id_str docs.

End Handlers.

(** ** FastAPI: from a request to a response *)

Inductive Method : Type := GET | POST | PUT | DELETE.

#[global] Instance Method_eq_dec : EqDecision Method.
Proof. solve_decision. Defined.

(** A request: when it is handled, its method, the segments of its path
    (a trailing slash is not told apart) and its JSON body, if any. *)
Record Request : Type := mkRequest {
  received_at : datetime;
  method : Method;
  path : list string;
  body : option Document
}.

Inductive Content : Type :=
| CNone
| CDetail (detail : string)
| CValidationErrors
| CInstructor (r : Instructor.t)
| CInstructors (l : list Instructor.t)
| CStudent (r : Student.t)
| CStudents (l : list Student.t)
| CCourse (r : Course.t)
| CCourses (l : list Course.t)
| CEnrollment (r : Enrollment.t)
| CEnrollments (l : list Enrollment.t)
| CDocumentation (url : string).

Record Response : Type := mkResponse {
  status_code : Z;
  content : Content
}.

Definition Endpoint : Type :=
  list string -> option Document -> State -> Response * State.

(** How FastAPI answers for a handler: an [HTTPException] becomes its
    status and detail, any other exception a 500; what the handler returns
    goes through the response model (a model object as its dict under the
    aliases), and a value the model rejects is a 500 as well. *)
Definition respond {A} (success : Z) (response_model : A -> option Content)
  (h : M A) : State -> Response * State :=
  fun st =>
    match h st with
    | (inr a, st') =>
        match response_model a with
        | Some c => (mkResponse success c, st')
        | None => (mkResponse 500 (CDetail "Internal Server Error"), st')
        end
    | (inl (HTTPException code detail), st') =>
        (mkResponse code (CDetail detail), st')
    | (inl _, st') =>
        (mkResponse 500 (CDetail "Internal Server Error"), st')
    end.

(** A body parameter: validated before the handler is called, 422
    otherwise. *)
Definition with_body {A} (validate : Document -> option A)
  (b : option Document) (k : A -> State -> Response * State)
  : State -> Response * State :=
  match b with
  | Some d =>
      match validate d with
      | Some a => k a
      | None => fun st => (mkResponse 422 CValidationErrors, st)
      end
  | None => fun st => (mkResponse 422 CValidationErrors, st)
  end.

(** The path parameter of a route with one. *)
Definition param (params : list string) : string :=
  match params with p :: _ => p | [] => "" end.

(** A segment of a route's path: literal text or a [{parameter}]. *)
Inductive Seg : Type :=
| Lit (s : string)
| Param.

Fixpoint match_path (pat : list Seg) (p : list string)
  : option (list string) :=
  match pat, p with
  | [], [] => Some []
  | Lit s :: pat', x :: p' =>
      if bool_decide (x = s) then match_path pat' p' else None
  | Param :: pat', x :: p' =>
      if bool_decide (x = "") then None
      else match match_path pat' p' with
           | Some ps => Some (x :: ps)
           | None => None
           end
  | _, _ => None
  end.

Record Route : Type := mkRoute {
  route_method : Method;
  route_path : list Seg;
  route_endpoint : Endpoint
}.

(** [FastAPI(title="Course API")] registers, before any router is
    included, the routes of the documentation it generates: the OpenAPI
    schema, the two pages that show it and the OAuth2 redirect page.  They
    answer GET with 200 and read or write no collection; what they send is
    kept as the URL only. *)
Definition documentation (url : string) : Endpoint :=
  fun _ _ st => (mkResponse 200 (CDocumentation url), st).

Definition default_routes : list Route := [
  mkRoute GET [Lit "openapi.json"] (documentation "/openapi.json");
  mkRoute GET [Lit "docs"] (documentation "/docs");
  mkRoute GET [Lit "docs"; Lit "oauth2-redirect"]
    (documentation "/docs/oauth2-redirect");
  mkRoute GET [Lit "redoc"] (documentation "/redoc")
].

Section App.
Context `{Externals}.
Variable main : MainModule.

Definition instructor_model (d : Document) : option Content :=
  CInstructor <$> Instructor.validate d.
Definition instructors_model (l : list Document) : option Content :=
  CInstructors <$> mapM Instructor.validate l.
Definition student_model (d : Document) : option Content :=
  CStudent <$> Student.validate d.
Definition students_model (l : list Document) : option Content :=
  CStudents <$> mapM Student.validate l.
Definition course_model (d : Document) : option Content :=
  CCourse <$> Course.validate d.
Definition courses_model (l : list Document) : option Content :=
  CCourses <$> mapM Course.validate l.
Definition enrollment_model (d : Document) : option Content :=
  CEnrollment <$> Enrollment.validate main d.
Definition enrollments_model (l : list Document) : option Content :=
  CEnrollments <$> mapM (Enrollment.validate main) l.
Definition no_content (_ : unit) : option Content := Some CNone.

(** The routes in the order main.py registers them. *)
Definition instructor_router : list Route := [
  mkRoute POST [Lit "instructors"] (fun _ b =>
    with_body InstructorCreate.validate b (fun instructor =>
      respond 201 (fun r => instructor_model (Instructor.dump r))
        (create_instructor instructor)));
  mkRoute GET [Lit "instructors"] (fun _ _ =>
    respond 200 instructors_model list_instructors);
  mkRoute GET [Lit "instructors"; Param] (fun ps _ =>
    respond 200 instructor_model (get_instructor (param ps)));
  mkRoute PUT [Lit "instructors"; Param] (fun ps b =>
    with_body InstructorCreate.validate b (fun data =>
      respond 200 instructor_model (update_instructor (param ps) data)));
  mkRoute DELETE [Lit "instructors"; Param] (fun ps _ =>
    respond 204 no_content (delete_instructor (param ps)))
].

Definition student_router : list Route := [
  mkRoute POST [Lit "students"] (fun _ b =>
    with_body StudentCreate.validate b (fun student =>
      respond 201 (fun r => student_model (Student.dump r))
        (create_student student)));
  mkRoute GET [Lit "students"] (fun _ _ =>
    respond 200 students_model list_students);
  mkRoute GET [Lit "students"; Param] (fun ps _ =>
    respond 200 student_model (get_student (param ps)));
  mkRoute PUT [Lit "students"; Param] (fun ps b =>
    with_body StudentCreate.validate b (fun data =>
      respond 200 student_model (update_student (param ps) data)));
  mkRoute DELETE [Lit "students"; Param] (fun ps _ =>
    respond 204 no_content (delete_student (param ps)))
].

Definition course_router : list Route := [
  mkRoute POST [Lit "courses"] (fun _ b =>
    with_body CourseCreate.validate b (fun course =>
      respond 201 (fun r => course_model (Course.dump r))
        (create_course course)));
  mkRoute GET [Lit "courses"] (fun _ _ =>
    respond 200 courses_model list_courses);
  mkRoute GET [Lit "courses"; Param] (fun ps _ =>
    respond 200 course_model (get_course (param ps)));
  mkRoute PUT [Lit "courses"; Param] (fun ps b =>
    with_body CourseCreate.validate b (fun data =>
      respond 200 course_model (update_course (param ps) data)));
  mkRoute DELETE [Lit "courses"; Param] (fun ps _ =>
    respond 204 no_content (delete_course (param ps)));
  mkRoute GET [Lit "courses"; Lit "instructor"; Param] (fun ps _ =>
    respond 200 courses_model (get_courses_by_instructor (param ps)))
].

Definition enrollment_router : list Route := [
  mkRoute POST [Lit "enrollments"] (fun _ b =>
    with_body (EnrollmentCreate.validate main) b (fun enrollment =>
      respond 201 (fun r => enrollment_model (Enrollment.dump r))
        (enroll_student main enrollment)));
  mkRoute GET [Lit "enrollments"] (fun _ _ =>
    respond 200 enrollments_model list_enrollments);
  mkRoute DELETE [Lit "enrollments"; Param] (fun ps _ =>
    respond 204 no_content (delete_enrollment (param ps)));
  mkRoute GET [Lit "enrollments"; Lit "student"; Param; Lit "courses"]
    (fun ps _ => respond 200 courses_model (get_courses_of_student (param ps)));
  mkRoute GET [Lit "enrollments"; Lit "course"; Param; Lit "students"]
    (fun ps _ => respond 200 students_model (get_students_of_course (param ps)))
].

(** The routes of [app]: those [FastAPI(...)] starts with, then
    [app.include_router(...)], four times. *)
Definition routes : list Route :=
  default_routes
  ++ instructor_router ++ student_router ++ course_router ++ enrollment_router.

(** The router: the first route whose path and method both match answers;
    failing that, a route whose path alone matches makes it a 405, and no
    match at all a 404. *)
Fixpoint dispatch (rs : list Route) (partial : bool) (req : Request)
  : State -> Response * State :=
  match rs with
  | [] =>
      fun st =>
        if partial then (mkResponse 405 (CDetail "Method Not Allowed"), st)
        else (mkResponse 404 (CDetail "Not Found"), st)
  | r :: rs' =>
      match match_path (route_path r) (path req) with
      | Some ps =>
          if bool_decide (route_method r = method req)
          then route_endpoint r ps (body req)
          else dispatch rs' true req
      | None => dispatch rs' partial req
      end
  end.

Definition app (req : Request) : State -> Response * State :=
  dispatch routes false req.

End App.

(** Requests served one after the other. *)
Fixpoint serve `{Externals} (main : MainModule) (reqs : list Request)
  (st : State) : list Response * State :=
  match reqs with
  | [] => ([], st)
  | r :: reqs' =>
      let '(x, st') := app main r st in
      let '(xs, st'') := serve main reqs' st' in
      (x :: xs, st'')
  end.

(** ** The vocabulary of the properties *)

(** The by-id operations of main.py, ten in all: the Enrollment router
    has a delete only. *)
Inductive ByIdCall : Type :=
| GetInstructor (instructor_id : string)
| UpdateInstructor (instructor_id : string) (data : InstructorCreate.t)
| DeleteInstructor (instructor_id : string)
| GetStudent (student_id : string)
| UpdateStudent (student_id : string) (data : StudentCreate.t)
| DeleteStudent (student_id : string)
| GetCourse (course_id : string)
| UpdateCourse (course_id : string) (data : CourseCreate.t)
| DeleteCourse (course_id : string)
| DeleteEnrollment (enrollment_id : string).

(** A handler run for its outcome: raised or returned. *)
Definition outcome {A} (h : M A) : State -> (Exn + unit) * State :=
  fun st =>
    match h st with
    | (inr _, st') => (inr tt, st')
    | (inl e, st') => (inl e, st')
    end.

Definition call `{Externals} (c : ByIdCall) : State -> (Exn + unit) * State :=
  match c with
  | GetInstructor i => outcome (get_instructor i)
  | UpdateInstructor i data => outcome (update_instructor i data)
  | DeleteInstructor i => outcome (delete_instructor i)
  | GetStudent i => outcome (get_student i)
  | UpdateStudent i data => outcome (update_student i data)
  | DeleteStudent i => outcome (delete_student i)
  | GetCourse i => outcome (get_course i)
  | UpdateCourse i data => outcome (update_course i data)
  | DeleteCourse i => outcome (delete_course i)
  | DeleteEnrollment i => outcome (delete_enrollment i)
  end.

(** The identifier a call is made with. *)
Definition call_id (c : ByIdCall) : string :=
  match c with
  | GetInstructor i | UpdateInstructor i _ | DeleteInstructor i
  | GetStudent i | UpdateStudent i _ | DeleteStudent i
  | GetCourse i | UpdateCourse i _ | DeleteCourse i
  | DeleteEnrollment i => i
  end.

(** The collection a call works on. *)
Definition call_col (c : ByIdCall) : ColHandle :=
  match c with
  | GetInstructor _ | UpdateInstructor _ _ | DeleteInstructor _ =>
      instructors_col
  | GetStudent _ | UpdateStudent _ _ | DeleteStudent _ => students_col
  | GetCourse _ | UpdateCourse _ _ | DeleteCourse _ => courses_col
  | DeleteEnrollment _ => enrollments_col
  end.

(** The detail of its 404. *)
Definition not_found_detail (h : ColHandle) : string :=
  match h with
  | instructors_col => "Instructor not found"
  | students_col => "Student not found"
  | courses_col => "Course not found"
  | enrollments_col => "Enrollment not found"
  end.

(** The delete handler of each collection. *)
Definition delete_by_id `{Externals} (h : ColHandle) : string -> M unit :=
  match h with
  | instructors_col => delete_instructor
  | students_col => delete_student
  | courses_col => delete_course
  | enrollments_col => delete_enrollment
  end.

(** MongoDB keeps [_id] unique within a collection. *)
Definition unique_ids (c : Collection) : Prop :=
  NoDup ((fun d : Document => d !! "_id") <$> c).

Definition unique_db (d : DB) : Prop :=
  unique_ids (instructors d) /\ unique_ids (students d) /\
  unique_ids (courses d) /\ unique_ids (enrollments d).

(** A reference as the API writes it and [ObjectId] reads it: a string of
    the ObjectId syntax under key [k]. *)
Definition well_formed_ref (k : string) (e : Document) : bool :=
  match e !! k with
  | Some (VStr s) => is_valid s
  | _ => false
  end.

(** The loop [for d in docs: d["_id"] = str(d["_id"])] without the
    state it does not touch. *)
Definition set_id_of `{Externals} (d : Document) : Exn + Document :=
  match d !! "_id" with
  | Some v => inr (<["_id" := VStr (py_str v)]> d)
  | None => inl (KeyError "_id")
  end.

Fixpoint set_ids `{Externals} (docs : list Document)
  : Exn + list Document :=
  match docs with
  | [] => inr []
  | d :: docs' =>
      match set_id_of d with
      | inr d' =>
          match set_ids docs' with
          | inr ds => inr (d' :: ds)
          | inl e => inl e
          end
      | inl e => inl e
      end
  end.

(** The three shapes the by-id handlers share; each handler of main.py is
    one of them at its collection, its message and, for an update, the
    dict of its data. *)
Definition get_shape `{Externals} (h : ColHandle) (detail : string)
  (s : string) : M Document :=
  obj_id <- parse_id s ;;
  doc <- find_one h (by_id obj_id) ;;
  if falsy doc then raise (HTTPException 404 detail)
  else set_id_str_opt doc.

Definition update_shape `{Externals} (h : ColHandle) (detail : string)
  (s : string) (upd : Document) : M Document :=
  obj_id <- parse_id s ;;
  matched_count <- update_one h (by_id obj_id) upd ;;
  if (matched_count =? 0)%Z
  then raise (HTTPException 404 detail)
  else doc <- find_one h (by_id obj_id) ;;
       set_id_str_opt doc.

Definition delete_shape `{Externals} (h : ColHandle) (detail : string)
  (s : string) : M unit :=
  obj_id <- parse_id s ;;
  deleted_count <- delete_one h (by_id obj_id) ;;
  if (deleted_count =? 0)%Z
  then raise (HTTPException 404 detail)
  else ret tt.

Inductive Shape : Type :=
| SGet
| SUpdate (upd : Document)
| SDelete.

Definition call_shape (c : ByIdCall) : Shape :=
  match c with
  | GetInstructor _ | GetStudent _ | GetCourse _ => SGet
  | UpdateInstructor _ data => SUpdate (InstructorCreate.dict data)
  | UpdateStudent _ data => SUpdate (StudentCreate.dict data)
  | UpdateCourse _ data => SUpdate (CourseCreate.dict data)
  | DeleteInstructor _ | DeleteStudent _ | DeleteCourse _
  | DeleteEnrollment _ => SDelete
  end.

Definition run_shape `{Externals} (k : Shape) (h : ColHandle) (s : string)
  : State -> (Exn + unit) * State :=
  match k with
  | SGet => outcome (get_shape h (not_found_detail h) s)
  | SUpdate upd => outcome (update_shape h (not_found_detail h) s upd)
  | SDelete => outcome (delete_shape h (not_found_detail h) s)
  end.

(** The state an insert leaves. *)
Definition inserted `{Externals} (h : ColHandle) (doc : Document)
  (st : State) : State :=
  mkState
    (set_col h (get_col h (db st) ++
                [<["_id" := VOid (ObjectId_fresh (oid_inc st))]>
                   (bson_document doc)])
       (db st))
    (S (oid_inc st)).

(** A computation that keeps [_id] unique in every collection. *)
Definition preserves {R} (m : State -> R * State) : Prop :=
  forall st r st',
    m st = (r, st') -> unique_db (db st) -> unique_db (db st').

(** The four entities, the first segment of their routes and their
    collections. *)
Inductive Entity : Type := EInstructor | EStudent | ECourse | EEnrollment.

Definition resource (e : Entity) : string :=
  match e with
  | EInstructor => "instructors"
  | EStudent => "students"
  | ECourse => "courses"
  | EEnrollment => "enrollments"
  end.

Definition entity_col (e : Entity) : ColHandle :=
  match e with
  | EInstructor => instructors_col
  | EStudent => students_col
  | ECourse => courses_col
  | EEnrollment => enrollments_col
  end.

(** The record that is the validated input of [body] plus the identifier
    [id]; [None] when the input schema rejects [body]. *)
Definition record_of `{Externals} (main : MainModule) (e : Entity)
  (body : Document) (id : string) : option Content :=
  match e with
  | EInstructor =>
      (fun i => CInstructor (Instructor.mk (Some id) i))
        <$> InstructorCreate.validate body
  | EStudent =>
      (fun i => CStudent (Student.mk (Some id) i))
        <$> StudentCreate.validate body
  | ECourse =>
      (fun i => CCourse (Course.mk (Some id) i))
        <$> CourseCreate.validate body
  | EEnrollment =>
      (fun i => CEnrollment (Enrollment.mk (Some id) i))
        <$> EnrollmentCreate.validate main body
  end.

(** A body the input schema of the entity accepts. *)
Definition valid_input `{Externals} (main : MainModule) (e : Entity)
  (body : Document) : Prop :=
  is_Some (record_of main e body "").

(** The validator accepts what it returns, and leaves it as it is. *)
Definition email_stable `{Externals} : Prop :=
  forall s s', validate_email s = Some s' -> validate_email s' = Some s'.

(** Create, then get by the identifier the create returned, with nothing
    in between: the POST answers 201 with the input plus an identifier, and
    the GET on that identifier answers 200 with the same record. *)
Definition create_then_get `{Externals} (main : MainModule) (e : Entity)
  (t1 t2 : datetime) (body : Document) (st : State) : Prop :=
  exists id c st1,
    app main (mkRequest t1 POST [resource e] (Some body)) st
      = (mkResponse 201 c, st1) /\
    record_of main e body id = Some c /\
    app main (mkRequest t2 GET [resource e; id] None) st1
      = (mkResponse 200 c, st1).

(** ** A run-time and a database for the examples *)

(** Any string with an [@] passes for an address, as it is. *)
Fixpoint has_at (s : string) : bool :=
  match s with
  | EmptyString => false
  | String c s' => if Ascii.eqb c "@" then true else has_at s'
  end.

(** The [n]-th ObjectId: eleven zero bytes and [n] modulo 256. *)
Definition nth_oid (n : nat) : ObjectId :=
  (replicate 11 x00 ++
   [match Byte.of_N (N.of_nat n mod 256) with Some b => b | None => x00 end])%list.

Definition example_externals : Externals := {|
  validate_email := fun s => if has_at s then Some s else None;
  datetime_str := fun _ => "";
  ObjectId_fresh := nth_oid
|}.

Definition empty_db : DB := mkDB [] [] [] [].

(** A small database for the examples: the server starts at second 1
    on an empty database; Ada is created as instructor (id ...00), CS101
    as her course (...01), Bob as student (...02), and Bob is enrolled in
    CS101 twice (...03 and ...04). *)
Definition example_main : MainModule := import_main 1000000.

Definition example_requests : list Request := [
  mkRequest 2000000 POST ["instructors"]
    (Some (<["name" := VStr "Ada"]> (<["email" := VStr "ada@x.com"]> ∅)));
  mkRequest 3000000 POST ["courses"]
    (Some (<["title" := VStr "CS101"]>
             (<["instructor_id" := VStr "000000000000000000000000"]> ∅)));
  mkRequest 4000000 POST ["students"]
    (Some (<["name" := VStr "Bob"]> (<["email" := VStr "bob@x.com"]> ∅)));
  mkRequest 5000000 POST ["enrollments"]
    (Some (<["student_id" := VStr "000000000000000000000002"]>
             (<["course_id" := VStr "000000000000000000000001"]> ∅)));
  mkRequest 6000000 POST ["enrollments"]
    (Some (<["student_id" := VStr "000000000000000000000002"]>
             (<["course_id" := VStr "000000000000000000000001"]> ∅)))
].

Definition example_state : State :=
  Eval vm_compute in
    snd (@serve example_externals example_main example_requests
           (mkState empty_db 0)).

(** The example database after Ada's expertise has been set. *)
Definition example_state_expert : State :=
  snd (@update_instructor example_externals "000000000000000000000000"
         (InstructorCreate.mk "Ada" "ada@x.com" (Some "logic"))
         example_state).

(** ** The vocabulary of the further properties *)

(** A computation that leaves the database as it found it. *)
Definition keeps_db {R} (m : State -> R * State) : Prop :=
  forall st, db (snd (m st)) = db st.

(** The first segment of every route of the four routers, and of every
    route of the generated documentation. *)
Definition is_resource (x : string) : bool :=
  bool_decide (x = "instructors") || bool_decide (x = "students")
  || bool_decide (x = "courses") || bool_decide (x = "enrollments").

(** A string without white space. *)
Definition no_space (s : string) : bool :=
  forallb (fun c => negb (is_space c)) (list_ascii_of_string s).

Definition is_documentation (x : string) : bool :=
  bool_decide (x = "openapi.json") || bool_decide (x = "docs")
  || bool_decide (x = "redoc").

(** The list handler of each collection. *)
Definition list_all `{Externals} (h : ColHandle) : M (list Document) :=
  match h with
  | instructors_col => list_instructors
  | students_col => list_students
  | courses_col => list_courses
  | enrollments_col => list_enrollments
  end.

(** What [d["_id"] = str(d["_id"])] makes of a document. *)
Definition id_as_str `{Externals} (d d' : Document) : Prop :=
  exists v, d !! "_id" = Some v /\ d' = <["_id" := VStr (py_str v)]> d.

(** The same call with another identifier. *)
Definition with_id (c : ByIdCall) (s : string) : ByIdCall :=
  match c with
  | GetInstructor _ => GetInstructor s
  | UpdateInstructor _ data => UpdateInstructor s data
  | DeleteInstructor _ => DeleteInstructor s
  | GetStudent _ => GetStudent s
  | UpdateStudent _ data => UpdateStudent s data
  | DeleteStudent _ => DeleteStudent s
  | GetCourse _ => GetCourse s
  | UpdateCourse _ data => UpdateCourse s data
  | DeleteCourse _ => DeleteCourse s
  | DeleteEnrollment _ => DeleteEnrollment s
  end.

(** A list of records with one more record at its end. *)
Definition listed_with (l c : Content) : option Content :=
  match l, c with
  | CInstructors rs, CInstructor r => Some (CInstructors (rs ++ [r]))
  | CStudents rs, CStudent r => Some (CStudents (rs ++ [r]))
  | CCourses rs, CCourse r => Some (CCourses (rs ++ [r]))
  | CEnrollments rs, CEnrollment r => Some (CEnrollments (rs ++ [r]))
  | _, _ => None
  end.

(** The response model of one record of each entity. *)
Definition entity_model `{Externals} (main : MainModule) (e : Entity)
  : Document -> option Content :=
  match e with
  | EInstructor => instructor_model
  | EStudent => student_model
  | ECourse => course_model
  | EEnrollment => enrollment_model main
  end.

(** The fields each input schema declares. *)
Definition schema_fields (e : Entity) : gset string :=
  match e with
  | EInstructor => {["name"; "email"; "expertise"]}
  | EStudent => {["name"; "email"]}
  | ECourse => {["title"; "description"; "instructor_id"]}
  | EEnrollment => {["student_id"; "course_id"; "timestamp"]}
  end.

(** * Properties *)

(** ** ObjectId and its string form *)

Lemma hex_byte_roundtrip (b : byte) :
  is_space (hexdigit (Byte.to_N b / 16)) = false /\
  unhex (hexdigit (Byte.to_N b / 16)) = Some (Byte.to_N b / 16)%N /\
  unhex (hexdigit (Byte.to_N b mod 16)) = Some (Byte.to_N b mod 16)%N /\
  byte_of_nibbles (Byte.to_N b / 16) (Byte.to_N b mod 16) = Some b.
Proof. destruct b; vm_compute; auto. Qed.

Lemma fromhex_hexlify (bs : list byte) : fromhex (hexlify bs) = Some bs.
Proof.
  induction bs as [|b bs IH]; [reflexivity|].
  destruct (hex_byte_roundtrip b) as (Hsp & Hhi & Hlo & Hb).
  cbn [hexlify fromhex]. rewrite Hsp, Hhi, Hlo, Hb, IH. reflexivity.
Qed.

Lemma length_hexlify (bs : list byte) :
  length (hexlify bs) = (2 * length bs)%nat.
Proof. induction bs as [|b bs IH]; cbn [hexlify length]; lia. Qed.

Lemma string_length_of_list (l : list ascii) :
  String.length (string_of_list_ascii l) = length l.
Proof. induction l as [|c l IH]; cbn; congruence. Qed.

Lemma ObjectId_of_str_str (oid : ObjectId) :
  generated oid -> ObjectId_of_str (str oid) = Some oid.
Proof.
  unfold generated, ObjectId_of_str, str. intros Hlen.
  rewrite string_length_of_list, length_hexlify, Hlen.
  cbn [Nat.mul Nat.add Nat.eqb].
  rewrite list_ascii_of_string_of_list_ascii. apply fromhex_hexlify.
Qed.

Lemma str_inj (a b : ObjectId) : str a = str b -> a = b.
Proof.
  unfold str. intros E.
  assert (E' : hexlify a = hexlify b).
  { rewrite <- (list_ascii_of_string_of_list_ascii (hexlify a)), E.
    apply list_ascii_of_string_of_list_ascii. }
  pose proof (fromhex_hexlify a) as Ha. rewrite E', fromhex_hexlify in Ha.
  congruence.
Qed.

(** ** The collection calls *)

Lemma matches_by_id (oid : ObjectId) (d : Document) :
  matches (by_id oid) d = true <-> d !! "_id" = Some (VOid oid).
Proof.
  unfold by_id, matches, field. rewrite bool_decide_eq_true.
  destruct (d !! "_id") as [v|]; split; congruence.
Qed.

Lemma set_col_get_col (h : ColHandle) (d : DB) : set_col h (get_col h d) d = d.
Proof. destruct h, d; reflexivity. Qed.

Lemma get_col_set_col (h : ColHandle) (c : Collection) (d : DB) :
  get_col h (set_col h c d) = c.
Proof. destruct h; reflexivity. Qed.

Lemma get_col_set_col_ne (h h' : ColHandle) (c : Collection) (d : DB) :
  h <> h' -> get_col h' (set_col h c d) = get_col h' d.
Proof. destruct h, h'; intros Hne; try reflexivity; congruence. Qed.

Lemma state_eta (st : State) : mkState (db st) (oid_inc st) = st.
Proof. destruct st; reflexivity. Qed.

Lemma remove_first_none (q : Filter) (c : Collection) :
  find_docs q c = [] -> remove_first q c = (0, c).
Proof.
  induction c as [|d c IH]; cbn [find_docs remove_first set_first]; [reflexivity|].
  destruct (matches q d); [discriminate|].
  intros E. rewrite (IH E). reflexivity.
Qed.

Lemma remove_first_some (q : Filter) (c : Collection) :
  find_docs q c <> [] -> exists c', remove_first q c = (1, c').
Proof.
  induction c as [|d c IH]; cbn [find_docs remove_first set_first]; [congruence|].
  destruct (matches q d); [eauto|].
  intros E. destruct (IH E) as [c' ->]. eauto.
Qed.

Lemma set_first_none (q : Filter) (upd : Document) (c : Collection) :
  find_docs q c = [] -> set_first q upd c = inr (0, c).
Proof.
  induction c as [|d c IH]; cbn [find_docs remove_first set_first]; [reflexivity|].
  destruct (matches q d); [discriminate|].
  intros E. rewrite (IH E). reflexivity.
Qed.

(** A [$set] that leaves [_id] alone, on a collection with a match for
    [{"_id": oid}]: the first match takes the new fields and stays the
    first match. *)
Lemma set_first_some (oid : ObjectId) (upd : Document) (c : Collection)
  (d : Document) (rest : list Document) :
  upd !! "_id" = None ->
  find_docs (by_id oid) c = d :: rest ->
  exists c', set_first (by_id oid) upd c = inr (1, c') /\
             find_docs (by_id oid) c' = (upd ∪ d) :: rest.
Proof.
  intros Hupd. induction c as [|x c IH]; cbn [find_docs remove_first set_first]; [discriminate|].
  destruct (matches (by_id oid) x) eqn:Hm.
  - intros [= -> <-]. rewrite Hupd. eexists; split; [reflexivity|].
    cbn [find_docs]. replace (matches (by_id oid) (upd ∪ d)) with true; [reflexivity|].
    symmetry. apply matches_by_id. apply matches_by_id in Hm.
    rewrite lookup_union_r; assumption.
  - intros E. destruct (IH E) as (c' & -> & Hc'). eexists; split; [reflexivity|].
    cbn [find_docs]. rewrite Hm. exact Hc'.
Qed.

Lemma set_first_count (q : Filter) (upd : Document) (c c' : Collection) (n : Z) :
  set_first q upd c = inr (n, c') ->
  (n = 0 /\ c' = c /\ find_docs q c = []) \/ (n = 1 /\ find_docs q c <> []).
Proof.
  revert n c'. induction c as [|d c IH]; cbn [find_docs remove_first set_first]; intros n c'.
  - intros [= <- <-]. auto.
  - destruct (matches q d).
    + intros E. right. split; [|discriminate].
      destruct (upd !! "_id"); [destruct (bool_decide _)|]; congruence.
    + destruct (set_first q upd c) as [e|[m c'']]; [discriminate|].
      intros [= <- <-]. destruct (IH _ _ eq_refl) as [(-> & -> & ->)|[-> ?]]; auto.
Qed.

Lemma find_docs_elem (q : Filter) (c : Collection) (d : Document) :
  d ∈ find_docs q c <-> d ∈ c /\ matches q d = true.
Proof.
  induction c as [|x c IH]; cbn.
  - split; [intros Hin | intros [Hin _]]; inversion Hin.
  - destruct (matches q x) eqn:Hm; rewrite ?elem_of_cons, IH, ?elem_of_cons.
    + split; [intros [->|[? ?]]; auto | intros [[->|?] ?]; auto].
    + split; [intros [? ?]; auto | intros [[->|?] ?]; [congruence|auto]].
Qed.

Lemma find_docs_unique (q : Filter) (c : Collection) :
  unique_ids c -> unique_ids (find_docs q c).
Proof.
  unfold unique_ids. induction c as [|x c IH]; cbn [find_docs]; [auto|].
  rewrite fmap_cons, NoDup_cons. intros [Hx Hc].
  destruct (matches q x); [|auto].
  rewrite fmap_cons, NoDup_cons. split; [|auto].
  intros Hin. apply Hx.
  apply list_elem_of_fmap in Hin as (y & -> & Hy).
  apply list_elem_of_fmap. exists y. split; [reflexivity|].
  apply find_docs_elem in Hy. tauto.
Qed.

(** With unique [_id]s, the document [delete_one] removes was the only
    match. *)
Lemma remove_first_gone (oid : ObjectId) (c c' : Collection) :
  unique_ids c ->
  remove_first (by_id oid) c = (1, c') ->
  find_docs (by_id oid) c' = [].
Proof.
  unfold unique_ids. revert c'.
  induction c as [|x c IH]; cbn [remove_first]; intros c'.
  - discriminate.
  - rewrite fmap_cons, NoDup_cons. intros [Hx Hc].
    destruct (matches (by_id oid) x) eqn:Hm.
    + intros [= <-]. apply matches_by_id in Hm.
      destruct (find_docs (by_id oid) c) as [|y l] eqn:E; [reflexivity|].
      exfalso. apply Hx. apply list_elem_of_fmap. exists y.
      assert (Hy : y ∈ find_docs (by_id oid) c) by (rewrite E; left).
      apply find_docs_elem in Hy as [Hy Hmy]. apply matches_by_id in Hmy.
      split; [congruence|assumption].
    + destruct (remove_first (by_id oid) c) as [n c''] eqn:E.
      intros [= -> <-]. cbn [find_docs]. rewrite Hm. eauto.
Qed.

(** ** The by-id handlers *)

Section ById.
Context `{Externals}.

Lemma call_run_shape (c : ByIdCall) :
  call c = run_shape (call_shape c) (call_col c) (call_id c).
Proof. destruct c; reflexivity. Qed.

Lemma call_shape_no_id (c : ByIdCall) (upd : Document) :
  call_shape c = SUpdate upd -> bson_document upd !! "_id" = None.
Proof. destruct c; intros [= <-]; reflexivity. Qed.

Lemma parse_id_invalid (s : string) (st : State) :
  ObjectId_of_str s = None ->
  parse_id s st = (inl (HTTPException 400 "Invalid id format"), st).
Proof.
  intros E. unfold parse_id, try_except, ObjectId_new. rewrite E. reflexivity.
Qed.

Lemma parse_id_valid (s : string) (oid : ObjectId) (st : State) :
  ObjectId_of_str s = Some oid -> parse_id s st = (inr oid, st).
Proof.
  intros E. unfold parse_id, try_except, ObjectId_new. rewrite E. reflexivity.
Qed.

Lemma run_shape_invalid (k : Shape) (h : ColHandle) (s : string) (st : State) :
  ObjectId_of_str s = None ->
  run_shape k h s st = (inl (HTTPException 400 "Invalid id format"), st).
Proof.
  intros E.
  destruct k; unfold run_shape, outcome, get_shape, update_shape,
    delete_shape, bind; rewrite (parse_id_invalid _ _ E); reflexivity.
Qed.

Lemma run_shape_absent (k : Shape) (h : ColHandle) (s : string)
  (oid : ObjectId) (st : State) :
  ObjectId_of_str s = Some oid ->
  find_docs (by_id oid) (get_col h (db st)) = [] ->
  run_shape k h s st = (inl (HTTPException 404 (not_found_detail h)), st).
Proof.
  intros E Hnone.
  destruct k; unfold run_shape, outcome, get_shape, update_shape,
    delete_shape, bind; rewrite (parse_id_valid _ _ _ E).
  - unfold find_one. rewrite Hnone. reflexivity.
  - unfold update_one. rewrite (set_first_none _ _ _ Hnone).
    rewrite set_col_get_col, state_eta. reflexivity.
  - unfold delete_one. rewrite (remove_first_none _ _ Hnone).
    rewrite set_col_get_col, state_eta. reflexivity.
Qed.

(** On a document that has an [_id], the string conversion returns. *)
Lemma set_id_str_some (d : Document) (v : Value) (st : State) :
  d !! "_id" = Some v ->
  set_id_str d st = (inr (<["_id" := VStr (py_str v)]> d), st).
Proof.
  intros E. unfold set_id_str, bind, getitem. rewrite E. reflexivity.
Qed.

Lemma falsy_has_id (d : Document) (v : Value) :
  d !! "_id" = Some v -> falsy (Some d) = false.
Proof.
  intros E. unfold falsy. apply bool_decide_eq_false. intros ->.
  rewrite lookup_empty in E. discriminate.
Qed.

Lemma find_docs_head_id (oid : ObjectId) (c : Collection) (d : Document)
  (rest : list Document) :
  find_docs (by_id oid) c = d :: rest -> d !! "_id" = Some (VOid oid).
Proof.
  intros E. apply matches_by_id.
  assert (Hd : d ∈ find_docs (by_id oid) c) by (rewrite E; left).
  apply find_docs_elem in Hd. tauto.
Qed.

Lemma get_shape_found (h : ColHandle) (detail s : string) (oid : ObjectId)
  (st : State) (d : Document) (rest : list Document) :
  ObjectId_of_str s = Some oid ->
  find_docs (by_id oid) (get_col h (db st)) = d :: rest ->
  get_shape h detail s st = (inr (<["_id" := VStr (str oid)]> d), st).
Proof.
  intros E Hfound. pose proof (find_docs_head_id _ _ _ _ Hfound) as Hid.
  unfold get_shape, bind. rewrite (parse_id_valid _ _ _ E).
  unfold find_one. rewrite Hfound. cbn [head].
  rewrite (falsy_has_id _ _ Hid). unfold set_id_str_opt.
  apply (set_id_str_some _ _ _ Hid).
Qed.

Lemma update_shape_found (h : ColHandle) (detail s : string) (oid : ObjectId)
  (upd : Document) (st : State) (d : Document) (rest : list Document) :
  ObjectId_of_str s = Some oid ->
  bson_document upd !! "_id" = None ->
  find_docs (by_id oid) (get_col h (db st)) = d :: rest ->
  exists c',
    update_shape h detail s upd st =
      (inr (<["_id" := VStr (str oid)]> (bson_document upd ∪ d)),
       mkState (set_col h c' (db st)) (oid_inc st)) /\
    find_docs (by_id oid) c' = (bson_document upd ∪ d) :: rest.
Proof.
  intros E Hupd Hfound. pose proof (find_docs_head_id _ _ _ _ Hfound) as Hid.
  destruct (set_first_some _ _ _ _ _ Hupd Hfound) as (c' & Hset & Hc').
  exists c'. split; [|exact Hc'].
  unfold update_shape, bind. rewrite (parse_id_valid _ _ _ E).
  unfold update_one. rewrite Hset. cbn [Z.eqb].
  unfold find_one. cbn [db]. rewrite get_col_set_col, Hc'. cbn [head].
  unfold set_id_str_opt. apply (set_id_str_some _ (VOid oid)).
  rewrite lookup_union_r; assumption.
Qed.

Lemma delete_shape_found (h : ColHandle) (detail s : string) (oid : ObjectId)
  (st : State) :
  ObjectId_of_str s = Some oid ->
  find_docs (by_id oid) (get_col h (db st)) <> [] ->
  exists c',
    remove_first (by_id oid) (get_col h (db st)) = (1, c') /\
    delete_shape h detail s st =
      (inr tt, mkState (set_col h c' (db st)) (oid_inc st)).
Proof.
  intros E Hfound. destruct (remove_first_some _ _ Hfound) as [c' Hrm].
  exists c'. split; [exact Hrm|].
  unfold delete_shape, bind. rewrite (parse_id_valid _ _ _ E).
  unfold delete_one. rewrite Hrm. reflexivity.
Qed.

(** Whatever a by-id call raises as an [HTTPException], it raises before
    any write. *)
Lemma run_shape_http_unchanged (k : Shape) (h : ColHandle) (s : string)
  (st st' : State) (code : Z) (detail : string) :
  (forall upd, k = SUpdate upd -> bson_document upd !! "_id" = None) ->
  run_shape k h s st = (inl (HTTPException code detail), st') ->
  st' = st /\ (code = 400 \/ code = 404).
Proof.
  intros Hk. destruct (ObjectId_of_str s) as [oid|] eqn:E.
  - destruct (find_docs (by_id oid) (get_col h (db st))) as [|d rest] eqn:Hf.
    + rewrite (run_shape_absent _ _ _ _ _ E Hf). intros [= <- <- <-]. auto.
    + destruct k as [|upd|]; unfold run_shape, outcome.
      * rewrite (get_shape_found _ _ _ _ _ _ _ E Hf). discriminate.
      * destruct (update_shape_found _ (not_found_detail h) _ _ _ _ _ _
                    E (Hk _ eq_refl) Hf) as (c' & -> & _). discriminate.
      * destruct (delete_shape_found h (not_found_detail h) _ _ st E)
          as (c' & _ & ->); [rewrite Hf; discriminate|discriminate].
  - rewrite (run_shape_invalid _ _ _ _ E). intros [= <- <- <-]. auto.
Qed.

End ById.

Lemma outcome_raised {A} (m : M A) (st st' : State) (e : Exn) :
  outcome m st = (inl e, st') -> m st = (inl e, st').
Proof. unfold outcome. destruct (m st) as [[e'|a] st'']; congruence. Qed.

Lemma delete_by_id_shape `{Externals} (h : ColHandle) :
  delete_by_id h = delete_shape h (not_found_detail h).
Proof. destruct h; reflexivity. Qed.

(** ** The relational queries *)

Section Relational.
Context `{Externals}.

Lemma set_id_str_pure (d : Document) (st : State) :
  set_id_str d st = (set_id_of d, st).
Proof.
  unfold set_id_str, set_id_of, bind, getitem.
  destruct (d !! "_id"); reflexivity.
Qed.

Lemma for_each_set_id_str (docs : list Document) (st : State) :
  for_each set_id_str docs st = (set_ids docs, st).
Proof.
  induction docs as [|d docs IH]; [reflexivity|].
  cbn [for_each set_ids]. unfold bind. rewrite set_id_str_pure.
  destruct (set_id_of d); [reflexivity|].
  rewrite IH. destruct (set_ids docs); reflexivity.
Qed.

(** With an ObjectId under [_id] in each document, the loop returns, and
    each document comes back with the string of its ObjectId. *)
Lemma set_ids_oids (docs : list Document) :
  Forall (fun d => exists oid, d !! "_id" = Some (VOid oid)) docs ->
  exists docs',
    set_ids docs = inr docs' /\
    Forall2 (fun d d' => exists oid, d !! "_id" = Some (VOid oid) /\
                          d' = <["_id" := VStr (str oid)]> d) docs docs'.
Proof.
  induction 1 as [|d docs [oid Hd] _ (docs' & IH & Hall)].
  - exists []. split; [reflexivity | constructor].
  - exists (<["_id" := VStr (str oid)]> d :: docs'). split.
    + cbn [set_ids]. unfold set_id_of. rewrite Hd, IH. reflexivity.
    + constructor; [eauto | assumption].
Qed.

Lemma unique_after_set_ids (docs docs' : list Document) :
  unique_ids docs ->
  Forall2 (fun d d' => exists oid, d !! "_id" = Some (VOid oid) /\
                        d' = <["_id" := VStr (str oid)]> d) docs docs' ->
  unique_ids docs'.
Proof.
  unfold unique_ids. intros Huniq Hall. revert Huniq.
  induction Hall as [|d d' docs docs' (oid & Hd & ->) Hrest IH].
  - constructor.
  - rewrite !fmap_cons, !NoDup_cons. intros [Hnotin Huniq].
    split; [|auto].
    rewrite lookup_insert_eq. intros Hin. apply Hnotin.
    apply list_elem_of_fmap in Hin as (y' & Hy' & Hin).
    apply list_elem_of_lookup in Hin as [i Hi].
    destruct (Forall2_lookup_r _ _ _ i y' Hrest Hi)
      as (y & Hy & oid' & Hyid & ->).
    rewrite lookup_insert_eq in Hy'. injection Hy' as Hstr.
    apply str_inj in Hstr as ->.
    apply list_elem_of_fmap. exists y. split; [congruence|].
    apply list_elem_of_lookup. eauto.
Qed.

(** The comprehensions [[e[k] for e in enrolls]] and
    [[ObjectId(x) for x in ...]] on well-formed references: both return,
    with ObjectIds only, and the state is as before. *)
Lemma refs_to_oids (k : string) (enrolls : list Document) (st : State) :
  forallb (well_formed_ref k) enrolls = true ->
  exists vs oids,
    for_each (fun e => getitem e k) enrolls st = (inr vs, st) /\
    for_each ObjectId_new vs st = (inr oids, st).
Proof.
  induction enrolls as [|e enrolls IH]; cbn [forallb].
  - intros _. exists [], []. split; reflexivity.
  - rewrite andb_true_iff. intros [He Hrest].
    destruct (IH Hrest) as (vs & oids & Hvs & Hoids).
    unfold well_formed_ref, is_valid in He.
    destruct (e !! k) as [[|s| |]|] eqn:Hek; try discriminate.
    destruct (ObjectId_of_str s) as [oid|] eqn:Hs; [|discriminate].
    exists (VStr s :: vs), (oid :: oids). split.
    + cbn [for_each]. unfold bind at 1. unfold getitem at 1. rewrite Hek.
      cbn [ret]. unfold bind. rewrite Hvs. reflexivity.
    + cbn [for_each]. unfold bind at 1. cbn [ObjectId_new]. rewrite Hs.
      cbn [ret]. unfold bind. rewrite Hoids. reflexivity.
Qed.

Lemma find_in_oids (oids : list ObjectId) (c : Collection) :
  Forall (fun d => exists oid, d !! "_id" = Some (VOid oid))
    (find_docs (FIn "_id" (VOid <$> oids)) c).
Proof.
  apply Forall_forall. intros d Hd.
  apply find_docs_elem in Hd as [_ Hm].
  unfold matches, field in Hm. apply bool_decide_eq_true in Hm.
  apply list_elem_of_fmap in Hm as (oid & Hoid & _).
  destruct (d !! "_id") as [v|]; [|discriminate].
  exists oid. congruence.
Qed.

(** The query of both handlers: references under [ref] of the
    enrollments that match [q], looked up in collection [target]. *)
Lemma join_no_duplicates (q : Filter) (ref : string) (target : ColHandle)
  (st : State) :
  unique_ids (get_col target (db st)) ->
  forallb (well_formed_ref ref) (find_docs q (enrollments (db st))) = true ->
  exists docs,
    (enrolls <- find enrollments_col q ;;
     refs <- for_each (fun e => getitem e ref) enrolls ;;
     oids <- for_each ObjectId_new refs ;;
     docs <- find target (FIn "_id" (VOid <$> oids)) ;;
     for_each set_id_str docs) st = (inr docs, st) /\
    unique_ids docs /\ NoDup docs.
Proof.
  intros Huniq Hrefs.
  destruct (refs_to_oids _ _ st Hrefs) as (vs & oids & Hvs & Hoids).
  destruct (set_ids_oids _ (find_in_oids oids (get_col target (db st))))
    as (docs & Hset & Hall).
  assert (Hdocs : unique_ids docs).
  { eapply unique_after_set_ids; [|exact Hall].
    apply find_docs_unique, Huniq. }
  exists docs. split; [|split; [exact Hdocs|]].
  - unfold bind at 1. unfold find at 1. cbn [get_col].
    unfold bind at 1. rewrite Hvs.
    unfold bind at 1. rewrite Hoids.
    unfold bind, find. rewrite for_each_set_id_str, Hset. reflexivity.
  - eapply NoDup_fmap_1, Hdocs.
Qed.

(** References that are strings, one of them malformed: the first
    comprehension returns and the second raises [InvalidId]. *)
Lemma refs_raise (k : string) (enrolls : list Document) (st : State) :
  Forall (fun e => exists s, e !! k = Some (VStr s)) enrolls ->
  forallb (well_formed_ref k) enrolls = false ->
  exists vs,
    for_each (fun e => getitem e k) enrolls st = (inr vs, st) /\
    for_each ObjectId_new vs st = (inl InvalidId, st).
Proof.
  induction 1 as [|e enrolls [s Hs] Hall IH]; cbn [forallb]; [discriminate|].
  intros Hbad.
  assert (Hrest : exists vs,
             for_each (fun e => getitem e k) enrolls st = (inr vs, st) /\
             (is_valid s = false \/
              for_each ObjectId_new vs st = (inl InvalidId, st))).
  { unfold well_formed_ref in Hbad at 1. rewrite Hs in Hbad.
    destruct (is_valid s) eqn:Hv.
    - destruct (IH Hbad) as (vs & Hvs & Hraise). eauto.
    - clear IH Hbad. induction Hall as [|e' l [s' Hs'] _ (vs & Hvs & _)].
      + exists []. split; [reflexivity | auto].
      + exists (VStr s' :: vs). split; [|auto].
        cbn [for_each]. unfold bind at 1. unfold getitem at 1. rewrite Hs'.
        cbn [ret]. unfold bind. rewrite Hvs. reflexivity. }
  destruct Hrest as (vs & Hvs & Hcase).
  exists (VStr s :: vs). split.
  - cbn [for_each]. unfold bind at 1. unfold getitem at 1. rewrite Hs.
    cbn [ret]. unfold bind. rewrite Hvs. reflexivity.
  - cbn [for_each]. unfold bind at 1. cbn [ObjectId_new].
    unfold is_valid in Hcase.
    destruct (ObjectId_of_str s) as [oid|]; [|reflexivity].
    destruct Hcase as [Hcase|Hcase]; [discriminate|].
    cbn [ret]. unfold bind. rewrite Hcase. reflexivity.
Qed.

(** A malformed course reference among the enrollments of a student
    makes [get_courses_of_student] raise [InvalidId], an exception that is
    no [HTTPException], which FastAPI answers with a 500. *)
Lemma courses_of_student_raises (student_id : string) (st : State) :
  Forall (fun e => exists s, e !! "course_id" = Some (VStr s))
    (find_docs (FEq "student_id" (VStr student_id)) (enrollments (db st))) ->
  forallb (well_formed_ref "course_id")
    (find_docs (FEq "student_id" (VStr student_id)) (enrollments (db st)))
    = false ->
  get_courses_of_student student_id st = (inl InvalidId, st) /\
  respond 200 courses_model (get_courses_of_student student_id) st
  = (mkResponse 500 (CDetail "Internal Server Error"), st).
Proof.
  intros Hstr Hbad.
  destruct (refs_raise _ _ st Hstr Hbad) as (vs & Hvs & Hraise).
  assert (E : get_courses_of_student student_id st = (inl InvalidId, st)).
  { unfold get_courses_of_student. unfold bind at 1. unfold find at 1.
    cbn [get_col]. unfold bind at 1. rewrite Hvs.
    unfold bind at 1. rewrite Hraise. reflexivity. }
  split; [exact E|]. unfold respond. rewrite E. reflexivity.
Qed.

End Relational.

(** ** What a delete touches *)

Lemma delete_shape_frame `{Externals} (h h' : ColHandle) (detail s : string)
  (st : State) :
  h <> h' ->
  get_col h' (db (snd (delete_shape h detail s st))) = get_col h' (db st).
Proof.
  intros Hne. unfold delete_shape, bind.
  destruct (ObjectId_of_str s) as [oid|] eqn:E.
  - rewrite (parse_id_valid _ _ _ E). unfold delete_one.
    destruct (remove_first (by_id oid) (get_col h (db st))) as [n c'].
    destruct (n =? 0)%Z; cbn [snd raise ret db];
      apply (get_col_set_col_ne _ _ _ _ Hne).
  - rewrite (parse_id_invalid _ _ E). reflexivity.
Qed.

Lemma get_courses_by_instructor_pure `{Externals} (instructor_id : string)
  (st : State) :
  get_courses_by_instructor instructor_id st =
  (set_ids (find_docs (FEq "instructor_id" (VStr instructor_id))
              (courses (db st))), st).
Proof.
  unfold get_courses_by_instructor, bind, find. cbn [get_col].
  apply for_each_set_id_str.
Qed.

(** ** Documents read through the response models *)

Section Models.
Context `{Externals}.

Lemma Instructor_validate_fields (d : Document) (id : string)
  (i : InstructorCreate.t) :
  id_field d = Some (Some id) ->
  d !! "name" = Some (VStr (InstructorCreate.name i)) ->
  d !! "email" = Some (VStr (InstructorCreate.email i)) ->
  d !! "expertise" = Some (optional_value (InstructorCreate.expertise i)) ->
  validate_email (InstructorCreate.email i) = Some (InstructorCreate.email i) ->
  Instructor.validate d = Some (Instructor.mk (Some id) i).
Proof.
  intros Hid Hn He Hx Hv.
  unfold Instructor.validate, InstructorCreate.validate, str_field,
    email_field, optional_str_field.
  rewrite Hid, Hn, He, Hx, Hv. destruct i as [n e [x|]]; reflexivity.
Qed.

Lemma Student_validate_fields (d : Document) (id : string)
  (i : StudentCreate.t) :
  id_field d = Some (Some id) ->
  d !! "name" = Some (VStr (StudentCreate.name i)) ->
  d !! "email" = Some (VStr (StudentCreate.email i)) ->
  validate_email (StudentCreate.email i) = Some (StudentCreate.email i) ->
  Student.validate d = Some (Student.mk (Some id) i).
Proof.
  intros Hid Hn He Hv.
  unfold Student.validate, StudentCreate.validate, str_field, email_field.
  rewrite Hid, Hn, He, Hv. destruct i; reflexivity.
Qed.

Lemma Course_validate_fields (d : Document) (id : string)
  (i : CourseCreate.t) :
  id_field d = Some (Some id) ->
  d !! "title" = Some (VStr (CourseCreate.title i)) ->
  d !! "description" = Some (optional_value (CourseCreate.description i)) ->
  d !! "instructor_id" = Some (VStr (CourseCreate.instructor_id i)) ->
  Course.validate d = Some (Course.mk (Some id) i).
Proof.
  intros Hid Ht Hd Hi.
  unfold Course.validate, CourseCreate.validate, str_field,
    optional_str_field.
  rewrite Hid, Ht, Hd, Hi. destruct i as [t [x|] r]; reflexivity.
Qed.

Lemma id_field_alias (d : Document) (id : string) :
  id_field (<["_id" := VStr id]> d) = Some (Some id).
Proof. unfold id_field. rewrite lookup_insert_eq. reflexivity. Qed.

(** A field that [$set] wrote, read from the stored document and from
    the document the handler returns. *)
Lemma lookup_after_set (upd d : Document) (k : string) (v id : Value) :
  k <> "_id" ->
  upd !! k = Some v ->
  (upd ∪ d) !! k = Some v /\ (<["_id" := id]> (upd ∪ d)) !! k = Some v.
Proof.
  intros Hk Hv.
  assert (E : (upd ∪ d) !! k = Some v).
  { rewrite lookup_union_l'; [exact Hv | rewrite Hv; eauto]. }
  split; [exact E|]. rewrite lookup_insert_ne; [exact E | congruence].
Qed.

Lemma optional_value_bson (o : option string) :
  bson_value (optional_value o) = optional_value o.
Proof. destruct o; reflexivity. Qed.

Lemma InstructorCreate_bson (i : InstructorCreate.t) :
  bson_document (InstructorCreate.dict i) = InstructorCreate.dict i.
Proof. destruct i as [n e [x|]]; reflexivity. Qed.

Lemma StudentCreate_bson (i : StudentCreate.t) :
  bson_document (StudentCreate.dict i) = StudentCreate.dict i.
Proof. destruct i; reflexivity. Qed.

Lemma CourseCreate_bson (i : CourseCreate.t) :
  bson_document (CourseCreate.dict i) = CourseCreate.dict i.
Proof. destruct i as [t [x|] r]; reflexivity. Qed.

Lemma update_instructor_found (s : string) (oid : ObjectId)
  (data : InstructorCreate.t) (st : State) :
  ObjectId_of_str s = Some oid ->
  find_docs (by_id oid) (instructors (db st)) <> [] ->
  validate_email (InstructorCreate.email data)
    = Some (InstructorCreate.email data) ->
  exists doc stored rest st',
    update_instructor s data st = (inr doc, st') /\
    Instructor.validate doc = Some (Instructor.mk (Some (str oid)) data) /\
    find_docs (by_id oid) (instructors (db st')) = stored :: rest /\
    stored !! "name" = Some (VStr (InstructorCreate.name data)) /\
    stored !! "email" = Some (VStr (InstructorCreate.email data)) /\
    stored !! "expertise"
      = Some (optional_value (InstructorCreate.expertise data)).
Proof.
  intros E Hfound Hv.
  destruct (find_docs (by_id oid) (instructors (db st))) as [|d rest] eqn:Hf;
    [congruence|].
  destruct (update_shape_found instructors_col "Instructor not found" s oid
              (InstructorCreate.dict data) st d rest E eq_refl Hf)
    as (c' & Hupd & Hc').
  rewrite InstructorCreate_bson in Hupd, Hc'.
  destruct (lookup_after_set (InstructorCreate.dict data) d "name"
              (VStr (InstructorCreate.name data)) (VStr (str oid)))
    as [Hn Hn']; [discriminate | reflexivity |].
  destruct (lookup_after_set (InstructorCreate.dict data) d "email"
              (VStr (InstructorCreate.email data)) (VStr (str oid)))
    as [He He']; [discriminate | reflexivity |].
  destruct (lookup_after_set (InstructorCreate.dict data) d "expertise"
              (optional_value (InstructorCreate.expertise data))
              (VStr (str oid)))
    as [Hx Hx']; [discriminate | reflexivity |].
  eexists _, _, rest, _. split; [exact Hupd|].
  split; [|split; [exact Hc' | auto]].
  apply Instructor_validate_fields; auto using id_field_alias.
Qed.

Lemma update_student_found (s : string) (oid : ObjectId)
  (data : StudentCreate.t) (st : State) :
  ObjectId_of_str s = Some oid ->
  find_docs (by_id oid) (students (db st)) <> [] ->
  validate_email (StudentCreate.email data)
    = Some (StudentCreate.email data) ->
  exists doc stored rest st',
    update_student s data st = (inr doc, st') /\
    Student.validate doc = Some (Student.mk (Some (str oid)) data) /\
    find_docs (by_id oid) (students (db st')) = stored :: rest /\
    stored !! "name" = Some (VStr (StudentCreate.name data)) /\
    stored !! "email" = Some (VStr (StudentCreate.email data)).
Proof.
  intros E Hfound Hv.
  destruct (find_docs (by_id oid) (students (db st))) as [|d rest] eqn:Hf;
    [congruence|].
  destruct (update_shape_found students_col "Student not found" s oid
              (StudentCreate.dict data) st d rest E eq_refl Hf)
    as (c' & Hupd & Hc').
  rewrite StudentCreate_bson in Hupd, Hc'.
  destruct (lookup_after_set (StudentCreate.dict data) d "name"
              (VStr (StudentCreate.name data)) (VStr (str oid)))
    as [Hn Hn']; [discriminate | reflexivity |].
  destruct (lookup_after_set (StudentCreate.dict data) d "email"
              (VStr (StudentCreate.email data)) (VStr (str oid)))
    as [He He']; [discriminate | reflexivity |].
  eexists _, _, rest, _. split; [exact Hupd|].
  split; [|split; [exact Hc' | auto]].
  apply Student_validate_fields; auto using id_field_alias.
Qed.

Lemma update_course_found (s : string) (oid : ObjectId)
  (data : CourseCreate.t) (st : State) :
  ObjectId_of_str s = Some oid ->
  find_docs (by_id oid) (courses (db st)) <> [] ->
  exists doc stored rest st',
    update_course s data st = (inr doc, st') /\
    Course.validate doc = Some (Course.mk (Some (str oid)) data) /\
    find_docs (by_id oid) (courses (db st')) = stored :: rest /\
    stored !! "title" = Some (VStr (CourseCreate.title data)) /\
    stored !! "description"
      = Some (optional_value (CourseCreate.description data)) /\
    stored !! "instructor_id" = Some (VStr (CourseCreate.instructor_id data)).
Proof.
  intros E Hfound.
  destruct (find_docs (by_id oid) (courses (db st))) as [|d rest] eqn:Hf;
    [congruence|].
  destruct (update_shape_found courses_col "Course not found" s oid
              (CourseCreate.dict data) st d rest E eq_refl Hf)
    as (c' & Hupd & Hc').
  rewrite CourseCreate_bson in Hupd, Hc'.
  destruct (lookup_after_set (CourseCreate.dict data) d "title"
              (VStr (CourseCreate.title data)) (VStr (str oid)))
    as [Ht Ht']; [discriminate | reflexivity |].
  destruct (lookup_after_set (CourseCreate.dict data) d "description"
              (optional_value (CourseCreate.description data))
              (VStr (str oid)))
    as [Hd Hd']; [discriminate | reflexivity |].
  destruct (lookup_after_set (CourseCreate.dict data) d "instructor_id"
              (VStr (CourseCreate.instructor_id data)) (VStr (str oid)))
    as [Hi Hi']; [discriminate | reflexivity |].
  eexists _, _, rest, _. split; [exact Hupd|].
  split; [|split; [exact Hc' | auto]].
  apply Course_validate_fields; auto using id_field_alias.
Qed.

(** An optional field the body leaves out is [None] in the schema
    object. *)
Lemma omitted_expertise (body : Document) (data : InstructorCreate.t) :
  InstructorCreate.validate body = Some data ->
  body !! "expertise" = None ->
  InstructorCreate.expertise data = None.
Proof.
  unfold InstructorCreate.validate, optional_str_field. intros Hv Hb.
  rewrite Hb in Hv.
  destruct (str_field body "name"), (email_field body "email");
    try discriminate.
  injection Hv as <-. reflexivity.
Qed.

Lemma omitted_description (body : Document) (data : CourseCreate.t) :
  CourseCreate.validate body = Some data ->
  body !! "description" = None ->
  CourseCreate.description data = None.
Proof.
  unfold CourseCreate.validate, optional_str_field. intros Hv Hb.
  rewrite Hb in Hv.
  destruct (str_field body "title"), (str_field body "instructor_id");
    try discriminate.
  injection Hv as <-. reflexivity.
Qed.

(** A schema object with its identifier, built from keyword arguments and
    read back from its dict under the aliases. *)
Lemma Instructor_construct (id : string) (i : InstructorCreate.t) :
  validate_email (InstructorCreate.email i) = Some (InstructorCreate.email i) ->
  Instructor.validate (<["id" := VStr id]> (InstructorCreate.dict i))
    = Some (Instructor.mk (Some id) i) /\
  Instructor.validate (Instructor.dump (Instructor.mk (Some id) i))
    = Some (Instructor.mk (Some id) i).
Proof.
  intros Hv.
  split; apply Instructor_validate_fields;
    first [exact Hv | destruct i as [n e [x|]]; reflexivity].
Qed.

Lemma Student_construct (id : string) (i : StudentCreate.t) :
  validate_email (StudentCreate.email i) = Some (StudentCreate.email i) ->
  Student.validate (<["id" := VStr id]> (StudentCreate.dict i))
    = Some (Student.mk (Some id) i) /\
  Student.validate (Student.dump (Student.mk (Some id) i))
    = Some (Student.mk (Some id) i).
Proof.
  intros Hv.
  split; apply Student_validate_fields; first [exact Hv | reflexivity].
Qed.

Lemma Course_construct (id : string) (i : CourseCreate.t) :
  Course.validate (<["id" := VStr id]> (CourseCreate.dict i))
    = Some (Course.mk (Some id) i) /\
  Course.validate (Course.dump (Course.mk (Some id) i))
    = Some (Course.mk (Some id) i).
Proof.
  split; apply Course_validate_fields;
    destruct i as [t [x|] r]; reflexivity.
Qed.

End Models.

(** ** Create, then get *)

Section CreateGet.
Context `{Externals}.
Variable main : MainModule.

Lemma find_docs_app (q : Filter) (a b : Collection) :
  find_docs q (a ++ b) = find_docs q a ++ find_docs q b.
Proof.
  induction a as [|d a IH]; [reflexivity|].
  cbn [Datatypes.app find_docs]. destruct (matches q d); rewrite IH; reflexivity.
Qed.

Lemma has_id_false (oid : ObjectId) (c : Collection) :
  has_id (VOid oid) c = false -> find_docs (by_id oid) c = [].
Proof.
  unfold has_id, by_id. destruct (find_docs _ c); [reflexivity|discriminate].
Qed.

Lemma insert_one_new (h : ColHandle) (doc : Document) (st : State) :
  has_id (VOid (ObjectId_fresh (oid_inc st))) (get_col h (db st)) = false ->
  insert_one h doc st = (inr (ObjectId_fresh (oid_inc st)), inserted h doc st).
Proof.
  intros Hnew. unfold insert_one, bind, ObjectId_generate. cbn [db oid_inc].
  rewrite Hnew. reflexivity.
Qed.

Lemma get_after_insert (h : ColHandle) (detail : string) (doc : Document)
  (st : State) :
  generated (ObjectId_fresh (oid_inc st)) ->
  has_id (VOid (ObjectId_fresh (oid_inc st))) (get_col h (db st)) = false ->
  get_shape h detail (str (ObjectId_fresh (oid_inc st))) (inserted h doc st) =
  (inr (<["_id" := VStr (str (ObjectId_fresh (oid_inc st)))]>
          (<["_id" := VOid (ObjectId_fresh (oid_inc st))]>
             (bson_document doc))),
   inserted h doc st).
Proof.
  intros Hgen Hnew.
  apply (get_shape_found h detail _ _ _ _ [] (ObjectId_of_str_str _ Hgen)).
  unfold inserted. cbn [db]. rewrite get_col_set_col, find_docs_app.
  rewrite (has_id_false _ _ Hnew). cbn [Datatypes.app find_docs].
  replace (matches _ _) with true; [reflexivity|].
  symmetry. apply matches_by_id, lookup_insert_eq.
Qed.

Lemma str_nonempty (oid : ObjectId) : generated oid -> str oid <> "".
Proof.
  intros Hgen E. apply (f_equal String.length) in E.
  unfold str in E. rewrite string_length_of_list, length_hexlify, Hgen in E.
  discriminate.
Qed.

Lemma app_get_instructor (t : datetime) (id : string) :
  id <> "" ->
  app main (mkRequest t GET ["instructors"; id] None)
  = respond 200 instructor_model (get_instructor id).
Proof. intros Hid. destruct id; [congruence | reflexivity]. Qed.

Lemma app_get_student (t : datetime) (id : string) :
  id <> "" ->
  app main (mkRequest t GET ["students"; id] None)
  = respond 200 student_model (get_student id).
Proof. intros Hid. destruct id; [congruence | reflexivity]. Qed.

Lemma app_get_course (t : datetime) (id : string) :
  id <> "" ->
  app main (mkRequest t GET ["courses"; id] None)
  = respond 200 course_model (get_course id).
Proof. intros Hid. destruct id; [congruence | reflexivity]. Qed.

Lemma InstructorCreate_validated (body : Document) (i : InstructorCreate.t) :
  email_stable ->
  InstructorCreate.validate body = Some i ->
  validate_email (InstructorCreate.email i) = Some (InstructorCreate.email i).
Proof.
  intros Hstable. unfold InstructorCreate.validate, email_field.
  destruct (str_field body "name") as [n|]; [|discriminate].
  destruct (body !! "email") as [[|a| |]|]; try discriminate.
  destruct (validate_email a) as [a'|] eqn:Es; [|discriminate].
  destruct (optional_str_field body "expertise"); [|discriminate].
  intros [= <-]. apply (Hstable _ _ Es).
Qed.

Lemma StudentCreate_validated (body : Document) (i : StudentCreate.t) :
  email_stable ->
  StudentCreate.validate body = Some i ->
  validate_email (StudentCreate.email i) = Some (StudentCreate.email i).
Proof.
  intros Hstable. unfold StudentCreate.validate, email_field.
  destruct (str_field body "name") as [n|]; [|discriminate].
  destruct (body !! "email") as [[|a| |]|]; try discriminate.
  destruct (validate_email a) as [a'|] eqn:Es; [|discriminate].
  intros [= <-]. apply (Hstable _ _ Es).
Qed.

Lemma create_then_get_instructor (t1 t2 : datetime) (body : Document)
  (st : State) :
  email_stable ->
  valid_input main EInstructor body ->
  generated (ObjectId_fresh (oid_inc st)) ->
  has_id (VOid (ObjectId_fresh (oid_inc st))) (instructors (db st)) = false ->
  create_then_get main EInstructor t1 t2 body st.
Proof.
  intros Hstable [c0 Hc0] Hgen Hnew.
  unfold record_of in Hc0.
  destruct (InstructorCreate.validate body) as [i|] eqn:Hi; [|discriminate].
  pose proof (InstructorCreate_validated _ _ Hstable Hi) as Hv.
  set (oid := ObjectId_fresh (oid_inc st)) in *.
  exists (str oid), (CInstructor (Instructor.mk (Some (str oid)) i)),
    (inserted instructors_col (InstructorCreate.dict i) st).
  split; [|split].
  - change (with_body InstructorCreate.validate (Some body)
              (fun instructor =>
                 respond 201 (fun r => instructor_model (Instructor.dump r))
                   (create_instructor instructor)) st = (
            mkResponse 201 (CInstructor (Instructor.mk (Some (str oid)) i)),
            inserted instructors_col (InstructorCreate.dict i) st)).
    destruct (Instructor_construct (str oid) i Hv) as [Hnew' Hdump].
    unfold with_body. rewrite Hi. unfold respond, create_instructor, bind.
    rewrite (insert_one_new instructors_col _ _ Hnew). fold oid.
    unfold construct. rewrite Hnew'. cbn [ret].
    unfold instructor_model. rewrite Hdump. reflexivity.
  - unfold record_of. rewrite Hi. reflexivity.
  - cbn [resource]. rewrite (app_get_instructor _ _ (str_nonempty _ Hgen)).
    unfold respond.
    change (get_instructor (str oid))
      with (get_shape instructors_col "Instructor not found" (str oid)).
    unfold oid. rewrite (get_after_insert instructors_col _ _ _ Hgen Hnew).
    fold oid. unfold instructor_model.
    rewrite (Instructor_validate_fields _ (str oid) i);
      [reflexivity | apply id_field_alias | | | | exact Hv];
      rewrite InstructorCreate_bson; reflexivity.
Qed.

Lemma create_then_get_student (t1 t2 : datetime) (body : Document)
  (st : State) :
  email_stable ->
  valid_input main EStudent body ->
  generated (ObjectId_fresh (oid_inc st)) ->
  has_id (VOid (ObjectId_fresh (oid_inc st))) (students (db st)) = false ->
  create_then_get main EStudent t1 t2 body st.
Proof.
  intros Hstable [c0 Hc0] Hgen Hnew.
  unfold record_of in Hc0.
  destruct (StudentCreate.validate body) as [i|] eqn:Hi; [|discriminate].
  pose proof (StudentCreate_validated _ _ Hstable Hi) as Hv.
  set (oid := ObjectId_fresh (oid_inc st)) in *.
  exists (str oid), (CStudent (Student.mk (Some (str oid)) i)),
    (inserted students_col (StudentCreate.dict i) st).
  split; [|split].
  - change (with_body StudentCreate.validate (Some body)
              (fun student =>
                 respond 201 (fun r => student_model (Student.dump r))
                   (create_student student)) st = (
            mkResponse 201 (CStudent (Student.mk (Some (str oid)) i)),
            inserted students_col (StudentCreate.dict i) st)).
    destruct (Student_construct (str oid) i Hv) as [Hnew' Hdump].
    unfold with_body. rewrite Hi. unfold respond, create_student, bind.
    rewrite (insert_one_new students_col _ _ Hnew). fold oid.
    unfold construct. rewrite Hnew'. cbn [ret].
    unfold student_model. rewrite Hdump. reflexivity.
  - unfold record_of. rewrite Hi. reflexivity.
  - cbn [resource]. rewrite (app_get_student _ _ (str_nonempty _ Hgen)).
    unfold respond.
    change (get_student (str oid))
      with (get_shape students_col "Student not found" (str oid)).
    unfold oid. rewrite (get_after_insert students_col _ _ _ Hgen Hnew).
    fold oid. unfold student_model.
    rewrite (Student_validate_fields _ (str oid) i);
      [reflexivity | apply id_field_alias | | | exact Hv];
      rewrite StudentCreate_bson; reflexivity.
Qed.

Lemma create_then_get_course (t1 t2 : datetime) (body : Document)
  (st : State) :
  valid_input main ECourse body ->
  generated (ObjectId_fresh (oid_inc st)) ->
  has_id (VOid (ObjectId_fresh (oid_inc st))) (courses (db st)) = false ->
  create_then_get main ECourse t1 t2 body st.
Proof.
  intros [c0 Hc0] Hgen Hnew.
  unfold record_of in Hc0.
  destruct (CourseCreate.validate body) as [i|] eqn:Hi; [|discriminate].
  set (oid := ObjectId_fresh (oid_inc st)) in *.
  exists (str oid), (CCourse (Course.mk (Some (str oid)) i)),
    (inserted courses_col (CourseCreate.dict i) st).
  split; [|split].
  - change (with_body CourseCreate.validate (Some body)
              (fun course =>
                 respond 201 (fun r => course_model (Course.dump r))
                   (create_course course)) st = (
            mkResponse 201 (CCourse (Course.mk (Some (str oid)) i)),
            inserted courses_col (CourseCreate.dict i) st)).
    destruct (Course_construct (str oid) i) as [Hnew' Hdump].
    unfold with_body. rewrite Hi. unfold respond, create_course, bind.
    rewrite (insert_one_new courses_col _ _ Hnew). fold oid.
    unfold construct. rewrite Hnew'. cbn [ret].
    unfold course_model. rewrite Hdump. reflexivity.
  - unfold record_of. rewrite Hi. reflexivity.
  - cbn [resource]. rewrite (app_get_course _ _ (str_nonempty _ Hgen)).
    unfold respond.
    change (get_course (str oid))
      with (get_shape courses_col "Course not found" (str oid)).
    unfold oid. rewrite (get_after_insert courses_col _ _ _ Hgen Hnew).
    fold oid. unfold course_model.
    rewrite (Course_validate_fields _ (str oid) i);
      [reflexivity | apply id_field_alias | | | ];
      rewrite CourseCreate_bson; reflexivity.
Qed.

End CreateGet.

Lemma example_email_stable : @email_stable example_externals.
Proof.
  intros s s'. cbn [validate_email example_externals].
  destruct (has_at s) eqn:E; intros [= <-]. rewrite E. reflexivity.
Qed.

(** ** The default timestamp of an enrollment *)

(** Whenever the request comes, a body without [timestamp] is given the
    default the class was defined with. *)
Lemma EnrollmentCreate_default (main : MainModule) (body : Document)
  (e : EnrollmentCreate.t) :
  body !! "timestamp" = None ->
  EnrollmentCreate.validate main body = Some e ->
  EnrollmentCreate.timestamp e = timestamp_default main.
Proof.
  unfold EnrollmentCreate.validate, datetime_field. intros Hb. rewrite Hb.
  destruct (str_field body "student_id"), (str_field body "course_id");
    try discriminate.
  intros [= <-]. reflexivity.
Qed.

(** Two enrollments posted without a timestamp to a server imported at
    [t0]: whatever the times [t1] and [t2] of the requests, both are stored
    with [t0], in the milliseconds BSON keeps. *)
Lemma default_timestamp_any_time (t0 t1 t2 : datetime) :
  let body : Document :=
    <["student_id" := VStr "000000000000000000000002"]>
      (<["course_id" := VStr "000000000000000000000001"]> ∅) in
  let st :=
    snd (@serve example_externals (import_main t0)
           [mkRequest t1 POST ["enrollments"] (Some body);
            mkRequest t2 POST ["enrollments"] (Some body)]
           (mkState empty_db 0)) in
  (fun d : Document => d !! "timestamp") <$> enrollments (db st)
  = [Some (VDatetime (bson_datetime t0)); Some (VDatetime (bson_datetime t0))].
Proof. reflexivity. Qed.

(** ** Unique identifiers are an invariant of the application *)

Section Invariant.
Context `{Externals}.
Variable main : MainModule.

Lemma unique_db_get (h : ColHandle) (d : DB) :
  unique_db d -> unique_ids (get_col h d).
Proof. intros (Hi & Hs & Hc & He). destruct h; assumption. Qed.

Lemma unique_db_set (h : ColHandle) (c : Collection) (d : DB) :
  unique_db d -> unique_ids c -> unique_db (set_col h c d).
Proof.
  intros (Hi & Hs & Hc & He) Hnew.
  destruct h; unfold unique_db; cbn; auto.
Qed.

Lemma set_first_ids (q : Filter) (upd : Document) (c c' : Collection) (n : Z) :
  set_first q upd c = inr (n, c') ->
  (fun d : Document => d !! "_id") <$> c'
  = (fun d : Document => d !! "_id") <$> c.
Proof.
  revert n c'. induction c as [|d c IH]; cbn [set_first]; intros n c'.
  - intros [= <- <-]. reflexivity.
  - destruct (matches q d).
    + destruct (upd !! "_id") as [v|] eqn:Hupd.
      * destruct (bool_decide (d !! "_id" = Some v)) eqn:Hd; [|discriminate].
        apply bool_decide_eq_true in Hd. intros [= <- <-].
        rewrite !fmap_cons. f_equal.
        rewrite (lookup_union_l' upd d "_id"); [congruence | rewrite Hupd; eauto].
      * intros [= <- <-]. rewrite !fmap_cons. f_equal.
        apply lookup_union_r, Hupd.
    + destruct (set_first q upd c) as [e|[m c'']] eqn:E; [discriminate|].
      intros [= <- <-]. rewrite !fmap_cons, (IH _ _ eq_refl). reflexivity.
Qed.

Lemma remove_first_unique (q : Filter) (c : Collection) :
  unique_ids c -> unique_ids (snd (remove_first q c)).
Proof.
  unfold unique_ids. induction c as [|d c IH]; cbn [remove_first]; [auto|].
  rewrite fmap_cons, NoDup_cons. intros [Hd Hc].
  destruct (matches q d); [exact Hc|].
  destruct (remove_first q c) as [n c'] eqn:E. cbn [snd] in *.
  rewrite fmap_cons, NoDup_cons. split; [|auto].
  intros Hin. apply Hd.
  apply list_elem_of_fmap in Hin as (y & -> & Hy).
  apply list_elem_of_fmap. exists y. split; [reflexivity|].
  clear -Hy E. revert n c' E Hy.
  induction c as [|x c IH]; cbn [remove_first]; intros n c'.
  - intros [= <- <-] Hy. inversion Hy.
  - destruct (matches q x).
    + intros [= <- <-] Hy. right. exact Hy.
    + destruct (remove_first q c) as [m c''] eqn:E'.
      intros [= <- <-] Hy. apply elem_of_cons in Hy as [->|Hy];
        [left | right; eapply IH; eauto].
Qed.

Lemma insert_unique (oid : ObjectId) (doc : Document) (c : Collection) :
  unique_ids c ->
  has_id (VOid oid) c = false ->
  unique_ids (c ++ [<["_id" := VOid oid]> doc]).
Proof.
  unfold unique_ids. intros Hc Hnew. apply has_id_false in Hnew.
  rewrite fmap_app. apply NoDup_app. split; [exact Hc|]. split.
  - intros v Hv Hv'. cbn in Hv'. apply list_elem_of_singleton in Hv'.
    rewrite lookup_insert_eq in Hv'. subst v.
    apply list_elem_of_fmap in Hv as (d & Hd & Hin).
    assert (Hm : d ∈ find_docs (by_id oid) c).
    { apply find_docs_elem. split; [exact Hin|]. apply matches_by_id. auto. }
    rewrite Hnew in Hm. inversion Hm.
  - cbn. apply NoDup_singleton.
Qed.

Lemma preserves_ret {A} (a : A) : preserves (ret a).
Proof. intros st r st' [= <- <-]. auto. Qed.

Lemma preserves_raise {A} (e : Exn) : preserves (@raise A e).
Proof. intros st r st' [= <- <-]. auto. Qed.

Lemma preserves_bind {A B} (m : M A) (k : A -> M B) :
  preserves m -> (forall a, preserves (k a)) -> preserves (bind m k).
Proof.
  intros Hm Hk st r st'. unfold bind.
  destruct (m st) as [[e|a] st1] eqn:E.
  - intros [= <- <-]. apply (Hm _ _ _ E).
  - intros Hka Hst. apply (Hk a _ _ _ Hka), (Hm _ _ _ E), Hst.
Qed.

Lemma preserves_try_except {A} (m : M A) (k : Exn -> M A) :
  preserves m -> (forall e, preserves (k e)) -> preserves (try_except m k).
Proof.
  intros Hm Hk st r st'. unfold try_except.
  destruct (m st) as [[e|a] st1] eqn:E.
  - intros Hke Hst. apply (Hk e _ _ _ Hke), (Hm _ _ _ E), Hst.
  - intros [= <- <-]. apply (Hm _ _ _ E).
Qed.

Lemma preserves_for_each {A B} (f : A -> M B) (l : list A) :
  (forall a, preserves (f a)) -> preserves (for_each f l).
Proof.
  intros Hf. induction l as [|a l IH]; cbn [for_each].
  - apply preserves_ret.
  - apply preserves_bind; [apply Hf|]. intros b.
    apply preserves_bind; [apply IH|]. intros bs. apply preserves_ret.
Qed.

Lemma preserves_generate : preserves ObjectId_generate.
Proof. intros st r st' [= <- <-]. auto. Qed.

Lemma preserves_ObjectId_new (v : Value) : preserves (ObjectId_new v).
Proof.
  destruct v as [|s|oid|t]; cbn [ObjectId_new].
  - apply preserves_generate.
  - destruct (ObjectId_of_str s); [apply preserves_ret | apply preserves_raise].
  - apply preserves_ret.
  - apply preserves_raise.
Qed.

Lemma preserves_getitem (d : Document) (k : string) : preserves (getitem d k).
Proof.
  unfold getitem. destruct (d !! k); [apply preserves_ret | apply preserves_raise].
Qed.

Lemma preserves_set_id_str (d : Document) : preserves (set_id_str d).
Proof.
  unfold set_id_str. apply preserves_bind; [apply preserves_getitem|].
  intros v. apply preserves_ret.
Qed.

Lemma preserves_set_id_str_opt (doc : option Document) :
  preserves (set_id_str_opt doc).
Proof.
  destruct doc; [apply preserves_set_id_str | apply preserves_raise].
Qed.

Lemma preserves_construct {A} (validate : Document -> option A)
  (kwargs : Document) : preserves (construct validate kwargs).
Proof.
  unfold construct.
  destruct (validate kwargs); [apply preserves_ret | apply preserves_raise].
Qed.

Lemma preserves_parse_id (s : string) : preserves (parse_id s).
Proof.
  apply preserves_try_except; [apply preserves_ObjectId_new|].
  intros e. apply preserves_raise.
Qed.

Lemma preserves_find (h : ColHandle) (q : Filter) : preserves (find h q).
Proof. intros st r st' [= <- <-]. auto. Qed.

Lemma preserves_find_one (h : ColHandle) (q : Filter) :
  preserves (find_one h q).
Proof. intros st r st' [= <- <-]. auto. Qed.

Lemma preserves_insert_one (h : ColHandle) (doc : Document) :
  preserves (insert_one h doc).
Proof.
  unfold insert_one. apply preserves_bind; [apply preserves_generate|].
  intros oid st r st'.
  destruct (has_id (VOid oid) (get_col h (db st))) eqn:Hnew.
  - intros [= <- <-]. auto.
  - intros [= <- <-] Hst. cbn [db].
    apply unique_db_set; [exact Hst|].
    apply insert_unique; [apply unique_db_get, Hst | exact Hnew].
Qed.

Lemma preserves_update_one (h : ColHandle) (q : Filter) (upd : Document) :
  preserves (update_one h q upd).
Proof.
  intros st r st'. unfold update_one.
  destruct (set_first q (bson_document upd) (get_col h (db st)))
    as [e|[n c']] eqn:E.
  - intros [= <- <-]. auto.
  - intros [= <- <-] Hst. cbn [db].
    apply unique_db_set; [exact Hst|].
    unfold unique_ids. rewrite (set_first_ids _ _ _ _ _ E).
    apply unique_db_get, Hst.
Qed.

Lemma preserves_delete_one (h : ColHandle) (q : Filter) :
  preserves (delete_one h q).
Proof.
  intros st r st'. unfold delete_one.
  pose proof (remove_first_unique q (get_col h (db st))) as Hrm.
  destruct (remove_first q (get_col h (db st))) as [n c'].
  intros [= <- <-] Hst. cbn [db].
  apply unique_db_set; [exact Hst|]. apply Hrm, unique_db_get, Hst.
Qed.

Lemma preserves_if {A} (b : bool) (m1 m2 : M A) :
  preserves m1 -> preserves m2 -> preserves (if b then m1 else m2).
Proof. destruct b; auto. Qed.

Lemma preserves_respond {A} (success : Z)
  (response_model : A -> option Content) (h : M A) :
  preserves h -> preserves (respond success response_model h).
Proof.
  intros Hh st r st'. unfold respond.
  destruct (h st) as [[e|a] st1] eqn:E.
  - destruct e; intros [= <- <-]; apply (Hh _ _ _ E).
  - destruct (response_model a); intros [= <- <-]; apply (Hh _ _ _ E).
Qed.

Lemma preserves_with_body {A} (validate : Document -> option A)
  (b : option Document) (k : A -> State -> Response * State) :
  (forall a, preserves (k a)) -> preserves (with_body validate b k).
Proof.
  intros Hk. unfold with_body.
  destruct b as [d|]; [destruct (validate d)|];
    try apply Hk; intros st r st' [= <- <-]; auto.
Qed.

Lemma preserves_documentation (url : string) (ps : list string)
  (b : option Document) : preserves (documentation url ps b).
Proof. intros st r st' [= <- <-]. auto. Qed.

End Invariant.

Create HintDb preserving.

#[local] Hint Resolve preserves_ret preserves_raise preserves_for_each
  preserves_generate
  preserves_ObjectId_new preserves_getitem preserves_set_id_str
  preserves_set_id_str_opt preserves_construct preserves_parse_id
  preserves_find preserves_find_one preserves_insert_one
  preserves_update_one preserves_delete_one preserves_documentation
  : preserving.

Ltac preserving :=
  repeat first
    [ solve [auto with preserving]
    | apply preserves_respond
    | apply preserves_with_body; intros ?
    | apply preserves_bind; [|intros ?]
    | apply preserves_if ].

Lemma routes_preserve `{Externals} (main : MainModule) :
  Forall (fun r => forall ps b, preserves (route_endpoint r ps b))
    (routes main).
Proof.
  unfold routes, default_routes, instructor_router, student_router,
    course_router, enrollment_router.
  repeat (apply Forall_app; split);
    repeat (apply Forall_cons; split; [intros ps b; cbn [route_endpoint]|]);
    try apply Forall_nil.
  all: unfold create_instructor, list_instructors, get_instructor,
         update_instructor, delete_instructor, create_student, list_students,
         get_student, update_student, delete_student, create_course,
         list_courses, get_course, update_course, delete_course,
         get_courses_by_instructor, enroll_student, list_enrollments,
         delete_enrollment, get_courses_of_student, get_students_of_course.
  all: preserving.
Qed.

Lemma dispatch_preserves `{Externals} (rs : list Route) (partial : bool)
  (req : Request) :
  Forall (fun r => forall ps b, preserves (route_endpoint r ps b)) rs ->
  preserves (dispatch rs partial req).
Proof.
  intros Hrs. revert partial.
  induction Hrs as [|r rs Hr _ IH]; intros partial; cbn [dispatch].
  - intros st x st'. destruct partial; intros [= <- <-]; auto.
  - destruct (match_path (route_path r) (path req)) as [ps|]; [|apply IH].
    destruct (bool_decide (route_method r = method req)); [apply Hr | apply IH].
Qed.

(** Every request leaves [_id] unique in every collection. *)
Lemma app_preserves `{Externals} (main : MainModule) (req : Request) :
  preserves (app main req).
Proof. apply dispatch_preserves, routes_preserve. Qed.

(** So does every sequence of requests; the empty database is where it
    starts. *)
Lemma serve_preserves `{Externals} (main : MainModule) (reqs : list Request)
  (st : State) :
  unique_db (db st) -> unique_db (db (snd (serve main reqs st))).
Proof.
  revert st. induction reqs as [|r reqs IH]; intros st Hst; [exact Hst|].
  cbn [serve]. destruct (app main r st) as [x st1] eqn:E.
  specialize (IH st1 (app_preserves main r _ _ _ E Hst)).
  destruct (serve main reqs st1) as [xs st2]. exact IH.
Qed.

Lemma empty_db_unique : unique_db empty_db.
Proof. repeat split; apply NoDup_nil_2. Qed.

(** ** The scenario of the specification *)

(** Ada is created (I1) and CS101 as her course (C1); the courses of I1
    are [C1]; Bob is created (S1) and enrolled in C1; the courses of S1
    are [C1] and the students of C1 are [S1]; I1 is deleted; the courses
    of I1 are still [C1]. *)
Example scenario :
  let I1 := "000000000000000000000000" in
  let C1 := "000000000000000000000001" in
  let S1 := "000000000000000000000002" in
  let ada := InstructorCreate.mk "Ada" "ada@x.com" None in
  let cs101 := Course.mk (Some C1) (CourseCreate.mk "CS101" None I1) in
  let bob := Student.mk (Some S1) (StudentCreate.mk "Bob" "bob@x.com") in
  fst (@serve example_externals example_main
         [mkRequest 2000000 POST ["instructors"]
            (Some (<["name" := VStr "Ada"]>
                     (<["email" := VStr "ada@x.com"]> ∅)));
          mkRequest 3000000 POST ["courses"]
            (Some (<["title" := VStr "CS101"]>
                     (<["instructor_id" := VStr I1]> ∅)));
          mkRequest 4000000 GET ["courses"; "instructor"; I1] None;
          mkRequest 5000000 POST ["students"]
            (Some (<["name" := VStr "Bob"]>
                     (<["email" := VStr "bob@x.com"]> ∅)));
          mkRequest 6000000 POST ["enrollments"]
            (Some (<["student_id" := VStr S1]>
                     (<["course_id" := VStr C1]> ∅)));
          mkRequest 7000000 GET ["enrollments"; "student"; S1; "courses"] None;
          mkRequest 8000000 GET ["enrollments"; "course"; C1; "students"] None;
          mkRequest 9000000 DELETE ["instructors"; I1] None;
          mkRequest 9500000 GET ["courses"; "instructor"; I1] None]
         (mkState empty_db 0))
  = [mkResponse 201 (CInstructor (Instructor.mk (Some I1) ada));
     mkResponse 201 (CCourse cs101);
     mkResponse 200 (CCourses [cs101]);
     mkResponse 201 (CStudent bob);
     mkResponse 201
       (CEnrollment
          (Enrollment.mk (Some "000000000000000000000003")
             (EnrollmentCreate.mk S1 C1 1000000)));
     mkResponse 200 (CCourses [cs101]);
     mkResponse 200 (CStudents [bob]);
     mkResponse 204 CNone;
     mkResponse 200 (CCourses [cs101])].
Proof. reflexivity. Qed.

(** * The claims *)

(** C1, on the code.  main.py is imported at second 1; two enrollments
    are posted without a timestamp, at seconds 5 and 6.  Both are stored
    with the timestamp of second 1, the time the class body ran: neither
    carries the time of its own request, and the two are equal. *)
Theorem default_timestamp_is_import_time :
  let body : Document :=
    <["student_id" := VStr "000000000000000000000002"]>
      (<["course_id" := VStr "000000000000000000000001"]> ∅) in
  let st :=
    snd (@serve example_externals (import_main 1000000)
           [mkRequest 5000000 POST ["enrollments"] (Some body);
            mkRequest 6000000 POST ["enrollments"] (Some body)]
           (mkState empty_db 0)) in
  (fun d : Document => d !! "timestamp") <$> enrollments (db st)
  = [Some (VDatetime 1000000); Some (VDatetime 1000000)].
Proof. reflexivity. Qed.

(** C2, on the code.  [POST /enrollments] takes any string as a
    reference.  With an enrollment of student "s1" whose course reference
    is "not-an-id", [get_courses_of_student "s1"] raises [InvalidId] from
    the list comprehension, outside any [try]: the whole request fails, and
    the answer is a 500, not the 400 of the by-id handlers.  The same holds
    for [get_students_of_course] over a malformed student reference. *)
Theorem malformed_reference_is_500 :
  let main := import_main 1000000 in
  let st :=
    snd (@serve example_externals main
           [mkRequest 2000000 POST ["enrollments"]
              (Some (<["student_id" := VStr "s1"]>
                       (<["course_id" := VStr "not-an-id"]> ∅)));
            mkRequest 3000000 POST ["enrollments"]
              (Some (<["student_id" := VStr "not-an-id"]>
                       (<["course_id" := VStr "c1"]> ∅)))]
           (mkState empty_db 0)) in
  fst (@get_courses_of_student example_externals "s1" st) = inl InvalidId /\
  fst (@app example_externals main
         (mkRequest 4000000 GET ["enrollments"; "student"; "s1"; "courses"]
            None) st)
  = mkResponse 500 (CDetail "Internal Server Error") /\
  fst (@get_students_of_course example_externals "c1" st) = inl InvalidId /\
  fst (@app example_externals main
         (mkRequest 4000000 GET ["enrollments"; "course"; "c1"; "students"]
            None) st)
  = mkResponse 500 (CDetail "Internal Server Error").
Proof. repeat split; reflexivity. Qed.

(** C3, as it holds.  For the three entities that have a get by
    identifier (Instructor, Student, Course): for every body the input
    schema accepts, when the ObjectId the driver generates is new to the
    collection, the POST answers 201 with the validated input plus the
    identifier, and a GET on that identifier, with nothing in between,
    answers 200 with the same record.  (The address validator is taken to
    accept what it returns and leave it as it is.) *)
Theorem create_then_get_by_id `{Externals} (main : MainModule) (e : Entity)
  (t1 t2 : datetime) (body : Document) (st : State) :
  e <> EEnrollment ->
  email_stable ->
  valid_input main e body ->
  generated (ObjectId_fresh (oid_inc st)) ->
  has_id (VOid (ObjectId_fresh (oid_inc st))) (get_col (entity_col e) (db st))
    = false ->
  create_then_get main e t1 t2 body st.
Proof.
  intros He Hstable Hvalid Hgen Hnew. destruct e.
  - apply create_then_get_instructor; assumption.
  - apply create_then_get_student; assumption.
  - apply create_then_get_course; assumption.
  - congruence.
Qed.

Lemma create_then_get_by_id_witness :
  @create_then_get example_externals example_main ECourse 7000000 8000000
    (<["title" := VStr "CS102"]>
       (<["instructor_id" := VStr "000000000000000000000000"]> ∅))
    example_state.
Proof.
  apply (@create_then_get_by_id example_externals example_main ECourse).
  - discriminate.
  - exact example_email_stable.
  - vm_compute. eexists. reflexivity.
  - reflexivity.
  - reflexivity.
Defined.

(** C3, as stated, fails for the fourth entity: the Enrollment router
    registers no GET on [/enrollments/{id}], only a DELETE, so the GET on
    the identifier of an enrollment just created is answered 405. *)
Lemma enrollment_create_then_get_fails :
  let body : Document :=
    <["student_id" := VStr "000000000000000000000002"]>
      (<["course_id" := VStr "000000000000000000000001"]> ∅) in
  @valid_input example_externals example_main EEnrollment body /\
  generated (@ObjectId_fresh example_externals (oid_inc example_state)) /\
  has_id (VOid (@ObjectId_fresh example_externals (oid_inc example_state)))
    (enrollments (db example_state)) = false /\
  @app example_externals example_main
    (mkRequest 8000000 GET ["enrollments"; "000000000000000000000005"] None)
    (snd (@app example_externals example_main
            (mkRequest 7000000 POST ["enrollments"] (Some body))
            example_state))
  = (mkResponse 405 (CDetail "Method Not Allowed"),
     snd (@app example_externals example_main
            (mkRequest 7000000 POST ["enrollments"] (Some body))
            example_state)) /\
  ~ @create_then_get example_externals example_main EEnrollment
      7000000 8000000 body example_state.
Proof.
  cbv zeta. split; [vm_compute; eexists; reflexivity|].
  split; [reflexivity|]. split; [reflexivity|]. split; [reflexivity|].
  intros (id & c & st1 & Hpost & Hrec & Hget).
  pose proof (f_equal fst Hpost) as Hc. pose proof (f_equal snd Hpost) as Hs.
  cbn [fst snd] in Hc, Hs. vm_compute in Hc. injection Hc as <-.
  vm_compute in Hrec. injection Hrec as ->.
  apply (f_equal fst) in Hget. cbn [fst] in Hget. rewrite <- Hs in Hget.
  vm_compute in Hget. discriminate Hget.
Qed.

(** C4, for the operations there are.  For every string that is not a
    well-formed storage identifier, that is, which [ObjectId] rejects, each
    of the ten by-id operations (get, update and delete of instructors,
    students and courses, delete of enrollments) raises HTTPException 400
    "Invalid id format", whatever the state, which it leaves as it was; in
    particular it raises no 404. *)
Theorem invalid_id_is_400 `{Externals} (c : ByIdCall) (st : State) :
  is_valid (call_id c) = false ->
  call c st = (inl (HTTPException 400 "Invalid id format"), st) /\
  forall detail st', call c st <> (inl (HTTPException 404 detail), st').
Proof.
  unfold is_valid. intros Hbad.
  destruct (ObjectId_of_str (call_id c)) eqn:E; [discriminate|].
  rewrite call_run_shape, (run_shape_invalid _ _ _ _ E).
  split; [reflexivity | intros detail st'; discriminate].
Qed.

Lemma invalid_id_is_400_witness :
  is_valid "not-an-id" = false /\
  @call example_externals (DeleteEnrollment "not-an-id") example_state =
    (inl (HTTPException 400 "Invalid id format"), example_state).
Proof.
  split; [reflexivity|].
  apply (@invalid_id_is_400 example_externals
           (DeleteEnrollment "not-an-id") example_state).
  reflexivity.
Defined.

(** C4, as stated for every entity, fails for the fourth: the
    Enrollment router has a delete by identifier and neither a get nor an
    update, so a GET or a PUT on [/enrollments/{id}] with a string that is
    no identifier is answered 405 "Method Not Allowed", not 400. *)
Lemma enrollment_invalid_id_is_405 :
  let body : Document :=
    <["student_id" := VStr "000000000000000000000002"]>
      (<["course_id" := VStr "000000000000000000000001"]> ∅) in
  is_valid "not-an-id" = false /\
  @app example_externals example_main
    (mkRequest 7000000 GET ["enrollments"; "not-an-id"] None) example_state
  = (mkResponse 405 (CDetail "Method Not Allowed"), example_state) /\
  @app example_externals example_main
    (mkRequest 7000000 PUT ["enrollments"; "not-an-id"] (Some body))
    example_state
  = (mkResponse 405 (CDetail "Method Not Allowed"), example_state) /\
  status_code
    (fst (@app example_externals example_main
            (mkRequest 7000000 GET ["enrollments"; "not-an-id"] None)
            example_state)) <> 400.
Proof.
  cbv zeta. split; [reflexivity|]. split; [reflexivity|].
  split; [reflexivity|]. vm_compute. discriminate.
Qed.

(** C5.  For every well-formed identifier that no document of the
    entity's collection carries, each by-id operation raises
    HTTPException 404 with the entity's "... not found" detail. *)
Theorem absent_id_is_404 `{Externals} (c : ByIdCall) (oid : ObjectId)
  (st : State) :
  ObjectId_of_str (call_id c) = Some oid ->
  find_docs (by_id oid) (get_col (call_col c) (db st)) = [] ->
  call c st = (inl (HTTPException 404 (not_found_detail (call_col c))), st).
Proof.
  intros E Hnone. rewrite call_run_shape.
  apply (run_shape_absent _ _ _ _ _ E Hnone).
Qed.

Lemma absent_id_is_404_witness :
  @call example_externals
    (UpdateCourse "0000000000000000000000ff"
       (CourseCreate.mk "CS102" None "000000000000000000000000"))
    example_state =
  (inl (HTTPException 404 "Course not found"), example_state).
Proof.
  apply (@absent_id_is_404 example_externals
           (UpdateCourse "0000000000000000000000ff"
              (CourseCreate.mk "CS102" None "000000000000000000000000"))
           (nth_oid 255) example_state); reflexivity.
Defined.

(** C6.  With [_id] unique in the collection, as MongoDB keeps it: after
    a delete that succeeded, a second delete of the same identifier
    raises HTTPException 404 (a structured client error) and leaves the
    state as the first delete left it.  This holds for the delete of each
    of the four entities. *)
Theorem second_delete_is_404 `{Externals} (h : ColHandle) (s : string)
  (st st1 : State) :
  unique_ids (get_col h (db st)) ->
  delete_by_id h s st = (inr tt, st1) ->
  delete_by_id h s st1 = (inl (HTTPException 404 (not_found_detail h)), st1).
Proof.
  rewrite delete_by_id_shape. intros Huniq Hfirst.
  destruct (ObjectId_of_str s) as [oid|] eqn:E.
  - destruct (find_docs (by_id oid) (get_col h (db st))) as [|d rest] eqn:Hf.
    + pose proof (run_shape_absent SDelete h s oid st E Hf) as Habs.
      apply outcome_raised in Habs. congruence.
    + destruct (delete_shape_found h (not_found_detail h) s oid st E)
        as (c' & Hrm & Hdel); [rewrite Hf; discriminate|].
      rewrite Hdel in Hfirst. injection Hfirst as <-.
      apply outcome_raised.
      apply (run_shape_absent SDelete h s oid _ E).
      cbn [db]. rewrite get_col_set_col.
      apply (remove_first_gone _ _ _ Huniq Hrm).
  - pose proof (run_shape_invalid SDelete h s st E) as Hinv.
    apply outcome_raised in Hinv. congruence.
Qed.

Lemma second_delete_is_404_witness :
  unique_ids (enrollments (db example_state)) /\
  @delete_enrollment example_externals "000000000000000000000003"
    (snd (@delete_enrollment example_externals "000000000000000000000003"
            example_state)) =
  (inl (HTTPException 404 "Enrollment not found"),
   snd (@delete_enrollment example_externals "000000000000000000000003"
          example_state)).
Proof.
  assert (Huniq : unique_ids (enrollments (db example_state))).
  { apply (bool_decide_unpack _). vm_compute. exact I. }
  split; [exact Huniq|].
  apply (@second_delete_is_404 example_externals enrollments_col
           "000000000000000000000003" example_state _ Huniq).
  reflexivity.
Defined.

(** C7.  In a state where [_id] is unique among the courses, as MongoDB
    keeps it, and every enrollment of the student carries a well-formed
    course reference, [get_courses_of_student] returns, and the sequence
    it returns holds each course document at most once (no two of them
    share an [_id]), however many enrollments point at the same course. *)
Theorem courses_of_student_no_duplicates `{Externals} (student_id : string)
  (st : State) :
  unique_ids (courses (db st)) ->
  forallb (well_formed_ref "course_id")
    (find_docs (FEq "student_id" (VStr student_id)) (enrollments (db st)))
    = true ->
  exists docs,
    get_courses_of_student student_id st = (inr docs, st) /\
    unique_ids docs /\ NoDup docs.
Proof. apply (join_no_duplicates _ "course_id" courses_col). Qed.

Lemma courses_of_student_no_duplicates_witness :
  length (find_docs (FEq "student_id" (VStr "000000000000000000000002"))
            (enrollments (db example_state))) = 2%nat /\
  exists docs,
    @get_courses_of_student example_externals "000000000000000000000002"
      example_state = (inr docs, example_state) /\
    unique_ids docs /\ NoDup docs.
Proof.
  split; [reflexivity|].
  apply (@courses_of_student_no_duplicates example_externals
           "000000000000000000000002" example_state).
  - apply (bool_decide_unpack _). vm_compute. exact I.
  - reflexivity.
Defined.

(** C8.  An update is a full replace of the mutable fields.  For a
    well-formed identifier with a match in the collection and a body the
    input schema accepts (with an address the validator leaves as it is):
    the handler returns, the document it returns reads through the response
    model as the input with the identifier, and in the stored document
    every mutable field is the input's.  An optional field the body leaves
    out (expertise, description) has no value afterwards, whatever it was
    before: the schema object carries [None] for it and [$set] writes that
    [None] over the old value. *)
Theorem update_is_full_replace `{Externals} (s : string) (oid : ObjectId)
  (st : State) :
  ObjectId_of_str s = Some oid ->
  (forall body data,
      InstructorCreate.validate body = Some data ->
      validate_email (InstructorCreate.email data)
        = Some (InstructorCreate.email data) ->
      find_docs (by_id oid) (instructors (db st)) <> [] ->
      exists doc stored rest st',
        update_instructor s data st = (inr doc, st') /\
        Instructor.validate doc = Some (Instructor.mk (Some (str oid)) data) /\
        find_docs (by_id oid) (instructors (db st')) = stored :: rest /\
        stored !! "name" = Some (VStr (InstructorCreate.name data)) /\
        stored !! "email" = Some (VStr (InstructorCreate.email data)) /\
        stored !! "expertise"
          = Some (optional_value (InstructorCreate.expertise data)) /\
        (body !! "expertise" = None -> stored !! "expertise" = Some VNone)) /\
  (forall body data,
      StudentCreate.validate body = Some data ->
      validate_email (StudentCreate.email data)
        = Some (StudentCreate.email data) ->
      find_docs (by_id oid) (students (db st)) <> [] ->
      exists doc stored rest st',
        update_student s data st = (inr doc, st') /\
        Student.validate doc = Some (Student.mk (Some (str oid)) data) /\
        find_docs (by_id oid) (students (db st')) = stored :: rest /\
        stored !! "name" = Some (VStr (StudentCreate.name data)) /\
        stored !! "email" = Some (VStr (StudentCreate.email data))) /\
  (forall body data,
      CourseCreate.validate body = Some data ->
      find_docs (by_id oid) (courses (db st)) <> [] ->
      exists doc stored rest st',
        update_course s data st = (inr doc, st') /\
        Course.validate doc = Some (Course.mk (Some (str oid)) data) /\
        find_docs (by_id oid) (courses (db st')) = stored :: rest /\
        stored !! "title" = Some (VStr (CourseCreate.title data)) /\
        stored !! "description"
          = Some (optional_value (CourseCreate.description data)) /\
        stored !! "instructor_id"
          = Some (VStr (CourseCreate.instructor_id data)) /\
        (body !! "description" = None ->
         stored !! "description" = Some VNone)).
Proof.
  intros E. split; [|split].
  - intros body data Hbody Hv Hfound.
    destruct (update_instructor_found s oid data st E Hfound Hv)
      as (doc & stored & rest & st' & Hup & Hdoc & Hst & Hn & He & Hx).
    exists doc, stored, rest, st'. repeat (split; [assumption|]).
    intros Hom. rewrite Hx, (omitted_expertise _ _ Hbody Hom). reflexivity.
  - intros body data Hbody Hv Hfound.
    apply (update_student_found s oid data st E Hfound Hv).
  - intros body data Hbody Hfound.
    destruct (update_course_found s oid data st E Hfound)
      as (doc & stored & rest & st' & Hup & Hdoc & Hst & Ht & Hd & Hi).
    exists doc, stored, rest, st'. repeat (split; [assumption|]).
    intros Hom. rewrite Hd, (omitted_description _ _ Hbody Hom). reflexivity.
Qed.

Lemma update_is_full_replace_witness :
  head (find_docs (by_id (nth_oid 0)) (instructors (db example_state_expert)))
    ≫= (fun d => d !! "expertise") = Some (VStr "logic") /\
  exists doc stored rest st',
    @update_instructor example_externals "000000000000000000000000"
      (InstructorCreate.mk "Ada L." "ada@x.com" None) example_state_expert
      = (inr doc, st') /\
    @Instructor.validate example_externals doc
      = Some (Instructor.mk (Some "000000000000000000000000")
                (InstructorCreate.mk "Ada L." "ada@x.com" None)) /\
    find_docs (by_id (nth_oid 0)) (instructors (db st')) = stored :: rest /\
    stored !! "name" = Some (VStr "Ada L.") /\
    stored !! "email" = Some (VStr "ada@x.com") /\
    stored !! "expertise" = Some VNone /\
    ((<["name" := VStr "Ada L."]> (<["email" := VStr "ada@x.com"]> ∅)
        : Document) !! "expertise" = None ->
     stored !! "expertise" = Some VNone).
Proof.
  split; [reflexivity|].
  destruct (@update_is_full_replace example_externals
              "000000000000000000000000" (nth_oid 0) example_state_expert
              eq_refl) as [Hinstructor _].
  apply (Hinstructor
           (<["name" := VStr "Ada L."]> (<["email" := VStr "ada@x.com"]> ∅))
           (InstructorCreate.mk "Ada L." "ada@x.com" None)).
  - reflexivity.
  - reflexivity.
  - intros E. apply (f_equal length) in E. vm_compute in E. discriminate E.
Defined.

(** C9.  No cascade.  Whatever [delete_instructor] does, the courses and
    the enrollments are afterwards what they were, and
    [get_courses_by_instructor], on the instructor deleted as on any other
    reference, returns what it returned before; whatever [delete_course]
    does, the enrollments are afterwards what they were. *)
Theorem delete_does_not_cascade `{Externals} (instructor_id course_id : string)
  (ref : string) (st : State) :
  let st1 := snd (delete_instructor instructor_id st) in
  let st2 := snd (delete_course course_id st) in
  courses (db st1) = courses (db st) /\
  enrollments (db st1) = enrollments (db st) /\
  fst (get_courses_by_instructor ref st1) =
    fst (get_courses_by_instructor ref st) /\
  enrollments (db st2) = enrollments (db st).
Proof.
  cbv zeta.
  assert (Hc : courses (db (snd (delete_instructor instructor_id st)))
               = courses (db st)).
  { apply (delete_shape_frame instructors_col courses_col). discriminate. }
  split; [exact Hc|]. split; [|split].
  - apply (delete_shape_frame instructors_col enrollments_col). discriminate.
  - rewrite !get_courses_by_instructor_pure. cbn [fst]. rewrite Hc. reflexivity.
  - apply (delete_shape_frame courses_col enrollments_col). discriminate.
Qed.

(** C10.  When a by-id operation (get, update or delete, of any entity)
    fails with the 400 of a malformed identifier or the 404 of an absent
    one, the state after the call, every collection included, is the
    state before it. *)
Theorem error_leaves_state `{Externals} (c : ByIdCall) (st st' : State)
  (code : Z) (detail : string) :
  call c st = (inl (HTTPException code detail), st') ->
  st' = st /\ (code = 400 \/ code = 404).
Proof.
  rewrite call_run_shape. apply run_shape_http_unchanged.
  intros upd. apply call_shape_no_id.
Qed.

Lemma error_leaves_state_witness :
  @call example_externals (GetStudent "0000000000000000000000aa")
    example_state =
    (inl (HTTPException 404 "Student not found"), example_state) /\
  example_state = example_state /\ (404 = 400 \/ 404 = 404).
Proof.
  split; [reflexivity|].
  apply (@error_leaves_state example_externals
           (GetStudent "0000000000000000000000aa")
           example_state example_state 404 "Student not found").
  reflexivity.
Defined.

(** * Further properties *)

(** ** Reading leaves the database alone *)

Section ReadOnly.
Context `{Externals}.
Variable main : MainModule.

Lemma keeps_ret {A} (a : A) : keeps_db (ret a).
Proof. intros st. reflexivity. Qed.

Lemma keeps_raise {A} (e : Exn) : keeps_db (@raise A e).
Proof. intros st. reflexivity. Qed.

Lemma keeps_bind {A B} (m : M A) (k : A -> M B) :
  keeps_db m -> (forall a, keeps_db (k a)) -> keeps_db (bind m k).
Proof.
  intros Hm Hk st. unfold bind. specialize (Hm st).
  destruct (m st) as [[e|a] st1]; cbn [snd] in *; [exact Hm|].
  rewrite (Hk a st1). exact Hm.
Qed.

Lemma keeps_try_except {A} (m : M A) (k : Exn -> M A) :
  keeps_db m -> (forall e, keeps_db (k e)) -> keeps_db (try_except m k).
Proof.
  intros Hm Hk st. unfold try_except. specialize (Hm st).
  destruct (m st) as [[e|a] st1]; cbn [snd] in *; [|exact Hm].
  rewrite (Hk e st1). exact Hm.
Qed.

Lemma keeps_for_each {A B} (f : A -> M B) (l : list A) :
  (forall a, keeps_db (f a)) -> keeps_db (for_each f l).
Proof.
  intros Hf. induction l as [|a l IH]; cbn [for_each].
  - apply keeps_ret.
  - apply keeps_bind; [apply Hf|]. intros b.
    apply keeps_bind; [apply IH|]. intros bs. apply keeps_ret.
Qed.

Lemma keeps_ObjectId_new (v : Value) : keeps_db (ObjectId_new v).
Proof.
  destruct v as [|s|oid|t]; cbn [ObjectId_new]; try (intros st; reflexivity).
  destruct (ObjectId_of_str s); intros st; reflexivity.
Qed.

Lemma keeps_getitem (d : Document) (k : string) : keeps_db (getitem d k).
Proof. unfold getitem. destruct (d !! k); intros st; reflexivity. Qed.

Lemma keeps_set_id_str (d : Document) : keeps_db (set_id_str d).
Proof.
  unfold set_id_str. apply keeps_bind; [apply keeps_getitem|].
  intros v. apply keeps_ret.
Qed.

Lemma keeps_set_id_str_opt (doc : option Document) :
  keeps_db (set_id_str_opt doc).
Proof. destruct doc; [apply keeps_set_id_str | apply keeps_raise]. Qed.

Lemma keeps_parse_id (s : string) : keeps_db (parse_id s).
Proof.
  apply keeps_try_except; [apply keeps_ObjectId_new|].
  intros e. apply keeps_raise.
Qed.

Lemma keeps_find (h : ColHandle) (q : Filter) : keeps_db (find h q).
Proof. intros st. reflexivity. Qed.

Lemma keeps_find_one (h : ColHandle) (q : Filter) : keeps_db (find_one h q).
Proof. intros st. reflexivity. Qed.

Lemma keeps_if {A} (b : bool) (m1 m2 : M A) :
  keeps_db m1 -> keeps_db m2 -> keeps_db (if b then m1 else m2).
Proof. destruct b; auto. Qed.

Lemma keeps_respond {A} (success : Z) (response_model : A -> option Content)
  (h : M A) : keeps_db h -> keeps_db (respond success response_model h).
Proof.
  intros Hh st. unfold respond. specialize (Hh st).
  destruct (h st) as [[e|a] st1]; cbn [snd] in *.
  - destruct e; exact Hh.
  - destruct (response_model a); exact Hh.
Qed.

Lemma keeps_documentation (url : string) (ps : list string)
  (b : option Document) : keeps_db (documentation url ps b).
Proof. intros st. reflexivity. Qed.

End ReadOnly.

Create HintDb reading.

#[local] Hint Resolve keeps_ret keeps_raise keeps_for_each keeps_ObjectId_new
  keeps_getitem keeps_set_id_str keeps_set_id_str_opt keeps_parse_id
  keeps_find keeps_find_one keeps_documentation : reading.

Ltac reading :=
  repeat first
    [ solve [auto with reading]
    | apply keeps_respond
    | apply keeps_bind; [|intros ?]
    | apply keeps_if ].

Lemma get_routes_keep_db `{Externals} (main : MainModule) :
  Forall (fun r => route_method r = GET ->
                   forall ps b, keeps_db (route_endpoint r ps b))
    (routes main).
Proof.
  unfold routes, default_routes, instructor_router, student_router,
    course_router, enrollment_router.
  repeat (apply Forall_app; split);
    repeat (apply Forall_cons; split;
            [cbn [route_method route_endpoint]; intros Hm ps b;
             try discriminate Hm|]);
    try apply Forall_nil.
  all: unfold list_instructors, get_instructor, list_students, get_student,
         list_courses, get_course, get_courses_by_instructor,
         list_enrollments, get_courses_of_student, get_students_of_course.
  all: reading.
Qed.

Lemma dispatch_get_keeps_db `{Externals} (rs : list Route) (partial : bool)
  (req : Request) :
  Forall (fun r => route_method r = GET ->
                   forall ps b, keeps_db (route_endpoint r ps b)) rs ->
  method req = GET ->
  keeps_db (dispatch rs partial req).
Proof.
  intros Hrs Hget. revert partial.
  induction Hrs as [|r rs Hr _ IH]; intros partial; cbn [dispatch].
  - intros st. destruct partial; reflexivity.
  - destruct (match_path (route_path r) (path req)) as [ps|]; [|apply IH].
    destruct (bool_decide (route_method r = method req)) eqn:Hm; [|apply IH].
    apply bool_decide_eq_true in Hm. apply Hr. congruence.
Qed.

(** X1.  A GET request, whatever its path, leaves every collection as it
    was: the list, get-by-id and relational handlers only read. *)
Theorem get_requests_read_only `{Externals} (main : MainModule)
  (req : Request) (st : State) :
  method req = GET ->
  db (snd (app main req st)) = db st.
Proof.
  intros Hget.
  apply (dispatch_get_keeps_db _ _ _ (get_routes_keep_db main) Hget).
Qed.

Lemma get_requests_read_only_witness :
  db (snd (@app example_externals example_main
             (mkRequest 7000000 GET
                ["enrollments"; "student"; "000000000000000000000002";
                 "courses"] None)
             example_state))
  = db example_state.
Proof.
  apply (@get_requests_read_only example_externals example_main
           (mkRequest 7000000 GET
              ["enrollments"; "student"; "000000000000000000000002";
               "courses"] None)
           example_state).
  reflexivity.
Defined.

(** ** The router *)

Section Router.
Context `{Externals}.
Variable main : MainModule.

Lemma dispatch_no_match (rs : list Route) (partial : bool) (req : Request)
  (st : State) :
  Forall (fun r => match_path (route_path r) (path req) = None) rs ->
  dispatch rs partial req st =
  (if partial then mkResponse 405 (CDetail "Method Not Allowed")
   else mkResponse 404 (CDetail "Not Found"), st).
Proof.
  induction 1 as [|r rs Hr _ IH]; cbn [dispatch].
  - destruct partial; reflexivity.
  - rewrite Hr. exact IH.
Qed.

Lemma dispatch_wrong_method (rs : list Route) (partial : bool)
  (req : Request) (st : State) :
  Forall (fun r => match_path (route_path r) (path req) = None \/
                   route_method r <> method req) rs ->
  partial = true \/
    Exists (fun r => is_Some (match_path (route_path r) (path req))) rs ->
  dispatch rs partial req st =
  (mkResponse 405 (CDetail "Method Not Allowed"), st).
Proof.
  intros Hrs. revert partial.
  induction Hrs as [|r rs Hr _ IH]; intros partial Hpart; cbn [dispatch].
  - destruct Hpart as [->|Hex]; [reflexivity | inversion Hex].
  - destruct (match_path (route_path r) (path req)) as [ps|] eqn:Hp.
    + destruct Hr as [Hr|Hr]; [discriminate|].
      rewrite bool_decide_eq_false_2 by exact Hr. apply IH. auto.
    + apply IH. destruct Hpart as [->|Hex]; [auto|].
      right. inversion Hex as [? ? Hhere|? ? Hlater]; subst; [|exact Hlater].
      rewrite Hp in Hhere. destruct Hhere as [? ?]. discriminate.
Qed.

Lemma match_path_length (pat : list Seg) (p ps : list string) :
  match_path pat p = Some ps -> length pat = length p.
Proof.
  revert p ps. induction pat as [|[s|] pat IH]; intros [|x p] ps;
    cbn [match_path length]; try discriminate; [reflexivity| |].
  - destruct (bool_decide (x = s)); [|discriminate].
    intros E. rewrite (IH _ _ E). reflexivity.
  - destruct (bool_decide (x = "")); [discriminate|].
    destruct (match_path pat p) as [ps'|] eqn:E; [|discriminate].
    intros _. rewrite (IH _ _ E). reflexivity.
Qed.

Lemma match_path_other_length (pat : list Seg) (p : list string) :
  length pat <> length p -> match_path pat p = None.
Proof.
  intros Hlen. destruct (match_path pat p) as [ps|] eqn:E; [|reflexivity].
  apply match_path_length in E. contradiction.
Qed.

Lemma match_path_other_resource (s x : string) (pat : list Seg)
  (p : list string) :
  x <> s -> match_path (Lit s :: pat) (x :: p) = None.
Proof.
  intros Hne. cbn [match_path]. rewrite bool_decide_eq_false_2; auto.
Qed.

End Router.

(** X2.  A request whose path starts neither with one of the four
    resources nor with a path of the generated documentation (the empty
    path included) is answered 404 "Not Found", whatever its method and
    body, and changes nothing. *)
Theorem unknown_resource_is_404 `{Externals} (main : MainModule)
  (req : Request) (st : State) :
  is_resource (hd "" (path req)) = false ->
  is_documentation (hd "" (path req)) = false ->
  app main req st = (mkResponse 404 (CDetail "Not Found"), st).
Proof.
  intros Hres Hdoc. unfold app. apply dispatch_no_match.
  unfold is_resource in Hres. unfold is_documentation in Hdoc.
  repeat (apply orb_false_elim in Hres as [Hres ?]).
  repeat (apply orb_false_elim in Hdoc as [Hdoc ?]).
  repeat match goal with
         | Hb : bool_decide _ = false |- _ => apply bool_decide_eq_false in Hb
         end.
  unfold routes, default_routes, instructor_router, student_router,
    course_router, enrollment_router.
  destruct (path req) as [|x p]; cbn [hd] in *.
  - repeat (apply Forall_app; split);
      repeat (apply Forall_cons; split; [reflexivity|]); apply Forall_nil_2.
  - repeat (apply Forall_app; split);
      repeat (apply Forall_cons; split;
              [apply match_path_other_resource; assumption|]);
      apply Forall_nil_2.
Qed.

Lemma unknown_resource_is_404_witness :
  @app example_externals example_main
    (mkRequest 7000000 DELETE ["teachers"; "000000000000000000000000"] None)
    example_state
  = (mkResponse 404 (CDetail "Not Found"), example_state).
Proof.
  apply (@unknown_resource_is_404 example_externals example_main
           (mkRequest 7000000 DELETE ["teachers"; "000000000000000000000000"]
              None)
           example_state); reflexivity.
Defined.

(** X3.  An enrollment can be deleted by identifier and nothing else:
    GET, PUT and POST on [/enrollments/{id}] are answered 405 "Method Not
    Allowed" and change nothing. *)
Theorem enrollment_by_id_only_delete `{Externals} (main : MainModule)
  (t : datetime) (m : Method) (id : string) (b : option Document)
  (st : State) :
  id <> "" ->
  m <> DELETE ->
  app main (mkRequest t m ["enrollments"; id] b) st
  = (mkResponse 405 (CDetail "Method Not Allowed"), st).
Proof.
  intros Hid Hm. unfold app. apply dispatch_wrong_method.
  - unfold routes, default_routes, instructor_router, student_router,
      course_router, enrollment_router.
    repeat (apply Forall_app; split);
      repeat (apply Forall_cons; split;
              [cbn [route_path route_method path method];
               first [ left; reflexivity
                     | left; apply match_path_other_length; discriminate
                     | right; congruence ]|]);
      apply Forall_nil_2.
  - right. unfold routes. rewrite !Exists_app. do 4 right.
    unfold enrollment_router. do 2 apply Exists_cons_tl. apply Exists_cons_hd.
    cbn [route_path path match_path].
    rewrite bool_decide_eq_true_2 by reflexivity.
    rewrite bool_decide_eq_false_2 by exact Hid. eauto.
Qed.

Lemma enrollment_by_id_only_delete_witness :
  @app example_externals example_main
    (mkRequest 7000000 PUT ["enrollments"; "000000000000000000000003"]
       (Some (<["student_id" := VStr "s"]> (<["course_id" := VStr "c"]> ∅))))
    example_state
  = (mkResponse 405 (CDetail "Method Not Allowed"), example_state).
Proof.
  apply (@enrollment_by_id_only_delete example_externals example_main);
    discriminate.
Defined.

(** The routes [FastAPI(...)] starts with: the pages of the generated
    documentation answer a GET with 200, another method with 405, and a
    longer path under them is not routed. *)
Example documentation_routes :
  let get p := @app example_externals example_main
                 (mkRequest 7000000 GET p None) example_state in
  get ["docs"] = (mkResponse 200 (CDocumentation "/docs"), example_state) /\
  get ["redoc"] = (mkResponse 200 (CDocumentation "/redoc"), example_state) /\
  get ["openapi.json"]
  = (mkResponse 200 (CDocumentation "/openapi.json"), example_state) /\
  get ["docs"; "oauth2-redirect"]
  = (mkResponse 200 (CDocumentation "/docs/oauth2-redirect"),
     example_state) /\
  @app example_externals example_main
    (mkRequest 7000000 POST ["docs"] None) example_state
  = (mkResponse 405 (CDetail "Method Not Allowed"), example_state) /\
  get ["docs"; "instructors"]
  = (mkResponse 404 (CDetail "Not Found"), example_state).
Proof. cbv zeta. repeat split; reflexivity. Qed.

(** ** Bodies the input schema rejects *)

Lemma with_body_rejected {A} (validate : Document -> option A)
  (d : Document) (k : A -> State -> Response * State) (st : State) :
  validate d = None ->
  with_body validate (Some d) k st = (mkResponse 422 CValidationErrors, st).
Proof. intros E. unfold with_body. rewrite E. reflexivity. Qed.

Lemma record_of_none `{Externals} (main : MainModule) (e : Entity)
  (body : Document) (id : string) :
  record_of main e body id = None ->
  match e with
  | EInstructor => InstructorCreate.validate body = None
  | EStudent => StudentCreate.validate body = None
  | ECourse => CourseCreate.validate body = None
  | EEnrollment => EnrollmentCreate.validate main body = None
  end.
Proof.
  destruct e; cbn [record_of].
  - destruct (InstructorCreate.validate body); [discriminate | reflexivity].
  - destruct (StudentCreate.validate body); [discriminate | reflexivity].
  - destruct (CourseCreate.validate body); [discriminate | reflexivity].
  - destruct (EnrollmentCreate.validate main body);
      [discriminate | reflexivity].
Qed.

(** X4.  A POST on a resource with a body its input schema rejects (a
    required field missing or not a string, an address the validator
    refuses) is answered 422 and stores nothing; so is a POST without a
    body. *)
Theorem rejected_body_is_422 `{Externals} (main : MainModule) (e : Entity)
  (t : datetime) (body : Document) (st : State) :
  record_of main e body "" = None ->
  app main (mkRequest t POST [resource e] (Some body)) st
    = (mkResponse 422 CValidationErrors, st) /\
  app main (mkRequest t POST [resource e] None) st
    = (mkResponse 422 CValidationErrors, st).
Proof.
  intros Hrej. apply record_of_none in Hrej.
  destruct e; (split; [|reflexivity]).
  - apply (with_body_rejected InstructorCreate.validate body _ st Hrej).
  - apply (with_body_rejected StudentCreate.validate body _ st Hrej).
  - apply (with_body_rejected CourseCreate.validate body _ st Hrej).
  - apply (with_body_rejected (EnrollmentCreate.validate main) body _ st Hrej).
Qed.

Lemma rejected_body_is_422_witness :
  @app example_externals example_main
    (mkRequest 7000000 POST ["students"]
       (Some (<["name" := VStr "Eve"]> (<["email" := VStr "no-address"]> ∅))))
    example_state
  = (mkResponse 422 CValidationErrors, example_state).
Proof.
  apply (@rejected_body_is_422 example_externals example_main EStudent
           7000000
           (<["name" := VStr "Eve"]> (<["email" := VStr "no-address"]> ∅))
           example_state).
  reflexivity.
Defined.

(** X5.  The body of a PUT is validated before the handler looks at the
    identifier: with a body the input schema rejects, the answer is 422,
    not 400 or 404, whatever the identifier (malformed and absent ones
    included), and nothing is written. *)
Theorem put_rejected_body_is_422 `{Externals} (main : MainModule)
  (e : Entity) (t : datetime) (id : string) (body : Document) (st : State) :
  e <> EEnrollment ->
  id <> "" ->
  record_of main e body "" = None ->
  app main (mkRequest t PUT [resource e; id] (Some body)) st
    = (mkResponse 422 CValidationErrors, st).
Proof.
  intros He Hid Hrej. apply record_of_none in Hrej.
  destruct id as [|a id]; [congruence|].
  destruct e; [| | |congruence].
  - apply (with_body_rejected InstructorCreate.validate body _ st Hrej).
  - apply (with_body_rejected StudentCreate.validate body _ st Hrej).
  - apply (with_body_rejected CourseCreate.validate body _ st Hrej).
Qed.

Lemma put_rejected_body_is_422_witness :
  is_valid "not-an-id" = false /\
  @app example_externals example_main
    (mkRequest 7000000 PUT ["courses"; "not-an-id"]
       (Some (<["title" := VStr "CS102"]> ∅)))
    example_state
  = (mkResponse 422 CValidationErrors, example_state).
Proof.
  split; [reflexivity|].
  apply (@put_rejected_body_is_422 example_externals example_main ECourse
           7000000 "not-an-id" (<["title" := VStr "CS102"]> ∅)
           example_state).
  - discriminate.
  - discriminate.
  - reflexivity.
Defined.

(** ** What a create writes *)

Section Create.
Context `{Externals}.
Variable main : MainModule.

Lemma respond_created {A} (validate : Document -> option A)
  (dump : A -> Document) (model : Document -> option Content)
  (h : ColHandle) (doc : Document) (kwargs : ObjectId -> Document)
  (a : A) (c : Content) (st : State) :
  has_id (VOid (ObjectId_fresh (oid_inc st))) (get_col h (db st)) = false ->
  validate (kwargs (ObjectId_fresh (oid_inc st))) = Some a ->
  model (dump a) = Some c ->
  respond 201 (fun r => model (dump r))
    (bind (insert_one h doc) (fun inserted_id =>
       construct validate (kwargs inserted_id))) st
  = (mkResponse 201 c, inserted h doc st).
Proof.
  intros Hnew Ha Hc. unfold respond, bind.
  rewrite (insert_one_new h doc st Hnew). unfold construct. rewrite Ha.
  cbn [ret]. rewrite Hc. reflexivity.
Qed.

Lemma Enrollment_construct (id : string) (i : EnrollmentCreate.t) :
  Enrollment.validate main (<["id" := VStr id]> (EnrollmentCreate.dict i))
    = Some (Enrollment.mk (Some id) i) /\
  Enrollment.validate main (Enrollment.dump (Enrollment.mk (Some id) i))
    = Some (Enrollment.mk (Some id) i).
Proof. destruct i as [s c t]. split; reflexivity. Qed.

Lemma dict_dom_instructor (i : InstructorCreate.t) :
  dom (InstructorCreate.dict i) = schema_fields EInstructor.
Proof.
  unfold InstructorCreate.dict, schema_fields.
  rewrite !dom_insert_L, dom_empty_L. set_solver.
Qed.

Lemma dict_dom_student (i : StudentCreate.t) :
  dom (StudentCreate.dict i) = schema_fields EStudent.
Proof.
  unfold StudentCreate.dict, schema_fields.
  rewrite !dom_insert_L, dom_empty_L. set_solver.
Qed.

Lemma dict_dom_course (i : CourseCreate.t) :
  dom (CourseCreate.dict i) = schema_fields ECourse.
Proof.
  unfold CourseCreate.dict, schema_fields.
  rewrite !dom_insert_L, dom_empty_L. set_solver.
Qed.

Lemma dict_dom_enrollment (i : EnrollmentCreate.t) :
  dom (EnrollmentCreate.dict i) = schema_fields EEnrollment.
Proof.
  unfold EnrollmentCreate.dict, schema_fields.
  rewrite !dom_insert_L, dom_empty_L. set_solver.
Qed.

(** The POST of each resource, for a body the schema accepts and a
    generated ObjectId that is new: 201 with the input plus the
    identifier, and the state of an insert of the input's dict. *)
Lemma post_creates (e : Entity) (t : datetime) (body : Document)
  (st : State) :
  email_stable ->
  valid_input main e body ->
  has_id (VOid (ObjectId_fresh (oid_inc st))) (get_col (entity_col e) (db st))
    = false ->
  exists c doc,
    app main (mkRequest t POST [resource e] (Some body)) st
      = (mkResponse 201 c, inserted (entity_col e) doc st) /\
    record_of main e body (str (ObjectId_fresh (oid_inc st))) = Some c /\
    (e <> EEnrollment ->
     entity_model main e
       (<["_id" := VStr (str (ObjectId_fresh (oid_inc st)))]>
          (<["_id" := VOid (ObjectId_fresh (oid_inc st))]>
             (bson_document doc))) = Some c) /\
    dom doc = schema_fields e.
Proof.
  intros Hstable [c0 Hc0] Hnew. set (oid := ObjectId_fresh (oid_inc st)).
  destruct e; cbn [record_of entity_col resource] in *.
  - destruct (InstructorCreate.validate body) as [i|] eqn:Hi; [|discriminate].
    destruct (Instructor_construct (str oid) i
                (InstructorCreate_validated _ _ Hstable Hi)) as [Hk Hd].
    exists (CInstructor (Instructor.mk (Some (str oid)) i)),
      (InstructorCreate.dict i).
    split; [|split; [reflexivity|split; [|apply dict_dom_instructor]]];
      [|intros _; cbn [entity_model]; unfold instructor_model;
        rewrite (Instructor_validate_fields _ (str oid) i);
        [reflexivity | apply id_field_alias | | | |
         exact (InstructorCreate_validated _ _ Hstable Hi)];
        rewrite InstructorCreate_bson; reflexivity].
    change (with_body InstructorCreate.validate (Some body)
              (fun instructor =>
                 respond 201 (fun r => instructor_model (Instructor.dump r))
                   (create_instructor instructor)) st = (
            mkResponse 201 (CInstructor (Instructor.mk (Some (str oid)) i)),
            inserted instructors_col (InstructorCreate.dict i) st)).
    unfold with_body. rewrite Hi.
    apply (respond_created Instructor.validate Instructor.dump
             instructor_model instructors_col _
             (fun inserted_id =>
                <["id" := VStr (str inserted_id)]> (InstructorCreate.dict i))
             _ _ st Hnew Hk).
    unfold instructor_model. rewrite Hd. reflexivity.
  - destruct (StudentCreate.validate body) as [i|] eqn:Hi; [|discriminate].
    destruct (Student_construct (str oid) i
                (StudentCreate_validated _ _ Hstable Hi)) as [Hk Hd].
    exists (CStudent (Student.mk (Some (str oid)) i)), (StudentCreate.dict i).
    split; [|split; [reflexivity|split; [|apply dict_dom_student]]];
      [|intros _; cbn [entity_model]; unfold student_model;
        rewrite (Student_validate_fields _ (str oid) i);
        [reflexivity | apply id_field_alias | | |
         exact (StudentCreate_validated _ _ Hstable Hi)];
        rewrite StudentCreate_bson; reflexivity].
    change (with_body StudentCreate.validate (Some body)
              (fun student =>
                 respond 201 (fun r => student_model (Student.dump r))
                   (create_student student)) st = (
            mkResponse 201 (CStudent (Student.mk (Some (str oid)) i)),
            inserted students_col (StudentCreate.dict i) st)).
    unfold with_body. rewrite Hi.
    apply (respond_created Student.validate Student.dump
             student_model students_col _
             (fun inserted_id =>
                <["id" := VStr (str inserted_id)]> (StudentCreate.dict i))
             _ _ st Hnew Hk).
    unfold student_model. rewrite Hd. reflexivity.
  - destruct (CourseCreate.validate body) as [i|] eqn:Hi; [|discriminate].
    destruct (Course_construct (str oid) i) as [Hk Hd].
    exists (CCourse (Course.mk (Some (str oid)) i)), (CourseCreate.dict i).
    split; [|split; [reflexivity|split; [|apply dict_dom_course]]];
      [|intros _; cbn [entity_model]; unfold course_model;
        rewrite (Course_validate_fields _ (str oid) i);
        [reflexivity | apply id_field_alias | | | ];
        rewrite CourseCreate_bson; reflexivity].
    change (with_body CourseCreate.validate (Some body)
              (fun course =>
                 respond 201 (fun r => course_model (Course.dump r))
                   (create_course course)) st = (
            mkResponse 201 (CCourse (Course.mk (Some (str oid)) i)),
            inserted courses_col (CourseCreate.dict i) st)).
    unfold with_body. rewrite Hi.
    apply (respond_created Course.validate Course.dump
             course_model courses_col _
             (fun inserted_id =>
                <["id" := VStr (str inserted_id)]> (CourseCreate.dict i))
             _ _ st Hnew Hk).
    unfold course_model. rewrite Hd. reflexivity.
  - destruct (EnrollmentCreate.validate main body) as [i|] eqn:Hi;
      [|discriminate].
    destruct (Enrollment_construct (str oid) i) as [Hk Hd].
    exists (CEnrollment (Enrollment.mk (Some (str oid)) i)),
      (EnrollmentCreate.dict i).
    split; [|split; [reflexivity | split;
                                       [congruence|apply dict_dom_enrollment]]].
    change (with_body (EnrollmentCreate.validate main) (Some body)
              (fun enrollment =>
                 respond 201
                   (fun r => enrollment_model main (Enrollment.dump r))
                   (enroll_student main enrollment)) st = (
            mkResponse 201 (CEnrollment (Enrollment.mk (Some (str oid)) i)),
            inserted enrollments_col (EnrollmentCreate.dict i) st)).
    unfold with_body. rewrite Hi.
    apply (respond_created (Enrollment.validate main) Enrollment.dump
             (enrollment_model main) enrollments_col _
             (fun inserted_id =>
                <["id" := VStr (str inserted_id)]> (EnrollmentCreate.dict i))
             _ _ st Hnew Hk).
    unfold enrollment_model. rewrite Hd. reflexivity.
Qed.

End Create.

(** X6.  A create writes one document and nothing else.  For each of the
    four resources, a body the input schema accepts and a generated
    ObjectId that is new to the collection: the POST answers 201 with the
    input plus the identifier; the collection is what it was with one
    document added at the end, which carries the new ObjectId; the other
    three collections are untouched.  Nothing else is asked of the state:
    no field has to be unique and no reference has to exist. *)
Theorem create_appends_one `{Externals} (main : MainModule) (e : Entity)
  (t : datetime) (body : Document) (st : State) :
  email_stable ->
  valid_input main e body ->
  has_id (VOid (ObjectId_fresh (oid_inc st))) (get_col (entity_col e) (db st))
    = false ->
  exists c d st1,
    app main (mkRequest t POST [resource e] (Some body)) st
      = (mkResponse 201 c, st1) /\
    record_of main e body (str (ObjectId_fresh (oid_inc st))) = Some c /\
    get_col (entity_col e) (db st1)
      = get_col (entity_col e) (db st) ++ [d] /\
    d !! "_id" = Some (VOid (ObjectId_fresh (oid_inc st))) /\
    forall h, h <> entity_col e -> get_col h (db st1) = get_col h (db st).
Proof.
  intros Hstable Hvalid Hnew.
  destruct (post_creates main e t body st Hstable Hvalid Hnew)
    as (c & doc & Hpost & Hrec & _ & _).
  eexists c, _, _. split; [exact Hpost|]. split; [exact Hrec|].
  unfold inserted. cbn [db]. split; [apply get_col_set_col|].
  split; [apply lookup_insert_eq|].
  intros h Hh. apply get_col_set_col_ne. congruence.
Qed.

Lemma create_appends_one_witness :
  exists c d st1,
    @app example_externals example_main
      (mkRequest 7000000 POST ["enrollments"]
         (Some (<["student_id" := VStr "nobody"]>
                  (<["course_id" := VStr "nothing"]> ∅))))
      example_state
      = (mkResponse 201 c, st1) /\
    @record_of example_externals example_main EEnrollment
      (<["student_id" := VStr "nobody"]> (<["course_id" := VStr "nothing"]> ∅))
      "000000000000000000000005" = Some c /\
    enrollments (db st1) = enrollments (db example_state) ++ [d] /\
    d !! "_id" = Some (VOid (nth_oid 5)) /\
    forall h, h <> enrollments_col ->
              get_col h (db st1) = get_col h (db example_state).
Proof.
  apply (@create_appends_one example_externals example_main EEnrollment
           7000000
           (<["student_id" := VStr "nobody"]>
              (<["course_id" := VStr "nothing"]> ∅))
           example_state).
  - exact example_email_stable.
  - vm_compute. eexists. reflexivity.
  - reflexivity.
Defined.

(** ** Listing a collection *)

Section Listing.
Context `{Externals}.

Lemma find_docs_all (c : Collection) : find_docs FAll c = c.
Proof.
  induction c as [|d c IH]; cbn [find_docs matches]; [reflexivity|].
  rewrite IH. reflexivity.
Qed.

Lemma list_all_pure (h : ColHandle) (st : State) :
  list_all h st = (set_ids (get_col h (db st)), st).
Proof.
  destruct h; cbn [list_all get_col];
    unfold list_instructors, list_students, list_courses, list_enrollments,
      bind, find; cbn [get_col]; rewrite find_docs_all;
    apply for_each_set_id_str.
Qed.

Lemma set_ids_inr (l docs : list Document) :
  set_ids l = inr docs -> Forall2 id_as_str l docs.
Proof.
  revert docs. induction l as [|d l IH]; cbn [set_ids]; intros docs.
  - intros [= <-]. constructor.
  - unfold set_id_of. destruct (d !! "_id") as [v|] eqn:Hd; [|discriminate].
    destruct (set_ids l) as [e|ds]; [discriminate|].
    intros [= <-]. constructor; [|apply IH; reflexivity].
    exists v. auto.
Qed.

Lemma set_ids_total (l : list Document) :
  Forall (fun d => is_Some (d !! "_id")) l -> exists docs, set_ids l = inr docs.
Proof.
  induction 1 as [|d l [v Hd] _ [ds IH]]; cbn [set_ids].
  - eauto.
  - unfold set_id_of. rewrite Hd, IH. eauto.
Qed.

Lemma set_ids_snoc (l docs : list Document) (d : Document) (v : Value) :
  set_ids l = inr docs ->
  d !! "_id" = Some v ->
  set_ids (l ++ [d]) = inr (docs ++ [<["_id" := VStr (py_str v)]> d]).
Proof.
  revert docs. induction l as [|x l IH]; cbn [set_ids Datatypes.app];
    intros docs.
  - intros [= <-] Hd. unfold set_id_of. rewrite Hd. reflexivity.
  - destruct (set_id_of x) as [e|x']; [discriminate|].
    destruct (set_ids l) as [e|ds]; [discriminate|].
    intros [= <-] Hd. rewrite (IH ds eq_refl Hd). reflexivity.
Qed.

End Listing.

(** X7.  A list handler returns the whole collection: when every document
    carries an [_id], as every document of a MongoDB collection does, it
    returns one document per stored document, in the collection's order,
    each being the stored document with [_id] replaced by its string; and
    it leaves the state as it was.  In particular an empty collection gives
    the empty list, not an error. *)
Theorem list_returns_all `{Externals} (h : ColHandle) (st : State) :
  Forall (fun d : Document => is_Some (d !! "_id")) (get_col h (db st)) ->
  exists docs,
    list_all h st = (inr docs, st) /\
    Forall2 id_as_str (get_col h (db st)) docs /\
    length docs = length (get_col h (db st)).
Proof.
  intros Hids. destruct (set_ids_total _ Hids) as [docs Hdocs].
  exists docs. rewrite list_all_pure, Hdocs. split; [reflexivity|].
  pose proof (set_ids_inr _ _ Hdocs) as Hall.
  split; [exact Hall | symmetry; apply (Forall2_length _ _ _ Hall)].
Qed.

Lemma list_returns_all_witness :
  exists docs,
    @list_enrollments example_externals example_state
      = (inr docs, example_state) /\
    Forall2 (@id_as_str example_externals)
      (enrollments (db example_state)) docs /\
    length docs = length (enrollments (db example_state)).
Proof.
  apply (@list_returns_all example_externals enrollments_col example_state).
  apply (bool_decide_unpack _). vm_compute. exact I.
Defined.

Section ListAfterCreate.
Context `{Externals}.
Variable main : MainModule.

Lemma set_ids_inl (l : list Document) (e : Exn) :
  set_ids l = inl e -> e = KeyError "_id".
Proof.
  induction l as [|d l IH]; cbn [set_ids]; [discriminate|].
  unfold set_id_of. destruct (d !! "_id").
  - destruct (set_ids l) as [e'|ds]; [|discriminate].
    intros [= <-]. apply IH. reflexivity.
  - intros [= <-]. reflexivity.
Qed.

(** A list response after an insert: the records listed before, then
    the record the inserted document reads as. *)
Lemma list_snoc {R} (validate : Document -> option R)
  (wrap : list R -> Content) (h : ColHandle) (doc : Document) (st : State)
  (l : Content) (r : R) :
  fst (respond 200 (fun docs => wrap <$> mapM validate docs) (list_all h) st)
    = mkResponse 200 l ->
  validate (<["_id" := VStr (str (ObjectId_fresh (oid_inc st)))]>
              (<["_id" := VOid (ObjectId_fresh (oid_inc st))]>
                 (bson_document doc))) = Some r ->
  exists rs,
    l = wrap rs /\
    fst (respond 200 (fun docs => wrap <$> mapM validate docs) (list_all h)
           (inserted h doc st))
      = mkResponse 200 (wrap (rs ++ [r])).
Proof.
  unfold respond. rewrite !list_all_pure. intros Hbefore Hr.
  destruct (set_ids (get_col h (db st))) as [e|docs] eqn:Hdocs.
  { rewrite (set_ids_inl _ _ Hdocs) in Hbefore. discriminate. }
  destruct (mapM validate docs) as [rs|] eqn:Hrs; [|discriminate].
  cbn in Hbefore. injection Hbefore as <-. exists rs. split; [reflexivity|].
  unfold inserted at 1. cbn [db]. rewrite get_col_set_col.
  rewrite (set_ids_snoc _ _ _ (VOid (ObjectId_fresh (oid_inc st))) Hdocs)
    by apply lookup_insert_eq.
  cbn [py_str].
  assert (Hall : mapM validate
                   (docs ++ [<["_id" := VStr (str (ObjectId_fresh (oid_inc st)))]>
                               (<["_id" := VOid (ObjectId_fresh (oid_inc st))]>
                                  (bson_document doc))])
                 = Some (rs ++ [r])).
  { apply mapM_Some_2, Forall2_app; [apply mapM_Some_1, Hrs|].
    constructor; [exact Hr | constructor]. }
  rewrite Hall. reflexivity.
Qed.

End ListAfterCreate.

(** X8.  What a create adds shows up in the list.  For instructors,
    students and courses: if the list of the resource is answered 200
    before, then after a successful create it is answered 200 with the
    same records in the same order and the created record, as the create
    returned it, at the end. *)
Theorem list_after_create `{Externals} (main : MainModule) (e : Entity)
  (t1 t2 t3 : datetime) (body : Document) (st : State) (l : Content) :
  e <> EEnrollment ->
  email_stable ->
  valid_input main e body ->
  has_id (VOid (ObjectId_fresh (oid_inc st))) (get_col (entity_col e) (db st))
    = false ->
  fst (app main (mkRequest t1 GET [resource e] None) st) = mkResponse 200 l ->
  exists c st1 l',
    app main (mkRequest t2 POST [resource e] (Some body)) st
      = (mkResponse 201 c, st1) /\
    fst (app main (mkRequest t3 GET [resource e] None) st1)
      = mkResponse 200 l' /\
    listed_with l c = Some l'.
Proof.
  intros He Hstable Hvalid Hnew Hbefore.
  destruct (post_creates main e t2 body st Hstable Hvalid Hnew)
    as (c & doc & Hpost & Hrec & Hread & _).
  specialize (Hread He).
  exists c, (inserted (entity_col e) doc st).
  destruct e; [| | |congruence]; cbn [entity_model entity_col resource] in *.
  - unfold instructor_model in Hread.
    destruct (Instructor.validate _) as [r|] eqn:Hr; [|discriminate].
    injection Hread as <-.
    destruct (list_snoc Instructor.validate CInstructors instructors_col
                doc st l r Hbefore Hr) as (rs & -> & Hafter).
    eexists. split; [exact Hpost|]. split; [exact Hafter | reflexivity].
  - unfold student_model in Hread.
    destruct (Student.validate _) as [r|] eqn:Hr; [|discriminate].
    injection Hread as <-.
    destruct (list_snoc Student.validate CStudents students_col
                doc st l r Hbefore Hr) as (rs & -> & Hafter).
    eexists. split; [exact Hpost|]. split; [exact Hafter | reflexivity].
  - unfold course_model in Hread.
    destruct (Course.validate _) as [r|] eqn:Hr; [|discriminate].
    injection Hread as <-.
    destruct (list_snoc Course.validate CCourses courses_col
                doc st l r Hbefore Hr) as (rs & -> & Hafter).
    eexists. split; [exact Hpost|]. split; [exact Hafter | reflexivity].
Qed.

Lemma list_after_create_witness :
  exists c st1 l',
    @app example_externals example_main
      (mkRequest 8000000 POST ["students"]
         (Some (<["name" := VStr "Eve"]> (<["email" := VStr "eve@x.com"]> ∅))))
      example_state
      = (mkResponse 201 c, st1) /\
    fst (@app example_externals example_main
           (mkRequest 9000000 GET ["students"] None) st1)
      = mkResponse 200 l' /\
    listed_with
      (CStudents [Student.mk (Some "000000000000000000000002")
                    (StudentCreate.mk "Bob" "bob@x.com")]) c
    = Some l'.
Proof.
  apply (@list_after_create example_externals example_main EStudent
           7000000 8000000 9000000
           (<["name" := VStr "Eve"]> (<["email" := VStr "eve@x.com"]> ∅))
           example_state).
  - discriminate.
  - exact example_email_stable.
  - vm_compute. eexists. reflexivity.
  - reflexivity.
  - reflexivity.
Defined.

(** ** How the by-id operations compose *)

Section Compose.
Context `{Externals}.

Lemma update_shape_raised (h : ColHandle) (detail s : string)
  (upd doc : Document) (st st1 : State) :
  bson_document upd !! "_id" = None ->
  update_shape h detail s upd st = (inr doc, st1) ->
  exists oid d rest c',
    ObjectId_of_str s = Some oid /\
    find_docs (by_id oid) (get_col h (db st)) = d :: rest /\
    set_first (by_id oid) (bson_document upd) (get_col h (db st))
      = inr (1, c') /\
    find_docs (by_id oid) c' = (bson_document upd ∪ d) :: rest /\
    doc = <["_id" := VStr (str oid)]> (bson_document upd ∪ d) /\
    st1 = mkState (set_col h c' (db st)) (oid_inc st).
Proof.
  intros Hupd Hrun.
  destruct (ObjectId_of_str s) as [oid|] eqn:E.
  - destruct (find_docs (by_id oid) (get_col h (db st))) as [|d rest] eqn:Hf.
    + exfalso. revert Hrun. unfold update_shape, bind.
      rewrite (parse_id_valid _ _ _ E). unfold update_one.
      rewrite (set_first_none _ _ _ Hf). discriminate.
    + destruct (set_first_some _ _ _ _ _ Hupd Hf) as (c' & Hset & Hc').
      exists oid, d, rest, c'. repeat (split; [auto; fail|]).
      pose proof (find_docs_head_id _ _ _ _ Hf) as Hid.
      revert Hrun. unfold update_shape, bind.
      rewrite (parse_id_valid _ _ _ E). unfold update_one. rewrite Hset.
      cbn [Z.eqb]. unfold find_one. cbn [db]. rewrite get_col_set_col, Hc'.
      cbn [head]. unfold set_id_str_opt.
      rewrite (set_id_str_some _ (VOid oid))
        by (rewrite lookup_union_r; assumption).
      cbn [py_str]. intros [= <- <-]. auto.
  - exfalso. revert Hrun. unfold update_shape, bind.
    rewrite (parse_id_invalid _ _ E). discriminate.
Qed.

Lemma delete_shape_returned (h : ColHandle) (detail s : string)
  (st st1 : State) :
  delete_shape h detail s st = (inr tt, st1) ->
  exists oid c',
    ObjectId_of_str s = Some oid /\
    remove_first (by_id oid) (get_col h (db st)) = (1, c') /\
    st1 = mkState (set_col h c' (db st)) (oid_inc st).
Proof.
  intros Hrun. destruct (ObjectId_of_str s) as [oid|] eqn:E.
  - destruct (find_docs (by_id oid) (get_col h (db st))) as [|d rest] eqn:Hf.
    + exfalso. revert Hrun. unfold delete_shape, bind.
      rewrite (parse_id_valid _ _ _ E). unfold delete_one.
      rewrite (remove_first_none _ _ Hf). discriminate.
    + destruct (delete_shape_found h detail s oid st E) as (c' & Hrm & Hdel);
        [rewrite Hf; discriminate|].
      exists oid, c'. rewrite Hdel in Hrun. injection Hrun as <-. auto.
  - exfalso. revert Hrun. unfold delete_shape, bind.
    rewrite (parse_id_invalid _ _ E). discriminate.
Qed.

Lemma set_col_set_col (h : ColHandle) (c c' : Collection) (d : DB) :
  set_col h c' (set_col h c d) = set_col h c' d.
Proof. destruct h; reflexivity. Qed.

Lemma union_twice (upd d : Document) : upd ∪ (upd ∪ d) = upd ∪ d.
Proof.
  apply map_eq. intros k. rewrite !lookup_union.
  destruct (upd !! k), (d !! k); reflexivity.
Qed.

Lemma set_first_again (oid : ObjectId) (upd : Document) (c c' : Collection)
  (n : Z) :
  upd !! "_id" = None ->
  set_first (by_id oid) upd c = inr (n, c') ->
  set_first (by_id oid) upd c' = inr (n, c').
Proof.
  intros Hupd. revert n c'.
  induction c as [|d c IH]; cbn [set_first]; intros n c'.
  - intros [= <- <-]. reflexivity.
  - destruct (matches (by_id oid) d) eqn:Hm.
    + rewrite Hupd. intros [= <- <-]. cbn [set_first].
      replace (matches (by_id oid) (upd ∪ d)) with true.
      * rewrite Hupd, union_twice. reflexivity.
      * symmetry. apply matches_by_id. apply matches_by_id in Hm.
        rewrite lookup_union_r; assumption.
    + destruct (set_first (by_id oid) upd c) as [e|[m c'']] eqn:E;
        [discriminate|].
      intros [= <- <-]. cbn [set_first]. rewrite Hm, (IH _ _ eq_refl).
      reflexivity.
Qed.

Lemma update_shape_then_get (h : ColHandle) (detail s : string)
  (upd doc : Document) (st st1 : State) :
  bson_document upd !! "_id" = None ->
  update_shape h detail s upd st = (inr doc, st1) ->
  get_shape h detail s st1 = (inr doc, st1).
Proof.
  intros Hupd Hrun.
  destruct (update_shape_raised _ _ _ _ _ _ _ Hupd Hrun)
    as (oid & d & rest & c' & E & Hf & Hset & Hc' & -> & ->).
  apply (get_shape_found h detail s oid _ _ rest E).
  cbn [db]. rewrite get_col_set_col. exact Hc'.
Qed.

Lemma update_shape_twice (h : ColHandle) (detail s : string)
  (upd doc : Document) (st st1 : State) :
  bson_document upd !! "_id" = None ->
  update_shape h detail s upd st = (inr doc, st1) ->
  update_shape h detail s upd st1 = (inr doc, st1).
Proof.
  intros Hupd Hrun.
  destruct (update_shape_raised _ _ _ _ _ _ _ Hupd Hrun)
    as (oid & d & rest & c' & E & Hf & Hset & Hc' & -> & ->).
  pose proof (set_first_again _ _ _ _ _ Hupd Hset) as Hagain.
  assert (Hid : (bson_document upd ∪ d) !! "_id" = Some (VOid oid)).
  { rewrite lookup_union_r by assumption. apply (find_docs_head_id _ _ _ _ Hf). }
  unfold update_shape, bind. rewrite (parse_id_valid _ _ _ E).
  unfold update_one. cbn [db oid_inc]. rewrite get_col_set_col, Hagain.
  cbn [Z.eqb]. unfold find_one. cbn [db].
  rewrite set_col_set_col, get_col_set_col, Hc'. cbn [head].
  unfold set_id_str_opt. rewrite (set_id_str_some _ (VOid oid) _ Hid).
  reflexivity.
Qed.

End Compose.

(** X9.  A deleted identifier is gone for every operation.  With [_id]
    unique in the collection: after a delete that succeeded, every by-id
    call on the same collection and identifier (get, update or delete)
    raises the collection's 404 and leaves the state as it is. *)
Theorem deleted_id_is_gone `{Externals} (h : ColHandle) (s : string)
  (st st1 : State) (c : ByIdCall) :
  unique_ids (get_col h (db st)) ->
  delete_by_id h s st = (inr tt, st1) ->
  call_col c = h ->
  call_id c = s ->
  call c st1 = (inl (HTTPException 404 (not_found_detail h)), st1).
Proof.
  rewrite delete_by_id_shape. intros Huniq Hdel <- <-.
  destruct (delete_shape_returned _ _ _ _ _ Hdel) as (oid & c' & E & Hrm & ->).
  rewrite call_run_shape. apply (run_shape_absent _ _ _ oid _ E).
  cbn [db]. rewrite get_col_set_col.
  apply (remove_first_gone _ _ _ Huniq Hrm).
Qed.

Lemma deleted_id_is_gone_witness :
  @call example_externals
    (UpdateCourse "000000000000000000000001"
       (CourseCreate.mk "CS101" (Some "again") "000000000000000000000000"))
    (snd (@delete_course example_externals "000000000000000000000001"
            example_state))
  = (inl (HTTPException 404 "Course not found"),
     snd (@delete_course example_externals "000000000000000000000001"
            example_state)).
Proof.
  apply (@deleted_id_is_gone example_externals courses_col
           "000000000000000000000001" example_state).
  - apply (bool_decide_unpack _). vm_compute. exact I.
  - reflexivity.
  - reflexivity.
  - reflexivity.
Defined.

(** X10.  A get after an update returns what the update returned: for
    instructors, students and courses, when an update returns a document,
    a get on the same identifier in the state it left returns the same
    document and changes nothing. *)
Theorem update_then_get `{Externals} (s : string) (doc : Document)
  (st st1 : State) :
  (forall data, update_instructor s data st = (inr doc, st1) ->
                get_instructor s st1 = (inr doc, st1)) /\
  (forall data, update_student s data st = (inr doc, st1) ->
                get_student s st1 = (inr doc, st1)) /\
  (forall data, update_course s data st = (inr doc, st1) ->
                get_course s st1 = (inr doc, st1)).
Proof.
  split; [|split]; intros data Hrun.
  - apply (update_shape_then_get instructors_col "Instructor not found" s
             (InstructorCreate.dict data) doc st st1 eq_refl Hrun).
  - apply (update_shape_then_get students_col "Student not found" s
             (StudentCreate.dict data) doc st st1 eq_refl Hrun).
  - apply (update_shape_then_get courses_col "Course not found" s
             (CourseCreate.dict data) doc st st1 eq_refl Hrun).
Qed.

Lemma update_then_get_witness :
  let run := @update_student example_externals "000000000000000000000002"
               (StudentCreate.mk "Robert" "bob@x.com") example_state in
  let doc : Document := match fst run with inr d => d | inl _ => ∅ end in
  run = (inr doc, snd run) /\
  @get_student example_externals "000000000000000000000002" (snd run)
  = (inr doc, snd run).
Proof.
  cbv zeta.
  assert (Hrun :
    @update_student example_externals "000000000000000000000002"
      (StudentCreate.mk "Robert" "bob@x.com") example_state
    = (inr (match fst (@update_student example_externals
                         "000000000000000000000002"
                         (StudentCreate.mk "Robert" "bob@x.com")
                         example_state)
            with inr d => d | inl _ => ∅ end),
       snd (@update_student example_externals "000000000000000000000002"
              (StudentCreate.mk "Robert" "bob@x.com") example_state)))
    by (vm_compute; reflexivity).
  split; [exact Hrun|].
  destruct (@update_then_get example_externals "000000000000000000000002"
              (match fst (@update_student example_externals
                            "000000000000000000000002"
                            (StudentCreate.mk "Robert" "bob@x.com")
                            example_state)
               with inr d => d | inl _ => ∅ end)
              example_state
              (snd (@update_student example_externals
                      "000000000000000000000002"
                      (StudentCreate.mk "Robert" "bob@x.com") example_state)))
    as (_ & Hstudent & _).
  apply (Hstudent (StudentCreate.mk "Robert" "bob@x.com") Hrun).
Defined.

(** X11.  An update is idempotent: for instructors, students and
    courses, repeating an update that returned, with the same identifier
    and data, returns the same document and leaves the state exactly as the
    first one left it. *)
Theorem update_twice `{Externals} (s : string) (doc : Document)
  (st st1 : State) :
  (forall data, update_instructor s data st = (inr doc, st1) ->
                update_instructor s data st1 = (inr doc, st1)) /\
  (forall data, update_student s data st = (inr doc, st1) ->
                update_student s data st1 = (inr doc, st1)) /\
  (forall data, update_course s data st = (inr doc, st1) ->
                update_course s data st1 = (inr doc, st1)).
Proof.
  split; [|split]; intros data Hrun.
  - apply (update_shape_twice instructors_col "Instructor not found" s
             (InstructorCreate.dict data) doc st st1 eq_refl Hrun).
  - apply (update_shape_twice students_col "Student not found" s
             (StudentCreate.dict data) doc st st1 eq_refl Hrun).
  - apply (update_shape_twice courses_col "Course not found" s
             (CourseCreate.dict data) doc st st1 eq_refl Hrun).
Qed.

Lemma update_twice_witness :
  let data := InstructorCreate.mk "Ada" "ada@x.com" (Some "logic") in
  let run := @update_instructor example_externals "000000000000000000000000"
               data example_state in
  let doc : Document := match fst run with inr d => d | inl _ => ∅ end in
  run = (inr doc, snd run) /\
  @update_instructor example_externals "000000000000000000000000" data
    (snd run)
  = (inr doc, snd run).
Proof.
  cbv zeta.
  assert (Hrun :
    @update_instructor example_externals "000000000000000000000000"
      (InstructorCreate.mk "Ada" "ada@x.com" (Some "logic")) example_state
    = (inr (match fst (@update_instructor example_externals
                         "000000000000000000000000"
                         (InstructorCreate.mk "Ada" "ada@x.com"
                            (Some "logic"))
                         example_state)
            with inr d => d | inl _ => ∅ end),
       snd (@update_instructor example_externals "000000000000000000000000"
              (InstructorCreate.mk "Ada" "ada@x.com" (Some "logic"))
              example_state)))
    by (vm_compute; reflexivity).
  split; [exact Hrun|].
  destruct (@update_twice example_externals "000000000000000000000000"
              (match fst (@update_instructor example_externals
                            "000000000000000000000000"
                            (InstructorCreate.mk "Ada" "ada@x.com"
                               (Some "logic"))
                            example_state)
               with inr d => d | inl _ => ∅ end)
              example_state
              (snd (@update_instructor example_externals
                      "000000000000000000000000"
                      (InstructorCreate.mk "Ada" "ada@x.com" (Some "logic"))
                      example_state)))
    as (Hinstructor & _).
  apply (Hinstructor (InstructorCreate.mk "Ada" "ada@x.com" (Some "logic"))
           Hrun).
Defined.

(** ** What the by-id operations write *)

Section Writes.
Context `{Externals}.

Lemma get_shape_keeps (h : ColHandle) (detail s : string) :
  keeps_db (get_shape h detail s).
Proof. unfold get_shape. reading. Qed.

Lemma update_shape_frame (h h' : ColHandle) (detail s : string)
  (upd : Document) (st : State) :
  h <> h' ->
  get_col h' (db (snd (update_shape h detail s upd st))) = get_col h' (db st).
Proof.
  intros Hne. unfold update_shape, bind.
  destruct (ObjectId_of_str s) as [oid|] eqn:E.
  - rewrite (parse_id_valid _ _ _ E). unfold update_one.
    destruct (set_first (by_id oid) (bson_document upd) (get_col h (db st)))
      as [e|[n c']]; [reflexivity|].
    assert (Hst : get_col h' (db (mkState (set_col h c' (db st)) (oid_inc st)))
                  = get_col h' (db st))
      by apply (get_col_set_col_ne _ _ _ _ Hne).
    destruct (n =? 0)%Z; [exact Hst|].
    unfold find_one.
    match goal with
    | |- context [set_id_str_opt ?doc ?st1] =>
        rewrite (keeps_set_id_str_opt doc st1)
    end.
    exact Hst.
  - rewrite (parse_id_invalid _ _ E). reflexivity.
Qed.

Lemma outcome_snd {A} (m : M A) (st : State) : snd (outcome m st) = snd (m st).
Proof. unfold outcome. destruct (m st) as [[e|a] st1]; reflexivity. Qed.

Lemma update_shape_ids (h : ColHandle) (detail s : string) (upd : Document)
  (st : State) :
  (fun d : Document => d !! "_id")
    <$> get_col h (db (snd (update_shape h detail s upd st)))
  = (fun d : Document => d !! "_id") <$> get_col h (db st).
Proof.
  unfold update_shape, bind.
  destruct (ObjectId_of_str s) as [oid|] eqn:E.
  - rewrite (parse_id_valid _ _ _ E). unfold update_one.
    destruct (set_first (by_id oid) (bson_document upd) (get_col h (db st)))
      as [e|[n c']] eqn:Hset; [reflexivity|].
    assert (Hst : (fun d : Document => d !! "_id")
                    <$> get_col h (db (mkState (set_col h c' (db st))
                                         (oid_inc st)))
                  = (fun d : Document => d !! "_id") <$> get_col h (db st)).
    { cbn [db]. rewrite get_col_set_col. apply (set_first_ids _ _ _ _ _ Hset). }
    destruct (n =? 0)%Z; [exact Hst|].
    unfold find_one.
    match goal with
    | |- context [set_id_str_opt ?doc ?st1] =>
        rewrite (keeps_set_id_str_opt doc st1)
    end.
    exact Hst.
  - rewrite (parse_id_invalid _ _ E). reflexivity.
Qed.

Lemma remove_first_split (oid : ObjectId) (c c' : Collection) :
  remove_first (by_id oid) c = (1, c') ->
  exists l1 d l2,
    c = l1 ++ d :: l2 /\ c' = l1 ++ l2 /\
    d !! "_id" = Some (VOid oid) /\ find_docs (by_id oid) l1 = [].
Proof.
  revert c'. induction c as [|x c IH]; cbn [remove_first]; intros c'.
  - discriminate.
  - destruct (matches (by_id oid) x) eqn:Hm.
    + intros [= <-]. exists [], x, c. apply matches_by_id in Hm. auto.
    + destruct (remove_first (by_id oid) c) as [n c''] eqn:E.
      intros [= -> <-].
      destruct (IH _ eq_refl) as (l1 & d & l2 & -> & -> & Hd & Hl1).
      exists (x :: l1), d, l2. repeat split; auto.
      cbn [find_docs]. rewrite Hm. exact Hl1.
Qed.

Lemma remove_first_snoc (oid : ObjectId) (c : Collection) (d : Document) :
  find_docs (by_id oid) c = [] ->
  d !! "_id" = Some (VOid oid) ->
  remove_first (by_id oid) (c ++ [d]) = (1, c).
Proof.
  intros Hnone Hd. induction c as [|x c IH]; cbn [Datatypes.app remove_first].
  - replace (matches (by_id oid) d) with true; [reflexivity|].
    symmetry. apply matches_by_id, Hd.
  - cbn [find_docs] in Hnone.
    destruct (matches (by_id oid) x); [discriminate|].
    rewrite (IH Hnone). reflexivity.
Qed.

End Writes.

(** X12.  Each by-id handler works on its own collection only: whatever a
    get, update or delete does, the other three collections are afterwards
    what they were. *)
Theorem by_id_call_frame `{Externals} (c : ByIdCall) (h : ColHandle)
  (st : State) :
  h <> call_col c ->
  get_col h (db (snd (call c st))) = get_col h (db st).
Proof.
  intros Hne. rewrite call_run_shape.
  destruct (call_shape c) as [|upd|]; unfold run_shape; rewrite outcome_snd.
  - rewrite get_shape_keeps. reflexivity.
  - apply update_shape_frame. congruence.
  - apply delete_shape_frame. congruence.
Qed.

Lemma by_id_call_frame_witness :
  enrollments
    (db (snd (@call example_externals
                (DeleteStudent "000000000000000000000002") example_state)))
  = enrollments (db example_state).
Proof.
  apply (@by_id_call_frame example_externals
           (DeleteStudent "000000000000000000000002") enrollments_col
           example_state).
  discriminate.
Defined.

(** X13.  An update never adds, removes or re-identifies a document:
    whatever an update of an instructor, a student or a course does
    (return or raise), the collection afterwards has the same [_id]s in the
    same order, hence as many documents, as before.  In particular an
    update on an absent identifier creates nothing. *)
Theorem update_keeps_ids `{Externals} (s : string) (st : State) :
  (forall data,
      (fun d : Document => d !! "_id")
        <$> instructors (db (snd (update_instructor s data st)))
      = (fun d : Document => d !! "_id") <$> instructors (db st)) /\
  (forall data,
      (fun d : Document => d !! "_id")
        <$> students (db (snd (update_student s data st)))
      = (fun d : Document => d !! "_id") <$> students (db st)) /\
  (forall data,
      (fun d : Document => d !! "_id")
        <$> courses (db (snd (update_course s data st)))
      = (fun d : Document => d !! "_id") <$> courses (db st)).
Proof.
  split; [|split]; intros data.
  - apply (update_shape_ids instructors_col).
  - apply (update_shape_ids students_col).
  - apply (update_shape_ids courses_col).
Qed.

(** X14.  A delete removes exactly one document.  When a delete returns,
    the identifier is well-formed and the collection before the call splits
    around the first document that carries it: the collection afterwards is
    that split without the document, every other document still in place
    and in order. *)
Theorem delete_removes_one `{Externals} (h : ColHandle) (s : string)
  (st st1 : State) :
  delete_by_id h s st = (inr tt, st1) ->
  exists oid l1 d l2,
    ObjectId_of_str s = Some oid /\
    get_col h (db st) = l1 ++ d :: l2 /\
    get_col h (db st1) = l1 ++ l2 /\
    d !! "_id" = Some (VOid oid) /\
    find_docs (by_id oid) l1 = [].
Proof.
  rewrite delete_by_id_shape. intros Hdel.
  destruct (delete_shape_returned _ _ _ _ _ Hdel) as (oid & c' & E & Hrm & ->).
  destruct (remove_first_split _ _ _ Hrm) as (l1 & d & l2 & Hc & -> & Hd & Hl1).
  exists oid, l1, d, l2. cbn [db]. rewrite get_col_set_col. auto.
Qed.

Lemma delete_removes_one_witness :
  exists oid l1 d l2,
    ObjectId_of_str "000000000000000000000004" = Some oid /\
    enrollments (db example_state) = l1 ++ d :: l2 /\
    enrollments
      (db (snd (@delete_enrollment example_externals
                  "000000000000000000000004" example_state)))
    = l1 ++ l2 /\
    d !! "_id" = Some (VOid oid) /\
    find_docs (by_id oid) l1 = [].
Proof.
  apply (@delete_removes_one example_externals enrollments_col
           "000000000000000000000004" example_state).
  reflexivity.
Defined.

Lemma app_delete `{Externals} (main : MainModule) (e : Entity) (t : datetime)
  (id : string) :
  id <> "" ->
  app main (mkRequest t DELETE [resource e; id] None)
  = respond 204 no_content (delete_by_id (entity_col e) id).
Proof. intros Hid. destruct id; [congruence|]. destruct e; reflexivity. Qed.

Lemma delete_after_insert `{Externals} (h : ColHandle) (doc : Document)
  (st : State) :
  generated (ObjectId_fresh (oid_inc st)) ->
  has_id (VOid (ObjectId_fresh (oid_inc st))) (get_col h (db st)) = false ->
  delete_by_id h (str (ObjectId_fresh (oid_inc st))) (inserted h doc st)
  = (inr tt, mkState (db st) (S (oid_inc st))).
Proof.
  intros Hgen Hnew. rewrite delete_by_id_shape. unfold delete_shape, bind.
  rewrite (parse_id_valid _ _ _ (ObjectId_of_str_str _ Hgen)).
  unfold delete_one, inserted. cbn [db oid_inc]. rewrite get_col_set_col.
  rewrite (remove_first_snoc _ _ _ (has_id_false _ _ Hnew))
    by apply lookup_insert_eq.
  cbn [Z.eqb ret]. rewrite set_col_set_col, set_col_get_col. reflexivity.
Qed.

(** X15.  Create, then delete, is a round trip on the database.  For each
    of the four resources, a body the input schema accepts and a generated
    ObjectId that is new to the collection: the POST answers 201, the
    DELETE on the identifier it returned answers 204, and every collection
    is then what it was before the POST. *)
Theorem create_then_delete `{Externals} (main : MainModule) (e : Entity)
  (t1 t2 : datetime) (body : Document) (st : State) :
  email_stable ->
  valid_input main e body ->
  generated (ObjectId_fresh (oid_inc st)) ->
  has_id (VOid (ObjectId_fresh (oid_inc st))) (get_col (entity_col e) (db st))
    = false ->
  exists c st1 st2,
    app main (mkRequest t1 POST [resource e] (Some body)) st
      = (mkResponse 201 c, st1) /\
    record_of main e body (str (ObjectId_fresh (oid_inc st))) = Some c /\
    app main (mkRequest t2 DELETE
                [resource e; str (ObjectId_fresh (oid_inc st))] None) st1
      = (mkResponse 204 CNone, st2) /\
    db st2 = db st.
Proof.
  intros Hstable Hvalid Hgen Hnew.
  destruct (post_creates main e t1 body st Hstable Hvalid Hnew)
    as (c & doc & Hpost & Hrec & _ & _).
  exists c, (inserted (entity_col e) doc st),
    (mkState (db st) (S (oid_inc st))).
  split; [exact Hpost|]. split; [exact Hrec|]. split; [|reflexivity].
  rewrite (app_delete main e t2 _ (str_nonempty _ Hgen)). unfold respond.
  rewrite (delete_after_insert _ doc st Hgen Hnew). reflexivity.
Qed.

Lemma create_then_delete_witness :
  exists c st1 st2,
    @app example_externals example_main
      (mkRequest 7000000 POST ["instructors"]
         (Some (<["name" := VStr "Kurt"]>
                  (<["email" := VStr "kurt@x.com"]> ∅))))
      example_state
      = (mkResponse 201 c, st1) /\
    @record_of example_externals example_main EInstructor
      (<["name" := VStr "Kurt"]> (<["email" := VStr "kurt@x.com"]> ∅))
      "000000000000000000000005" = Some c /\
    @app example_externals example_main
      (mkRequest 8000000 DELETE ["instructors"; "000000000000000000000005"]
         None) st1
      = (mkResponse 204 CNone, st2) /\
    db st2 = db example_state.
Proof.
  apply (@create_then_delete example_externals example_main EInstructor
           7000000 8000000
           (<["name" := VStr "Kurt"]> (<["email" := VStr "kurt@x.com"]> ∅))
           example_state).
  - exact example_email_stable.
  - vm_compute. eexists. reflexivity.
  - reflexivity.
  - reflexivity.
Defined.

(** ** What the relational queries return *)

Section Joins.
Context `{Externals}.

Lemma matches_eq_str (k s : string) (d : Document) :
  matches (FEq k (VStr s)) d = true <-> d !! k = Some (VStr s).
Proof.
  unfold matches, field. rewrite bool_decide_eq_true.
  destruct (d !! k) as [v|]; split; congruence.
Qed.

Lemma matches_in_oids (oids : list ObjectId) (d : Document) :
  matches (FIn "_id" (VOid <$> oids)) d = true <->
  exists oid, oid ∈ oids /\ d !! "_id" = Some (VOid oid).
Proof.
  unfold matches, field. rewrite bool_decide_eq_true, list_elem_of_fmap.
  destruct (d !! "_id") as [v|]; split.
  - intros (oid & -> & Hin). eauto.
  - intros (oid & Hin & [= ->]). eauto.
  - intros (oid & Hv & _). discriminate.
  - intros (oid & _ & Hv). discriminate.
Qed.

Lemma find_docs_sublist (q : Filter) (c : Collection) :
  sublist (find_docs q c) c.
Proof.
  induction c as [|d c IH]; cbn [find_docs]; [constructor|].
  destruct (matches q d); constructor; exact IH.
Qed.

(** The two comprehensions on well-formed references, with the ObjectIds
    they produce: those the references of the enrollments parse to. *)
Lemma refs_to_oids_exact (k : string) (enrolls : list Document) (st : State) :
  forallb (well_formed_ref k) enrolls = true ->
  exists vs oids,
    for_each (fun e => getitem e k) enrolls st = (inr vs, st) /\
    for_each ObjectId_new vs st = (inr oids, st) /\
    forall oid, oid ∈ oids <->
                exists e s, e ∈ enrolls /\ e !! k = Some (VStr s) /\
                            ObjectId_of_str s = Some oid.
Proof.
  induction enrolls as [|e enrolls IH]; cbn [forallb].
  - intros _. exists [], []. split; [reflexivity|]. split; [reflexivity|].
    intros oid. split; [intros Hin; inversion Hin|].
    intros (e & s & Hin & _). inversion Hin.
  - rewrite andb_true_iff. intros [He Hrest].
    destruct (IH Hrest) as (vs & oids & Hvs & Hoids & Hspec).
    unfold well_formed_ref, is_valid in He.
    destruct (e !! k) as [[|s| |]|] eqn:Hek; try discriminate.
    destruct (ObjectId_of_str s) as [oid|] eqn:Hs; [|discriminate].
    exists (VStr s :: vs), (oid :: oids). split; [|split].
    + cbn [for_each]. unfold bind at 1. unfold getitem at 1. rewrite Hek.
      cbn [ret]. unfold bind. rewrite Hvs. reflexivity.
    + cbn [for_each]. unfold bind at 1. cbn [ObjectId_new]. rewrite Hs.
      cbn [ret]. unfold bind. rewrite Hoids. reflexivity.
    + intros o. rewrite elem_of_cons, Hspec. split.
      * intros [->|(e' & s' & Hin & Hk & Hp)].
        -- exists e, s. split; [left|]; auto.
        -- exists e', s'. split; [right|]; auto.
      * intros (e' & s' & Hin & Hk & Hp).
        apply elem_of_cons in Hin as [->|Hin].
        -- left. congruence.
        -- right. eauto.
Qed.

Lemma set_ids_as_str (l docs : list Document) :
  Forall2 (fun d d' => exists oid, d !! "_id" = Some (VOid oid) /\
                        d' = <["_id" := VStr (str oid)]> d) l docs ->
  Forall2 id_as_str l docs.
Proof.
  intros Hall. eapply Forall2_impl; [exact Hall|].
  intros d d' (oid & Hd & ->). exists (VOid oid). auto.
Qed.

(** The query both relational handlers make, on well-formed references:
    it returns, as strings-for-ids copies, the documents of the target
    collection, in its order, whose [_id] some matching enrollment refers
    to. *)
Lemma join_exact (q : Filter) (ref : string) (target : ColHandle)
  (st : State) :
  forallb (well_formed_ref ref) (find_docs q (enrollments (db st))) = true ->
  exists matched docs,
    (enrolls <- find enrollments_col q ;;
     refs <- for_each (fun e => getitem e ref) enrolls ;;
     oids <- for_each ObjectId_new refs ;;
     docs <- find target (FIn "_id" (VOid <$> oids)) ;;
     for_each set_id_str docs) st = (inr docs, st) /\
    Forall2 id_as_str matched docs /\
    sublist matched (get_col target (db st)) /\
    forall d, d ∈ matched <->
      d ∈ get_col target (db st) /\
      exists e s oid,
        e ∈ enrollments (db st) /\ matches q e = true /\
        e !! ref = Some (VStr s) /\ ObjectId_of_str s = Some oid /\
        d !! "_id" = Some (VOid oid).
Proof.
  intros Hrefs.
  destruct (refs_to_oids_exact _ _ st Hrefs) as (vs & oids & Hvs & Hoids & Hspec).
  destruct (set_ids_oids _ (find_in_oids oids (get_col target (db st))))
    as (docs & Hset & Hall).
  exists (find_docs (FIn "_id" (VOid <$> oids)) (get_col target (db st))), docs.
  split; [|split; [apply set_ids_as_str, Hall|split;
                   [apply find_docs_sublist|]]].
  - unfold bind at 1. unfold find at 1. cbn [get_col].
    unfold bind at 1. rewrite Hvs.
    unfold bind at 1. rewrite Hoids.
    unfold bind, find. rewrite for_each_set_id_str, Hset. reflexivity.
  - intros d. rewrite find_docs_elem, matches_in_oids. split.
    + intros (Hin & oid & Hoid & Hd). split; [exact Hin|].
      apply Hspec in Hoid as (e & s & He & Hk & Hp).
      apply find_docs_elem in He as [He Hm].
      exists e, s, oid. auto.
    + intros (Hin & e & s & oid & He & Hm & Hk & Hp & Hd).
      split; [exact Hin|]. exists oid. split; [|exact Hd].
      apply Hspec. exists e, s. split; [|auto].
      apply find_docs_elem. auto.
Qed.

Lemma find_in_nothing (k : string) (c : Collection) :
  find_docs (FIn k []) c = [].
Proof.
  induction c as [|d c IH]; cbn [find_docs]; [reflexivity|].
  replace (matches (FIn k []) d) with false; [exact IH|].
  symmetry. apply bool_decide_eq_false. intros Hin. inversion Hin.
Qed.

End Joins.

(** X16.  What [get_courses_of_student] returns.  When every enrollment
    of the student carries a well-formed course reference, the handler
    returns and leaves the state as it was; the documents it returns are
    the string-for-[_id] copies of a sub-sequence of the courses collection,
    in its order, and a course is in that sub-sequence exactly when some
    enrollment of the student refers to its [_id].  A reference to a course
    that is not there adds nothing and raises nothing. *)
Theorem courses_of_student_exact `{Externals} (student_id : string)
  (st : State) :
  forallb (well_formed_ref "course_id")
    (find_docs (FEq "student_id" (VStr student_id)) (enrollments (db st)))
    = true ->
  exists matched docs,
    get_courses_of_student student_id st = (inr docs, st) /\
    Forall2 id_as_str matched docs /\
    sublist matched (courses (db st)) /\
    forall d, d ∈ matched <->
      d ∈ courses (db st) /\
      exists e s oid,
        e ∈ enrollments (db st) /\
        e !! "student_id" = Some (VStr student_id) /\
        e !! "course_id" = Some (VStr s) /\ ObjectId_of_str s = Some oid /\
        d !! "_id" = Some (VOid oid).
Proof.
  intros Hrefs.
  destruct (join_exact _ "course_id" courses_col st Hrefs)
    as (matched & docs & Hrun & Hall & Hsub & Hspec).
  exists matched, docs. repeat (split; [assumption|]).
  intros d. rewrite Hspec. cbn [get_col].
  split; intros (Hin & e & s & oid & He & Hm & Hrest);
    (split; [exact Hin|]); exists e, s, oid; (split; [exact He|]);
    (split; [apply matches_eq_str; exact Hm | exact Hrest]).
Qed.

Lemma courses_of_student_exact_witness :
  exists matched docs,
    @get_courses_of_student example_externals "000000000000000000000002"
      example_state = (inr docs, example_state) /\
    Forall2 (@id_as_str example_externals) matched docs /\
    sublist matched (courses (db example_state)) /\
    forall d, d ∈ matched <->
      d ∈ courses (db example_state) /\
      exists e s oid,
        e ∈ enrollments (db example_state) /\
        e !! "student_id" = Some (VStr "000000000000000000000002") /\
        e !! "course_id" = Some (VStr s) /\ ObjectId_of_str s = Some oid /\
        d !! "_id" = Some (VOid oid).
Proof.
  apply (@courses_of_student_exact example_externals
           "000000000000000000000002" example_state).
  reflexivity.
Defined.

(** X17.  What [get_students_of_course] returns, symmetrically: when
    every enrollment in the course carries a well-formed student
    reference, the handler returns the string-for-[_id] copies of a
    sub-sequence of the students collection, in its order, and a student is
    in it exactly when some enrollment in the course refers to its [_id]. *)
Theorem students_of_course_exact `{Externals} (course_id : string)
  (st : State) :
  forallb (well_formed_ref "student_id")
    (find_docs (FEq "course_id" (VStr course_id)) (enrollments (db st)))
    = true ->
  exists matched docs,
    get_students_of_course course_id st = (inr docs, st) /\
    Forall2 id_as_str matched docs /\
    sublist matched (students (db st)) /\
    forall d, d ∈ matched <->
      d ∈ students (db st) /\
      exists e s oid,
        e ∈ enrollments (db st) /\
        e !! "course_id" = Some (VStr course_id) /\
        e !! "student_id" = Some (VStr s) /\ ObjectId_of_str s = Some oid /\
        d !! "_id" = Some (VOid oid).
Proof.
  intros Hrefs.
  destruct (join_exact _ "student_id" students_col st Hrefs)
    as (matched & docs & Hrun & Hall & Hsub & Hspec).
  exists matched, docs. repeat (split; [assumption|]).
  intros d. rewrite Hspec. cbn [get_col].
  split; intros (Hin & e & s & oid & He & Hm & Hrest);
    (split; [exact Hin|]); exists e, s, oid; (split; [exact He|]);
    (split; [apply matches_eq_str; exact Hm | exact Hrest]).
Qed.

Lemma students_of_course_exact_witness :
  exists matched docs,
    @get_students_of_course example_externals "000000000000000000000001"
      example_state = (inr docs, example_state) /\
    Forall2 (@id_as_str example_externals) matched docs /\
    sublist matched (students (db example_state)) /\
    forall d, d ∈ matched <->
      d ∈ students (db example_state) /\
      exists e s oid,
        e ∈ enrollments (db example_state) /\
        e !! "course_id" = Some (VStr "000000000000000000000001") /\
        e !! "student_id" = Some (VStr s) /\ ObjectId_of_str s = Some oid /\
        d !! "_id" = Some (VOid oid).
Proof.
  apply (@students_of_course_exact example_externals
           "000000000000000000000001" example_state).
  reflexivity.
Defined.

(** X18.  [get_students_of_course] returns each student at most once: with
    [_id] unique among the students and well-formed student references in
    the enrollments of the course, no two returned documents share an
    [_id], however many enrollments of the course point at one student. *)
Theorem students_of_course_no_duplicates `{Externals} (course_id : string)
  (st : State) :
  unique_ids (students (db st)) ->
  forallb (well_formed_ref "student_id")
    (find_docs (FEq "course_id" (VStr course_id)) (enrollments (db st)))
    = true ->
  exists docs,
    get_students_of_course course_id st = (inr docs, st) /\
    unique_ids docs /\ NoDup docs.
Proof. apply (join_no_duplicates _ "student_id" students_col). Qed.

Lemma students_of_course_no_duplicates_witness :
  length (find_docs (FEq "course_id" (VStr "000000000000000000000001"))
            (enrollments (db example_state))) = 2%nat /\
  exists docs,
    @get_students_of_course example_externals "000000000000000000000001"
      example_state = (inr docs, example_state) /\
    unique_ids docs /\ NoDup docs.
Proof.
  split; [reflexivity|].
  apply (@students_of_course_no_duplicates example_externals
           "000000000000000000000001" example_state).
  - apply (bool_decide_unpack _). vm_compute. exact I.
  - reflexivity.
Defined.

(** X19.  No enrollment, no result and no error: for a student without
    enrollments [get_courses_of_student] returns the empty list, and so does
    [get_students_of_course] for a course without enrollments, whatever the
    string is (no format is asked of it) and whatever the other collections
    hold. *)
Theorem no_enrollment_empty_result `{Externals} (id : string) (st : State) :
  (find_docs (FEq "student_id" (VStr id)) (enrollments (db st)) = [] ->
   get_courses_of_student id st = (inr [], st)) /\
  (find_docs (FEq "course_id" (VStr id)) (enrollments (db st)) = [] ->
   get_students_of_course id st = (inr [], st)).
Proof.
  split; intros Hnone;
    unfold get_courses_of_student, get_students_of_course, bind, find;
    cbn [get_col]; rewrite Hnone; cbn [for_each ret fmap list_fmap];
    rewrite find_in_nothing; reflexivity.
Qed.

Lemma no_enrollment_empty_result_witness :
  @get_courses_of_student example_externals "not-an-id" example_state
  = (inr [], example_state).
Proof.
  destruct (@no_enrollment_empty_result example_externals "not-an-id"
              example_state) as [Hcourses _].
  apply Hcourses. reflexivity.
Defined.

(** X20.  [get_courses_by_instructor] compares strings and validates
    nothing.  For every string, an ObjectId or not, the instructor existing
    or not: when the courses carry an [_id], the handler returns and leaves
    the state as it was, and what it returns are the string-for-[_id]
    copies of the courses, in the collection's order, whose
    [instructor_id] is that very string. *)
Theorem courses_by_instructor_exact `{Externals} (instructor_id : string)
  (st : State) :
  Forall (fun d : Document => is_Some (d !! "_id")) (courses (db st)) ->
  exists matched docs,
    get_courses_by_instructor instructor_id st = (inr docs, st) /\
    Forall2 id_as_str matched docs /\
    sublist matched (courses (db st)) /\
    forall d, d ∈ matched <->
      d ∈ courses (db st) /\ d !! "instructor_id" = Some (VStr instructor_id).
Proof.
  intros Hids.
  set (matched := find_docs (FEq "instructor_id" (VStr instructor_id))
                    (courses (db st))).
  assert (Hm : Forall (fun d : Document => is_Some (d !! "_id")) matched).
  { apply Forall_forall. intros d Hd. apply find_docs_elem in Hd as [Hd _].
    revert d Hd. apply Forall_forall, Hids. }
  destruct (set_ids_total _ Hm) as [docs Hdocs].
  exists matched, docs. rewrite get_courses_by_instructor_pure.
  fold matched. rewrite Hdocs. split; [reflexivity|].
  split; [apply set_ids_inr, Hdocs|]. split; [apply find_docs_sublist|].
  intros d. unfold matched. rewrite find_docs_elem, matches_eq_str.
  reflexivity.
Qed.

Lemma courses_by_instructor_exact_witness :
  is_valid "someone" = false /\
  exists matched docs,
    @get_courses_by_instructor example_externals "someone" example_state
      = (inr docs, example_state) /\
    Forall2 (@id_as_str example_externals) matched docs /\
    sublist matched (courses (db example_state)) /\
    forall d, d ∈ matched <->
      d ∈ courses (db example_state) /\
      d !! "instructor_id" = Some (VStr "someone").
Proof.
  split; [reflexivity|].
  apply (@courses_by_instructor_exact example_externals "someone"
           example_state).
  apply (bool_decide_unpack _). vm_compute. exact I.
Defined.

(** ** Identifiers in their canonical form *)

Lemma fromhex_length (l : list ascii) :
  (forall bs, fromhex l = Some bs -> (2 * length bs <= length l)%nat) /\
  (forall c bs,
     fromhex (c :: l) = Some bs -> (2 * length bs <= S (length l))%nat).
Proof.
  induction l as [|d l [IH0 IH1]].
  - split.
    + intros bs [= <-]. cbn. lia.
    + intros c bs. cbn [fromhex]. destruct (is_space c).
      * intros [= <-]. cbn. lia.
      * discriminate.
  - split; [exact (IH1 d)|].
    intros c bs. cbn [fromhex]. destruct (is_space c).
    + intros E. apply (IH1 d) in E. cbn [length]. lia.
    + destruct (unhex c), (unhex d); try discriminate.
      destruct (byte_of_nibbles _ _); [|discriminate].
      destruct (fromhex l) as [bs'|] eqn:E; [|discriminate].
      intros [= <-]. specialize (IH0 bs' eq_refl). cbn [length]. lia.
Qed.

Lemma ObjectId_of_str_length (s : string) (oid : ObjectId) :
  ObjectId_of_str s = Some oid -> (length oid <= 12)%nat.
Proof.
  unfold ObjectId_of_str.
  destruct (String.length s =? 24)%nat eqn:Hlen; [|discriminate].
  apply Nat.eqb_eq in Hlen. intros E.
  apply (proj1 (fromhex_length _)) in E.
  assert (Hl : length (list_ascii_of_string s) = String.length s).
  { clear. induction s as [|c s IH]; cbn; congruence. }
  lia.
Qed.

Lemma run_shape_same_oid `{Externals} (k : Shape) (h : ColHandle)
  (s s' : string) (oid : ObjectId) (st : State) :
  ObjectId_of_str s = Some oid ->
  ObjectId_of_str s' = Some oid ->
  run_shape k h s st = run_shape k h s' st.
Proof.
  intros E E'.
  destruct k; unfold run_shape, outcome, get_shape, update_shape,
    delete_shape, bind;
    rewrite (parse_id_valid _ _ _ E), (parse_id_valid _ _ _ E'); reflexivity.
Qed.

Lemma fromhex_no_space (l : list ascii) :
  (forall bs, forallb (fun c => negb (is_space c)) l = true ->
     fromhex l = Some bs -> length l = (2 * length bs)%nat) /\
  (forall c bs, forallb (fun c => negb (is_space c)) (c :: l) = true ->
     fromhex (c :: l) = Some bs -> S (length l) = (2 * length bs)%nat).
Proof.
  induction l as [|d l [IH0 IH1]].
  - split.
    + intros bs _ [= <-]. reflexivity.
    + intros c bs. cbn [forallb fromhex].
      destruct (is_space c); discriminate.
  - split; [exact (IH1 d)|].
    intros c bs. cbn [forallb fromhex].
    destruct (is_space c); [discriminate|]. cbn [negb andb]. intros Hl.
    apply andb_prop in Hl as [_ Hl].
    destruct (unhex c), (unhex d); try discriminate.
    destruct (byte_of_nibbles _ _); [|discriminate].
    destruct (fromhex l) as [bs'|] eqn:E; [|discriminate].
    intros [= <-]. specialize (IH0 bs' Hl eq_refl). cbn [length]. lia.
Qed.

Lemma ObjectId_of_str_no_space (s : string) (oid : ObjectId) :
  no_space s = true -> ObjectId_of_str s = Some oid -> generated oid.
Proof.
  unfold ObjectId_of_str, no_space, generated. intros Hs.
  destruct (String.length s =? 24)%nat eqn:Hlen; [|discriminate].
  apply Nat.eqb_eq in Hlen. intros E.
  apply (proj1 (fromhex_no_space _) _ Hs) in E.
  assert (Hl : length (list_ascii_of_string s) = String.length s).
  { clear. induction s as [|c s IH]; cbn; congruence. }
  lia.
Qed.

Lemma call_with_id `{Externals} (c : ByIdCall) (s : string) (st : State) :
  call (with_id c s) st = run_shape (call_shape c) (call_col c) s st.
Proof. rewrite call_run_shape. destruct c; reflexivity. Qed.

(** [bytes.fromhex] skips white space, so a string of 24 characters
    with blanks in it is an ObjectId of fewer than twelve bytes: its
    [str] is shorter than 24 characters and is no identifier, and a handler
    given the string looks the ObjectId up and answers 404, not 400. *)
Example blank_identifier :
  ObjectId_of_str "00 00 00 00 00 00 00 00 " = Some (replicate 8 x00) /\
  ObjectId_of_str (str (replicate 8 x00)) = None /\
  @get_instructor example_externals "00 00 00 00 00 00 00 00 " example_state
  = (inl (HTTPException 404 "Instructor not found"), example_state).
Proof. repeat split; vm_compute; reflexivity. Qed.

(** X21.  An identifier is read through its ObjectId.  A by-id call
    made with a string that parses depends on the string only through the
    ObjectId it parses to: made with any other spelling of the same
    ObjectId (upper-case digits, say) it behaves exactly the same.  That
    ObjectId has at most twelve bytes, and twelve when the string has no
    white space; when it has twelve, its [str], which is what the API
    returns as [_id], parses back to it, and the call made with that string
    behaves the same again. *)
Theorem identifier_is_canonical `{Externals} (c : ByIdCall) (oid : ObjectId)
  (st : State) :
  ObjectId_of_str (call_id c) = Some oid ->
  (length oid <= 12)%nat /\
  (no_space (call_id c) = true -> generated oid) /\
  (forall s', ObjectId_of_str s' = Some oid ->
     call (with_id c s') st = call c st) /\
  (generated oid ->
     ObjectId_of_str (str oid) = Some oid /\
     call (with_id c (str oid)) st = call c st).
Proof.
  intros E.
  assert (Hsame : forall s', ObjectId_of_str s' = Some oid ->
            call (with_id c s') st = call c st).
  { intros s' E'. rewrite call_with_id, call_run_shape.
    apply (run_shape_same_oid _ _ _ _ oid); assumption. }
  split; [exact (ObjectId_of_str_length _ _ E)|].
  split; [intros Hs; exact (ObjectId_of_str_no_space _ _ Hs E)|].
  split; [exact Hsame|].
  intros Hgen. pose proof (ObjectId_of_str_str _ Hgen) as Hback.
  split; [exact Hback|]. apply Hsame, Hback.
Qed.

Lemma identifier_is_canonical_witness :
  ObjectId_of_str "0000000000000000000000AB" = Some (nth_oid 171) /\
  str (nth_oid 171) = "0000000000000000000000ab" /\
  @call example_externals (GetCourse "0000000000000000000000ab") example_state
  = @call example_externals (GetCourse "0000000000000000000000AB")
      example_state.
Proof.
  split; [reflexivity|]. split; [reflexivity|].
  exact (proj2 (proj2 (proj2 (proj2
           (@identifier_is_canonical example_externals
              (GetCourse "0000000000000000000000AB") (nth_oid 171)
              example_state eq_refl))) eq_refl)).
Defined.

(** ** The invariant, for sequences of requests *)

(** X22.  No request breaks the uniqueness of [_id]: from a state in
    which no two documents of a collection share an [_id], any sequence of
    requests, whatever their methods, paths and bodies and whatever they are
    answered, leads to such a state again. *)
Theorem requests_keep_ids_unique `{Externals} (main : MainModule)
  (reqs : list Request) (st : State) :
  unique_db (db st) ->
  unique_db (db (snd (serve main reqs st))).
Proof. apply serve_preserves. Qed.

Lemma requests_keep_ids_unique_witness :
  unique_db
    (db (snd (@serve example_externals example_main example_requests
                (mkState empty_db 0)))).
Proof.
  apply (@requests_keep_ids_unique example_externals example_main
           example_requests (mkState empty_db 0)).
  repeat split; apply (bool_decide_unpack _); vm_compute; exact I.
Defined.

(** ** The schemas *)

(** X23.  An input object survives its own dict: for each of the four
    input schemas, validating the dict of an object gives the object back
    (for the two schemas with an address, when the validator leaves that
    address as it is).  This is what lets a handler rebuild the record from
    [x.dict()] after the insert. *)
Theorem dict_then_validate `{Externals} (main : MainModule) :
  (forall x, validate_email (InstructorCreate.email x)
               = Some (InstructorCreate.email x) ->
             InstructorCreate.validate (InstructorCreate.dict x) = Some x) /\
  (forall x, validate_email (StudentCreate.email x)
               = Some (StudentCreate.email x) ->
             StudentCreate.validate (StudentCreate.dict x) = Some x) /\
  (forall x, CourseCreate.validate (CourseCreate.dict x) = Some x) /\
  (forall x, EnrollmentCreate.validate main (EnrollmentCreate.dict x)
             = Some x).
Proof.
  repeat split.
  - intros [n e x] Hv. cbn [InstructorCreate.email] in Hv.
    unfold InstructorCreate.validate, email_field.
    replace (InstructorCreate.dict (InstructorCreate.mk n e x) !! "email")
      with (Some (VStr e)) by reflexivity.
    rewrite Hv. destruct x; reflexivity.
  - intros [n e] Hv. cbn [StudentCreate.email] in Hv.
    unfold StudentCreate.validate, email_field.
    replace (StudentCreate.dict (StudentCreate.mk n e) !! "email")
      with (Some (VStr e)) by reflexivity.
    rewrite Hv. reflexivity.
  - intros [t [d|] i]; reflexivity.
  - intros [s c t]. reflexivity.
Qed.

Lemma dict_then_validate_witness :
  @InstructorCreate.validate example_externals
    (InstructorCreate.dict (InstructorCreate.mk "Ada" "ada@x.com" None))
  = Some (InstructorCreate.mk "Ada" "ada@x.com" None).
Proof.
  destruct (@dict_then_validate example_externals example_main)
    as [Hinstructor _].
  apply Hinstructor. reflexivity.
Defined.

(** X24.  A create stores the fields of the schema and [_id], nothing
    else.  For each of the four resources, a body the input schema accepts
    and a generated ObjectId that is new to the collection: the document the
    POST adds has exactly the keys the input schema declares plus [_id].  A
    key of the body the schema does not declare is not stored; an optional
    field the body leaves out is stored all the same. *)
Theorem create_stores_schema_fields `{Externals} (main : MainModule)
  (e : Entity) (t : datetime) (body : Document) (st : State) :
  email_stable ->
  valid_input main e body ->
  has_id (VOid (ObjectId_fresh (oid_inc st))) (get_col (entity_col e) (db st))
    = false ->
  exists c d st1,
    app main (mkRequest t POST [resource e] (Some body)) st
      = (mkResponse 201 c, st1) /\
    get_col (entity_col e) (db st1)
      = get_col (entity_col e) (db st) ++ [d] /\
    dom d = {["_id"]} ∪ schema_fields e.
Proof.
  intros Hstable Hvalid Hnew.
  destruct (post_creates main e t body st Hstable Hvalid Hnew)
    as (c & doc & Hpost & _ & _ & Hdom).
  eexists c, _, _. split; [exact Hpost|].
  unfold inserted. cbn [db]. split; [apply get_col_set_col|].
  unfold bson_document. rewrite dom_insert_L, dom_fmap_L, Hdom. reflexivity.
Qed.

Lemma create_stores_schema_fields_witness :
  exists c d st1,
    @app example_externals example_main
      (mkRequest 7000000 POST ["courses"]
         (Some (<["title" := VStr "CS102"]>
                  (<["instructor_id" := VStr "000000000000000000000000"]>
                     (<["room" := VStr "B12"]> ∅)))))
      example_state
      = (mkResponse 201 c, st1) /\
    courses (db st1) = courses (db example_state) ++ [d] /\
    dom d = {["_id"]} ∪ {["title"; "description"; "instructor_id"]}.
Proof.
  apply (@create_stores_schema_fields example_externals example_main ECourse
           7000000
           (<["title" := VStr "CS102"]>
              (<["instructor_id" := VStr "000000000000000000000000"]>
                 (<["room" := VStr "B12"]> ∅)))
           example_state).
  - exact example_email_stable.
  - vm_compute. eexists. reflexivity.
  - reflexivity.
Defined.

(** ** Identifiers that are there *)

(** X25.  A get returns the stored document.  For instructors, students
    and courses: with a well-formed identifier and a document of the
    collection under its ObjectId, the handler returns the first such
    document with [_id] replaced by the ObjectId's string, every other field
    as stored, and leaves the state as it was. *)
Theorem get_returns_stored `{Externals} (s : string) (oid : ObjectId)
  (st : State) :
  ObjectId_of_str s = Some oid ->
  (forall d rest,
      find_docs (by_id oid) (instructors (db st)) = d :: rest ->
      get_instructor s st = (inr (<["_id" := VStr (str oid)]> d), st)) /\
  (forall d rest,
      find_docs (by_id oid) (students (db st)) = d :: rest ->
      get_student s st = (inr (<["_id" := VStr (str oid)]> d), st)) /\
  (forall d rest,
      find_docs (by_id oid) (courses (db st)) = d :: rest ->
      get_course s st = (inr (<["_id" := VStr (str oid)]> d), st)).
Proof.
  intros E. split; [|split]; intros d rest Hf.
  - apply (get_shape_found instructors_col _ _ _ _ _ _ E Hf).
  - apply (get_shape_found students_col _ _ _ _ _ _ E Hf).
  - apply (get_shape_found courses_col _ _ _ _ _ _ E Hf).
Qed.

Lemma get_returns_stored_witness :
  let d : Document := default ∅ (head (courses (db example_state))) in
  find_docs (by_id (nth_oid 1)) (courses (db example_state)) = [d] /\
  @get_course example_externals "000000000000000000000001" example_state
  = (inr (<["_id" := VStr "000000000000000000000001"]> d), example_state).
Proof.
  cbv zeta.
  assert (Hf : find_docs (by_id (nth_oid 1)) (courses (db example_state))
               = [default ∅ (head (courses (db example_state)))])
    by (vm_compute; reflexivity).
  split; [exact Hf|].
  destruct (@get_returns_stored example_externals
              "000000000000000000000001" (nth_oid 1) example_state eq_refl)
    as (_ & _ & Hcourse).
  apply (Hcourse _ [] Hf).
Defined.

(** X26.  Next to the 400 of a malformed identifier and the 404 of an
    absent one, the third case of a by-id call: for a well-formed
    identifier that some document of the collection carries, each of the
    ten by-id handlers returns; none of them raises. *)
Theorem present_id_returns `{Externals} (c : ByIdCall) (oid : ObjectId)
  (st : State) :
  ObjectId_of_str (call_id c) = Some oid ->
  find_docs (by_id oid) (get_col (call_col c) (db st)) <> [] ->
  fst (call c st) = inr tt.
Proof.
  intros E Hfound. rewrite call_run_shape.
  pose proof (call_shape_no_id c) as Hupd.
  destruct (find_docs (by_id oid) (get_col (call_col c) (db st)))
    as [|d rest] eqn:Hf; [congruence|].
  destruct (call_shape c) as [|upd|]; unfold run_shape, outcome.
  - rewrite (get_shape_found _ _ _ _ _ _ _ E Hf). reflexivity.
  - destruct (update_shape_found (call_col c)
                (not_found_detail (call_col c)) _ _ upd _ _ _ E
                (Hupd _ eq_refl) Hf) as (c' & -> & _).
    reflexivity.
  - destruct (delete_shape_found (call_col c)
                (not_found_detail (call_col c)) _ _ st E) as (c' & _ & ->);
      [rewrite Hf; discriminate | reflexivity].
Qed.

Lemma present_id_returns_witness :
  fst (@call example_externals
         (UpdateStudent "000000000000000000000002"
            (StudentCreate.mk "Robert" "not-validated-here"))
         example_state)
  = inr tt.
Proof.
  apply (@present_id_returns example_externals
           (UpdateStudent "000000000000000000000002"
              (StudentCreate.mk "Robert" "not-validated-here"))
           (nth_oid 2) example_state).
  - reflexivity.
  - intros E. apply (f_equal length) in E. vm_compute in E. discriminate E.
Defined.
